(** * kiesraad: EML election results to flat records

    A shallow embedding of [kiesraad/parse_eml.py] and the properties of
    its record builders.

    The Python program walks the nested mapping that [xmltodict] builds
    from an EML document.  The embedding keeps the program's shape: the
    document is a dynamically typed value ([pyobj]), every subscript,
    iteration and method call can raise the exception Python raises, the
    [try ... except] blocks catch exactly the classes the source names,
    and the loops thread the function's local variables explicitly.

    Strings are sequences of code points below 256; [str.strip],
    [str.lower] and the regular expression [.] are modelled exactly on
    that range. *)

From Stdlib Require Import String Ascii List ZArith Bool Arith Lia Permutation.
From Stdlib Require Decimal DecimalString DecimalNat DecimalFacts.
Import ListNotations.
Open Scope string_scope.
Open Scope list_scope.
Set Warnings "-register-all".

(* ================================================================= *)
(** ** Python values and exceptions *)

(** The exception classes that the program can meet.  [KeyError] and
    [UnboundLocalError] carry the key and the variable they report;
    [OSError] and [ExpatError] are what [open] and [xmltodict.parse]
    raise. *)
Inductive exn : Type :=
| KeyError (key : string)
| TypeError
| IndexError
| AttributeError
| ValueError
| UnboundLocalError (var : string)
| UnicodeDecodeError
| OSError
| ExpatError.

(** A computation that returns or raises. *)
Inductive res (A : Type) : Type :=
| Ok (a : A)
| Raise (e : exn).
Arguments Ok {A} a.
Arguments Raise {A} e.

Definition bind {A B} (c : res A) (k : A -> res B) : res B :=
  match c with
  | Ok a => k a
  | Raise e => Raise e
  end.

Notation "x <- c ;; k" := (bind c (fun x => k))
  (at level 61, c at next level, right associativity).
Notation "' pat <- c ;; k" := (bind c (fun x => match x with pat => k end))
  (at level 61, pat pattern, c at next level, right associativity).

(** [try: body except <classes>: handler]. *)
Definition try_except {A} (body : res A) (caught : exn -> bool)
    (handler : res A) : res A :=
  match body with
  | Ok a => Ok a
  | Raise e => if caught e then handler else Raise e
  end.

Definition is_KeyError (e : exn) : bool :=
  match e with KeyError _ => true | _ => false end.
Definition is_TypeError (e : exn) : bool :=
  match e with TypeError => true | _ => false end.
Definition is_IndexError (e : exn) : bool :=
  match e with IndexError => true | _ => false end.
Definition is_TypeError_or_KeyError (e : exn) : bool :=
  is_TypeError e || is_KeyError e.
Definition is_UnicodeDecodeError (e : exn) : bool :=
  match e with UnicodeDecodeError => true | _ => false end.

(** The values of a parsed document: [None], text, mappings with string
    keys in document order, and lists.  Integers appear in the output
    rows (coerced vote counts). *)
Inductive pyobj : Type :=
| PNone
| PStr (s : string)
| PInt (n : Z)
| PList (l : list pyobj)
| PDict (d : list (string * pyobj)).

Fixpoint lookup (k : string) (d : list (string * pyobj)) : option pyobj :=
  match d with
  | [] => None
  | (k', v) :: d' => if String.eqb k k' then Some v else lookup k d'
  end.

(** [o[k]] for a string key [k]: only a mapping can be indexed by a
    string; a missing key is a [KeyError], anything else a [TypeError]. *)
Definition subscript (o : pyobj) (k : string) : res pyobj :=
  match o with
  | PDict d =>
      match lookup k d with
      | Some v => Ok v
      | None => Raise (KeyError k)
      end
  | _ => Raise TypeError
  end.

Definition isinstance_str (o : pyobj) : bool :=
  match o with PStr _ => true | _ => false end.
Definition isinstance_dict (o : pyobj) : bool :=
  match o with PDict _ => true | _ => false end.

(** Truth value of an object in a condition. *)
Definition truthy (o : pyobj) : bool :=
  match o with
  | PNone => false
  | PStr s => negb (String.eqb s "")
  | PInt n => negb (Z.eqb n 0%Z)
  | PList l => match l with [] => false | _ => true end
  | PDict d => match d with [] => false | _ => true end
  end.

Fixpoint chars (s : string) : list pyobj :=
  match s with
  | EmptyString => []
  | String c s' => PStr (String c EmptyString) :: chars s'
  end.

(** [for x in o]: the items a loop over [o] visits. *)
Definition iterate (o : pyobj) : res (list pyobj) :=
  match o with
  | PList l => Ok l
  | PDict d => Ok (map (fun kv => PStr (fst kv)) d)
  | PStr s => Ok (chars s)
  | PNone | PInt _ => Raise TypeError
  end.

(** [o.keys()]. *)
Definition keys (o : pyobj) : res (list string) :=
  match o with
  | PDict d => Ok (map fst d)
  | _ => Raise AttributeError
  end.

Fixpoint is_substring (k s : string) : bool :=
  String.prefix k s ||
  match s with
  | EmptyString => false
  | String _ s' => is_substring k s'
  end.

(** ['k' in o]. *)
Definition contains (k : string) (o : pyobj) : res bool :=
  match o with
  | PDict d => Ok (existsb (String.eqb k) (map fst d))
  | PList l =>
      Ok (existsb (fun x => match x with PStr s => String.eqb k s | _ => false end) l)
  | PStr s => Ok (is_substring k s)
  | PNone | PInt _ => Raise TypeError
  end.

(* ================================================================= *)
(** ** Strings *)

Definition newline : ascii := "010"%char.

(** [str.isspace] on code points below 256. *)
Definition is_space (c : ascii) : bool :=
  let n := nat_of_ascii c in
  (((9 <=? n) && (n <=? 13)) || ((28 <=? n) && (n <=? 32))
   || (n =? 133) || (n =? 160))%nat.

Fixpoint lstrip (s : string) : string :=
  match s with
  | EmptyString => EmptyString
  | String c s' => if is_space c then lstrip s' else s
  end.

Fixpoint rstrip (s : string) : string :=
  match s with
  | EmptyString => EmptyString
  | String c s' =>
      match rstrip s' with
      | EmptyString => if is_space c then EmptyString else String c EmptyString
      | r => String c r
      end
  end.

Definition strip (s : string) : string := rstrip (lstrip s).

(** [str.lower] on code points below 256. *)
Definition lower_char (c : ascii) : ascii :=
  let n := nat_of_ascii c in
  if (((65 <=? n) && (n <=? 90)) || ((192 <=? n) && (n <=? 214))
      || ((216 <=? n) && (n <=? 222)))%nat
  then ascii_of_nat (n + 32)%nat else c.

Fixpoint lower (s : string) : string :=
  match s with
  | EmptyString => EmptyString
  | String c s' => String (lower_char c) (lower s')
  end.

(** [o.lower()]: only text has this method. *)
Definition method_lower (o : pyobj) : res string :=
  match o with
  | PStr s => Ok (lower s)
  | _ => Raise AttributeError
  end.

(** [int(o)] in base 10: surrounding whitespace, an optional sign,
    digits with single underscores between them.  A text with more
    than [int_max_str_digits] digits is refused with [ValueError]
    (the default limit of CPython, leading zeros included). *)
Definition int_max_str_digits : Z := 4300.

Definition digit_of (c : ascii) : option Z :=
  let n := nat_of_ascii c in
  if ((48 <=? n) && (n <=? 57))%nat then Some (Z.of_nat (n - 48)%nat) else None.

Fixpoint parse_digits (acc : Z) (after_digit : bool) (s : string) : option Z :=
  match s with
  | EmptyString => if after_digit then Some acc else None
  | String c s' =>
      match digit_of c with
      | Some d => parse_digits (10 * acc + d)%Z true s'
      | None =>
          if Ascii.eqb c "_"%char && after_digit
          then parse_digits acc false s'
          else None
      end
  end.

Fixpoint count_digits (s : string) : Z :=
  match s with
  | EmptyString => 0
  | String c s' =>
      match digit_of c with
      | Some _ => 1 + count_digits s'
      | None => count_digits s'
      end
  end%Z.

Definition parse_numeral (s : string) : option Z :=
  if (count_digits s <=? int_max_str_digits)%Z
  then parse_digits 0%Z false s
  else None.

Definition int_of_string (s : string) : option Z :=
  match strip s with
  | String "-" s' => option_map Z.opp (parse_numeral s')
  | String "+" s' => parse_numeral s'
  | s' => parse_numeral s'
  end.

Definition py_int (o : pyobj) : res Z :=
  match o with
  | PInt n => Ok n
  | PStr s =>
      match int_of_string s with
      | Some n => Ok n
      | None => Raise ValueError
      end
  | _ => Raise TypeError
  end.

(** [if pd.isnull(o):].  A scalar is null when it is [None]; a mapping
    is not null; a list gives an element-wise array, whose truth value
    is defined only when it has a single element. *)
Definition isnull_scalar (o : pyobj) : bool :=
  match o with PNone => true | _ => false end.

Definition pd_isnull (o : pyobj) : res bool :=
  match o with
  | PList [x] =>
      match x with
      | PList _ => Raise ValueError
      | _ => Ok (isnull_scalar x)
      end
  | PList _ => Raise ValueError
  | _ => Ok (isnull_scalar o)
  end.

(* ================================================================= *)
(** ** The regular expression of [extract_postcode] *)

(** [pattern = r'(.*?)\(postcode\: (.*?)\)'], matched the way a
    backtracking engine does: a lazy group first tries the rest of the
    pattern and only then takes one more character, which must not be a
    newline. *)
Fixpoint lazy_group {A} (k : string -> string -> option A)
    (taken : string) (s : string) : option A :=
  match k taken s with
  | Some r => Some r
  | None =>
      match s with
      | EmptyString => None
      | String c s' =>
          if Ascii.eqb c newline then None
          else lazy_group k (taken ++ String c EmptyString)%string s'
      end
  end.

Fixpoint match_literal (lit s : string) : option string :=
  match lit, s with
  | EmptyString, _ => Some s
  | String a lit', String b s' =>
      if Ascii.eqb a b then match_literal lit' s' else None
  | String _ _, EmptyString => None
  end.

Definition postcode_token : string := "(postcode: ".

(** A match of the whole pattern starting at the head of [s]:
    the two groups and what follows the match. *)
Definition match_at (s : string) : option (string * string * string) :=
  lazy_group (fun name s1 =>
    match match_literal postcode_token s1 with
    | Some s2 =>
        lazy_group (fun code s3 =>
          match match_literal ")" s3 with
          | Some rest => Some (name, code, rest)
          | None => None
          end) EmptyString s2
    | None => None
    end) EmptyString s.

(** [re.findall(pattern, s)]: the groups of the successive
    non-overlapping matches, scanning from the left. *)
Fixpoint findall_from (fuel : nat) (s : string) : list (string * string) :=
  match fuel with
  | O => []
  | S fuel' =>
      match match_at s with
      | Some (name, code, rest) => (name, code) :: findall_from fuel' rest
      | None =>
          match s with
          | EmptyString => []
          | String _ s' => findall_from fuel' s'
          end
      end
  end.

Definition re_findall (o : pyobj) : res (list (string * string)) :=
  match o with
  | PStr s => Ok (findall_from (S (String.length s)) s)
  | _ => Raise TypeError
  end.

(** [l[0]]. *)
Definition first_item {A} (l : list A) : res A :=
  match l with
  | x :: _ => Ok x
  | [] => Raise IndexError
  end.

(** [extract_postcode(station_name)].  The result is the pair
    [(name.strip(), postcode)]; [postcode] is [None] when nothing
    matched. *)
Definition extract_postcode (station_name : pyobj)
    : res (pyobj * pyobj) :=
  ' (name, postcode) <-
      try_except
        (found <- re_findall station_name ;;
         ' (name, postcode) <- first_item found ;;
         Ok (PStr name, PStr postcode))
        is_IndexError
        (Ok (station_name, PNone)) ;;
  match name with
  | PStr s => Ok (PStr (strip s), postcode)
  | _ => Raise AttributeError
  end.

(* ================================================================= *)
(** ** Output rows *)

(** The rows handed to the tabular container are Python dictionaries
    built by the program itself.  Their keys are column names, but a
    party column is keyed by whatever the document gave as the party
    name, so a key is any hashable value.  Insertion order is kept. *)
Inductive key : Type :=
| KNone
| KStr (s : string)
| KInt (n : Z).

Definition key_eqb (a b : key) : bool :=
  match a, b with
  | KNone, KNone => true
  | KStr s, KStr t => String.eqb s t
  | KInt n, KInt m => Z.eqb n m
  | _, _ => false
  end.

Definition row : Type := list (key * pyobj).

(** [hash(o)] as needed by [d[o] = v]: lists and mappings are not
    hashable. *)
Definition hashable (o : pyobj) : res key :=
  match o with
  | PNone => Ok KNone
  | PStr s => Ok (KStr s)
  | PInt n => Ok (KInt n)
  | PList _ | PDict _ => Raise TypeError
  end.

(** [d[k] = v]: an existing key keeps its place and gets the new value,
    a new key goes to the end. *)
Fixpoint setitem (k : key) (v : pyobj) (d : row) : row :=
  match d with
  | [] => [(k, v)]
  | (k', v') :: d' =>
      if key_eqb k k' then (k', v) :: d' else (k', v') :: setitem k v d'
  end.

Fixpoint row_lookup (k : key) (d : row) : option pyobj :=
  match d with
  | [] => None
  | (k', v) :: d' => if key_eqb k k' then Some v else row_lookup k d'
  end.

(** [d[k]] on a row, for a column name [k]. *)
Definition getitem (d : row) (k : string) : res pyobj :=
  match row_lookup (KStr k) d with
  | Some v => Ok v
  | None => Raise (KeyError k)
  end.

(** A dictionary display [{'a': x, 'b': y, ...}]. *)
Definition dict_literal (entries : list (string * pyobj)) : row :=
  fold_left (fun d kv => setitem (KStr (fst kv)) (snd kv) d) entries [].

(** The comprehension [{k: item[k] for k in keep}]. *)
Fixpoint dict_comprehension (keep : list string) (item : row) (acc : row)
    : res row :=
  match keep with
  | [] => Ok acc
  | k :: keep' =>
      v <- getitem item k ;;
      dict_comprehension keep' item (setitem (KStr k) v acc)
  end.

Definition column_names (d : row) : list key := map fst d.

(* ================================================================= *)
(** ** Control: paths, loops, printed output *)

(** [o[k1][k2]...[kn]]. *)
Fixpoint path (o : pyobj) (ks : list string) : res pyobj :=
  match ks with
  | [] => Ok o
  | k :: ks' => v <- subscript o k ;; path v ks'
  end.

(** [for x in items: body], threading the locals that the body
    assigns. *)
Fixpoint for_loop {S X} (body : S -> X -> res S) (st : S)
    (items : list X) : res S :=
  match items with
  | [] => Ok st
  | x :: rest => st' <- body st x ;; for_loop body st' rest
  end.

(** Reading a local variable that may not have been assigned yet. *)
Definition read_local {A} (var : string) (v : option A) : res A :=
  match v with
  | Some a => Ok a
  | None => Raise (UnboundLocalError var)
  end.

(** A computation that also prints: the lines written to standard
    output, in order, and the outcome.  What was printed before an
    exception stays printed. *)
Definition io (A : Type) : Type := (list string * res A)%type.

Definition io_ret {A} (a : A) : io A := ([], Ok a).

Definition io_bind {A B} (c : io A) (k : A -> io B) : io B :=
  match c with
  | (out, Ok a) => let (out', r) := k a in (out ++ out', r)
  | (out, Raise e) => (out, Raise e)
  end.

Definition lift {A} (c : res A) : io A := ([], c).

Definition print (line : string) : io unit := ([line], Ok tt).

Notation "x <~ c ;; k" := (io_bind c (fun x => k))
  (at level 61, c at next level, right associativity).
Notation "' pat <~ c ;; k" :=
  (io_bind c (fun x => match x with pat => k end))
  (at level 61, pat pattern, c at next level, right associativity).

Fixpoint io_for_loop {S X} (body : S -> X -> io S) (st : S)
    (items : list X) : io S :=
  match items with
  | [] => io_ret st
  | x :: rest => st' <~ body st x ;; io_for_loop body st' rest
  end.

Definition printed {A} (c : io A) : list string := fst c.
Definition outcome {A} (c : io A) : res A := snd c.

(* ================================================================= *)
(** ** [parse_election_data] *)

(** What [parse_election_data] returns: the empty list for a null
    document, otherwise the 4-tuple
    [(rows_aggregates, rows_per_candidate, contest_name,
      managing_authority)]. *)
Inductive returned : Type :=
| ReturnedEmptyList
| ReturnedTuple (aggregates candidates : list row)
                (contest authority : pyobj).

(** The election identity and contest fields that every row repeats. *)
Record identity : Type := {
  election_id : pyobj;
  election_name : pyobj;
  election_domain_id : pyobj;
  election_domain_name : pyobj;
  election_date : pyobj;
  contest_name : pyobj;
  managing_authority : pyobj
}.

(** The local variables that the two loops assign.  [party_name] and
    [party_id] are bound only once a party-level selection has been
    seen; they are never reset. *)
Record locals : Type := {
  rows_aggregates : list row;
  rows_per_candidate : list row;
  row_aggregate : row;
  party_name : option pyobj;
  party_id : option pyobj
}.

(** Lines 88-106: the election domain, in the order
    [(election_domain_id, election_domain_name)]. *)
Definition election_domain_fields (election_identifier : pyobj)
    : res (pyobj * pyobj) :=
  election_domain <-
    try_except (subscript election_identifier "kr:ElectionDomain")
      is_KeyError (Ok PNone) ;;
  if truthy election_domain && isinstance_str election_domain then
    Ok (PNone, election_domain)
  else if truthy election_domain && isinstance_dict election_domain then
    domain_id <-
      try_except (subscript election_domain "@Id") is_KeyError (Ok PNone) ;;
    domain_name <-
      try_except (subscript election_domain "#text") is_KeyError (Ok PNone) ;;
    Ok (domain_id, domain_name)
  else
    Ok (PNone, PNone).

(** The display that opens every [item] (lines 140-148). *)
Definition identity_entries (id : identity) : list (string * pyobj) :=
  [ ("election_id", election_id id);
    ("election_name", election_name id);
    ("election_domain_id", election_domain_id id);
    ("election_domain_name", election_domain_name id);
    ("election_date", election_date id);
    ("contest_name", contest_name id);
    ("managing_authority", managing_authority id) ].

(** The bodies of the loops over [station['RejectedVotes']] (with
    prefix [rejected_]) and [station['UncountedVotes']] (with prefix
    [uncounted_]), lines 162-172. *)
Definition reason_body (prefix : string) (item : row) (reason : pyobj)
    : res row :=
  code <- subscript reason "@ReasonCode" ;;
  lowered <- method_lower code ;;
  let key := (prefix ++ lowered)%string in
  value <- subscript reason "#text" ;;
  Ok (setitem (KStr key) value item).

Definition keep : list string :=
  [ "election_id"; "election_name"; "election_domain_name";
    "election_domain_id"; "election_date"; "contest_name";
    "managing_authority"; "station_id"; "station_name"; "postcode" ].

(** The body of [for result in results] (lines 180-208). *)
Definition selection_body (per_candidate : bool) (item : row)
    (st : locals) (result : pyobj) : res locals :=
  ks <- keys result ;;
  if existsb (String.eqb "AffiliationIdentifier") ks then
    name <- path result ["AffiliationIdentifier"; "RegisteredName"] ;;
    ident <- path result ["AffiliationIdentifier"; "@Id"] ;;
    null <- pd_isnull name ;;
    let name := if (null : bool) then ident else name in
    valid_votes <- subscript result "ValidVotes" ;;
    votes <- py_int valid_votes ;;
    column <- hashable name ;;
    Ok {| rows_aggregates := rows_aggregates st;
          rows_per_candidate := rows_per_candidate st;
          row_aggregate := setitem column (PInt votes) (row_aggregate st);
          party_name := Some name;
          party_id := Some ident |}
  else if per_candidate then
    row_cand <- dict_comprehension keep item [] ;;
    name <- read_local "party_name" (party_name st) ;;
    let row_cand := setitem (KStr "party_name") name row_cand in
    ident <- read_local "party_id" (party_id st) ;;
    let row_cand := setitem (KStr "party_id") ident row_cand in
    candidate_id <- path result ["Candidate"; "CandidateIdentifier"; "@Id"] ;;
    let row_cand :=
      setitem (KStr "candidate_identifier") candidate_id row_cand in
    valid_votes <- subscript result "ValidVotes" ;;
    let row_cand := setitem (KStr "votes") valid_votes row_cand in
    Ok {| rows_aggregates := rows_aggregates st;
          rows_per_candidate := rows_per_candidate st ++ [row_cand];
          row_aggregate := row_aggregate st;
          party_name := party_name st;
          party_id := party_id st |}
  else
    Ok st.

(** The record [item] of one station, lines 140-172: identity, station
    id and name, postcode, turnout and the reason columns. *)
Definition station_item (id : identity) (station : pyobj) : res row :=
  let item := dict_literal (identity_entries id) in
  station_id <-
    try_except (path station ["ReportingUnitIdentifier"; "@Id"])
      is_TypeError (Ok PNone) ;;
  let item := setitem (KStr "station_id") station_id item in
  station_name <-
    try_except (path station ["ReportingUnitIdentifier"; "#text"])
      is_TypeError (Ok PNone) ;;
  ' (station_name, postcode) <- extract_postcode station_name ;;
  let item := setitem (KStr "station_name") station_name item in
  let item := setitem (KStr "postcode") postcode item in
  cast <- subscript station "Cast" ;;
  let item := setitem (KStr "cast") cast item in
  total_counted <- subscript station "TotalCounted" ;;
  let item := setitem (KStr "total_counted") total_counted item in
  rejected_votes <- subscript station "RejectedVotes" ;;
  rejected <- iterate rejected_votes ;;
  item <- for_loop (reason_body "rejected_") item rejected ;;
  has_uncounted <- contains "UncountedVotes" station ;;
  if (has_uncounted : bool) then
    uncounted_votes <- subscript station "UncountedVotes" ;;
    uncounted <- iterate uncounted_votes ;;
    for_loop (reason_body "uncounted_") item uncounted
  else
    Ok item.

(** The body of [for station in stations] after the [print]
    (lines 140-209). *)
Definition station_body (per_candidate : bool) (id : identity)
    (st : locals) (station : pyobj) : res locals :=
  item <- station_item id station ;;
  results <-
    try_except (subscript station "Selection") is_TypeError (Ok (PList [])) ;;
  selections <- iterate results ;;
  st' <- for_loop (selection_body per_candidate item)
           {| rows_aggregates := rows_aggregates st;
              rows_per_candidate := rows_per_candidate st;
              row_aggregate := item;
              party_name := party_name st;
              party_id := party_id st |}
           selections ;;
  Ok {| rows_aggregates := rows_aggregates st' ++ [row_aggregate st'];
        rows_per_candidate := rows_per_candidate st';
        row_aggregate := row_aggregate st';
        party_name := party_name st';
        party_id := party_id st' |}.

(** One turn of [for station in stations], with the [print] of a station
    that is a string (lines 138-139). *)
Definition station_step (per_candidate : bool) (id : identity)
    (st : locals) (station : pyobj) : io locals :=
  _ <~ match station with
       | PStr s => print s
       | _ => io_ret tt
       end ;;
  lift (station_body per_candidate id st station).

(** Lines 84-136: identity, contest, the list of stations, and the rows
    that [rows_aggregates] starts with. *)
Definition election_header (data : pyobj)
    : res (identity * list pyobj * list row) :=
  election <- path data ["EML"; "Count"; "Election"] ;;
  election_identifier <- subscript election "ElectionIdentifier" ;;
  election_id <- subscript election_identifier "@Id" ;;
  election_name <- subscript election_identifier "ElectionName" ;;
  ' (election_domain_id, election_domain_name) <-
      election_domain_fields election_identifier ;;
  election_date <- subscript election_identifier "kr:ElectionDate" ;;
  contest <- path election ["Contests"; "Contest"] ;;
  contest_name <-
    try_except (path contest ["ContestIdentifier"; "ContestName"])
      is_KeyError (Ok PNone) ;;
  managing_authority <-
    try_except
      (path data ["EML"; "ManagingAuthority"; "AuthorityIdentifier"; "#text"])
      is_KeyError (Ok PNone) ;;
  let id :=
    {| election_id := election_id;
       election_name := election_name;
       election_domain_id := election_domain_id;
       election_domain_name := election_domain_name;
       election_date := election_date;
       contest_name := contest_name;
       managing_authority := managing_authority |} in
  ' (stations, rows) <-
      try_except
        (stations <- subscript contest "ReportingUnitVotes" ;;
         Ok (stations, []))
        is_KeyError
        (Ok (PList [],
             [dict_literal
                (identity_entries id ++
                 [("station_name", PNone); ("station_id", PNone)])])) ;;
  let stations :=
    match stations with
    | PList items => items
    | single => [single]
    end in
  Ok (id, stations, rows).

Definition parse_election_data (data : pyobj) (per_candidate : bool)
    : io returned :=
  null <~ lift (pd_isnull data) ;;
  if (null : bool) then io_ret ReturnedEmptyList
  else
    ' (id, stations, rows) <~ lift (election_header data) ;;
    st <~ io_for_loop (station_step per_candidate id)
            {| rows_aggregates := rows;
               rows_per_candidate := [];
               row_aggregate := [];
               party_name := None;
               party_id := None |}
            stations ;;
    io_ret (ReturnedTuple (rows_aggregates st) (rows_per_candidate st)
              (contest_name id) (managing_authority id)).

(* ================================================================= *)
(** ** Reading documents and the tabular container *)

(** What can go wrong when a file is opened and parsed.  Decoding is
    not among it: the file is opened with [errors='backslashreplace'],
    so bytes that are not UTF-8 are replaced by escapes and the text
    goes to the parser like any other. *)
Inductive read_error : Type :=
| NotOpened
| NotWellFormed.

Definition raised (e : read_error) : exn :=
  match e with
  | NotOpened => OSError
  | NotWellFormed => ExpatError
  end.

(** What opening, decoding and parsing a file gives: the document tree,
    or an exception with its message.  The file system and [xmltodict]
    are outside the program. *)
Inductive reading : Type :=
| Parsed (tree : pyobj)
| Failed (e : read_error) (message : string).

(** A path that [source.glob] found, with what reading it gives. *)
Record file : Type := {
  full_path : string;
  name : string;
  stem : string;
  content : reading
}.

(** [read_eml(path)].  The handler is for [UnicodeDecodeError] only;
    anything else that reading raises goes on to the caller. *)
Definition read_eml (path : file) : io pyobj :=
  match content path with
  | Parsed tree => io_ret tree
  | Failed e message =>
      if is_UnicodeDecodeError (raised e) then
        _ <~ print (name path) ;;
        _ <~ print message ;;
        io_ret PNone
      else
        lift (Raise (raised e))
  end.

(** [pd.DataFrame(rows)]: the columns are the keys of the rows in order
    of first appearance. *)
Record DataFrame : Type := {
  columns : list key;
  records : list row
}.

Definition key_in (k : key) (ks : list key) : bool := existsb (key_eqb k) ks.

Definition add_columns (seen : list key) (r : row) : list key :=
  fold_left (fun acc k => if key_in k acc then acc else acc ++ [k])
    (column_names r) seen.

Definition pd_DataFrame (rows : list row) : DataFrame :=
  {| columns := fold_left add_columns rows [];
     records := rows |}.

(** [df[cols]]. *)
Definition select_columns (df : DataFrame) (cols : list key) : DataFrame :=
  {| columns := cols; records := records df |}.

(** [dfs[key] = df] on the dictionary of tables. *)
Fixpoint set_table (k : string) (df : DataFrame)
    (dfs : list (string * DataFrame)) : list (string * DataFrame) :=
  match dfs with
  | [] => [(k, df)]
  | (k', df') :: rest =>
      if String.eqb k k' then (k', df) :: rest
      else (k', df') :: set_table k df rest
  end.

Definition first_cols : list string :=
  [ "contest_name"; "managing_authority"; "election_id"; "election_name";
    "election_domain_id"; "election_domain_name"; "election_date";
    "station_name"; "station_id"; "postcode"; "cast"; "total_counted";
    "rejected_blanco"; "rejected_ongeldig";
    "uncounted_andere verklaring"; "uncounted_geen verklaring";
    "uncounted_geldige kiezerspassen"; "uncounted_geldige stempassen";
    "uncounted_geldige volmachtbewijzen";
    "uncounted_kwijtgeraakte stembiljetten";
    "uncounted_meegenomen stembiljetten";
    "uncounted_meer getelde stembiljetten";
    "uncounted_minder getelde stembiljetten";
    "uncounted_te veel uitgereikte stembiljetten";
    "uncounted_te weinig uitgereikte stembiljetten";
    "uncounted_toegelaten kiezers" ].

(** [a, b, _, _ = value]: unpacking into four names. *)
Definition unpack4 (value : returned)
    : res (list row * list row * pyobj * pyobj) :=
  match value with
  | ReturnedTuple a b c d => Ok (a, b, c, d)
  | ReturnedEmptyList => Raise ValueError
  end.

(** The body of [for path in paths] in [process_files]
    (lines 228-268). *)
Definition process_file (per_candidate : bool)
    (dfs : list (string * DataFrame)) (path : file)
    : io (list (string * DataFrame)) :=
  let name := stem path in
  data <~ read_eml path ;;
  value <~ parse_election_data data per_candidate ;;
  ' (rows_aggregates, rows_per_candidate, _, _) <~ lift (unpack4 value) ;;
  let dfs :=
    if per_candidate
    then set_table (name ++ "_per_candidate")%string
           (pd_DataFrame rows_per_candidate) dfs
    else dfs in
  let df := pd_DataFrame rows_aggregates in
  let first :=
    filter (fun c => key_in c (columns df)) (map KStr first_cols) in
  let cols :=
    first ++ filter (fun c => negb (key_in c first)) (columns df) in
  io_ret (set_table (name ++ "_aggregate")%string (select_columns df cols) dfs).

(** [process_files(source, per_candidate)], from the paths that
    [source.glob('**/Telling*_*.xml')] found. *)
Definition process_files (globbed : list file) (per_candidate : bool)
    : io (list (string * DataFrame)) :=
  let paths :=
    filter (fun p => negb (is_substring "kieskring" (lower (full_path p))))
      globbed in
  io_for_loop (process_file per_candidate) [] paths.

(* ================================================================= *)
(** ** [parse_candidates] *)

(** The locals of [parse_candidates] that its loops assign: the
    accumulator [rows] and the namespace number [nr], which is bound
    only once a name block with a key starting with [ns] has been
    seen. *)
Record roster_locals : Type := {
  rows : list row;
  nr : option string
}.

(** [key[i]] on text. *)
Definition char_at (s : string) (i : nat) : res string :=
  match String.get i s with
  | Some c => Ok (String c EmptyString)
  | None => Raise IndexError
  end.

(** Lines 329-332: [for key in ...keys(): if key.startswith('ns'):
    nr = key[2]; break]. *)
Fixpoint scan_prefix (ks : list string) (nr : option string)
    : res (option string) :=
  match ks with
  | [] => Ok nr
  | key :: rest =>
      if String.prefix "ns" key then
        c <- char_at key 2 ;;
        Ok (Some c)
      else scan_prefix rest nr
  end.

(** ['ns{}:<field>'.format(nr)]. *)
Definition ns_key (nr : option string) (field : string) : res string :=
  n <- read_local "nr" nr ;;
  Ok ("ns" ++ n ++ ":" ++ field)%string.

(** [o[ 'ns{}:<field>'.format(nr) ]]: the key is built after [o] has
    been evaluated. *)
Definition ns_subscript (o : res pyobj) (nr : option string)
    (field : string) : res pyobj :=
  v <- o ;;
  k <- ns_key nr field ;;
  subscript v k.

(** The body of [for candidate in party_candidates] (lines 323-388).
    [entries] are the election fields that open the row. *)
Definition candidate_body (election_identifier : pyobj)
    (entries : list (string * pyobj)) (party_name party_id : pyobj)
    (st : roster_locals) (candidate : pyobj) : res roster_locals :=
  identifier <-
    try_except (path candidate ["CandidateIdentifier"; "@Id"])
      is_TypeError (Ok PNone) ;;
  if negb (isinstance_dict candidate) then Ok st
  else
    full_name <- subscript candidate "CandidateFullName" ;;
    ks <- keys full_name ;;
    nr <- scan_prefix ks (nr st) ;;
    let person := ns_subscript (subscript candidate "CandidateFullName")
                    nr "PersonName" in
    first_name <-
      try_except (ns_subscript person nr "FirstName")
        is_TypeError_or_KeyError (Ok PNone) ;;
    last_name <-
      try_except (ns_subscript person nr "LastName")
        is_TypeError (Ok PNone) ;;
    initials <-
      try_except
        (line <- ns_subscript person nr "NameLine" ;; subscript line "#text")
        is_TypeError (Ok PNone) ;;
    prefix <-
      try_except (ns_subscript person nr "NamePrefix")
        is_TypeError_or_KeyError (Ok PNone) ;;
    gender <-
      try_except (subscript candidate "Gender")
        is_TypeError_or_KeyError (Ok PNone) ;;
    address <-
      try_except
        (ns_subscript
           (ns_subscript (subscript candidate "QualifyingAddress")
              nr "Locality")
           nr "LocalityName")
        is_TypeError_or_KeyError (Ok PNone) ;;
    Ok {| rows :=
            rows st ++
            [dict_literal
               (("election_identifier", election_identifier)
                :: entries ++
                [ ("party_name", party_name);
                  ("party_id", party_id);
                  ("candidate_identifier", identifier);
                  ("first_name", first_name);
                  ("last_name", last_name);
                  ("initials", initials);
                  ("prefix", prefix);
                  ("gender", gender);
                  ("address", address) ])];
          nr := nr |}.

(** The body of [for party in parties] (lines 319-388). *)
Definition party_body (election_identifier : pyobj)
    (entries : list (string * pyobj))
    (st : roster_locals) (party : pyobj) : res roster_locals :=
  party_name <- path party ["AffiliationIdentifier"; "RegisteredName"] ;;
  party_id <- path party ["AffiliationIdentifier"; "@Id"] ;;
  party_candidates <- subscript party "Candidate" ;;
  candidates <- iterate party_candidates ;;
  for_loop (candidate_body election_identifier entries party_name party_id)
    st candidates.

(** [try: a[k1]... except KeyError: a[k2]...], the fallback from the
    [ns6] family to the [kr] family. *)
Definition either_family (o : pyobj) (first second : list string)
    : res pyobj :=
  try_except (path o first) is_KeyError (path o second).

(** [parse_candidates(data, rows)]. *)
Definition parse_candidates (data : pyobj) (rows0 : list row)
    : res (list row) :=
  issue_date <- path data ["EML"; "IssueDate"] ;;
  election <- path data ["EML"; "CandidateList"; "Election"] ;;
  election_identifier <- subscript election "ElectionIdentifier" ;;
  election_id <- subscript election_identifier "@Id" ;;
  election_name <- subscript election_identifier "ElectionName" ;;
  election_date <-
    either_family election_identifier
      ["ns6:ElectionDate"] ["kr:ElectionDate"] ;;
  nomination_date <-
    either_family election_identifier
      ["ns6:NominationDate"] ["kr:NominationDate"] ;;
  election_domain_id <-
    either_family election_identifier
      ["ns6:ElectionDomain"; "@Id"] ["kr:ElectionDomain"; "@Id"] ;;
  election_domain_name <-
    either_family election_identifier
      ["ns6:ElectionDomain"; "#text"] ["kr:ElectionDomain"; "#text"] ;;
  contest_name <-
    try_except (path election ["Contest"; "ContestIdentifier"; "ContestName"])
      is_KeyError (Ok PNone) ;;
  election_name <-
    try_except (path election ["ElectionIdentifier"; "ElectionName"])
      is_KeyError (Ok PNone) ;;
  parties <- path election ["Contest"; "Affiliation"] ;;
  party_items <- iterate parties ;;
  st <- for_loop
          (party_body election_identifier
             [ ("election_id", election_id);
               ("election_name", election_name);
               ("election_date", election_date);
               ("nomination_date", nomination_date);
               ("election_domain_id", election_domain_id);
               ("election_domain_name", election_domain_name);
               ("contest_name", contest_name);
               ("election_name", election_name) ])
          {| rows := rows0; nr := None |}
          party_items ;;
  Ok (rows st).

(** The body of [for path in paths] in [create_candidate_list]. *)
Definition candidate_list_file (rows : list row) (path : file)
    : io (list row) :=
  data <~ read_eml path ;;
  null <~ lift (pd_isnull data) ;;
  if (null : bool) then io_ret rows
  else lift (parse_candidates data rows).

(** [create_candidate_list(source)], from the paths that
    [source.glob('**/Kandidatenlijsten_*.xml')] found. *)
Definition create_candidate_list (globbed : list file) : io DataFrame :=
  rows <~ io_for_loop candidate_list_file [] globbed ;;
  io_ret (pd_DataFrame rows).

(* ================================================================= *)
(** ** [get_id_and_date] and [parse_eml] *)

(** [get_id_and_date(source)], from the paths that
    [source.glob('**/Verkiezingsdefinitie*.xml')] found.  The loop
    returns in its first turn; without any path the function falls off
    its end and returns [None]. *)
Definition get_id_and_date (globbed : list file)
    : io (option (pyobj * pyobj)) :=
  match globbed with
  | [] => io_ret None
  | first_path :: _ =>
      data <~ read_eml first_path ;;
      lift (election <- path data ["EML"; "ElectionEvent"; "Election"] ;;
            election_identifier <- subscript election "ElectionIdentifier" ;;
            identifier <- subscript election_identifier "@Id" ;;
            election_identifier <- subscript election "ElectionIdentifier" ;;
            date <- subscript election_identifier "kr:ElectionDate" ;;
            Ok (Some (identifier, date)))
  end.

(** [parse_eml(source, per_candidate)], from the count files and the
    candidate-list files that the two globs on [source] found. *)
Definition parse_eml (tellingen kandidatenlijsten : list file)
    (per_candidate : bool) : io (list (string * DataFrame)) :=
  dfs <~ process_files tellingen per_candidate ;;
  if per_candidate then
    candidate_list <~ create_candidate_list kandidatenlijsten ;;
    io_ret (set_table "candidate_list" candidate_list dfs)
  else
    io_ret dfs.

(* ================================================================= *)
(** ** [string_to_int] of [scrape.py] *)

(** [string.replace('.', '')]. *)
Fixpoint remove_dots (s : string) : string :=
  match s with
  | EmptyString => EmptyString
  | String c s' =>
      if Ascii.eqb c "."%char then remove_dots s'
      else String c (remove_dots s')
  end.

(** [string.split('(')[0]]: the text before the first opening
    parenthesis. *)
Fixpoint before_paren (s : string) : string :=
  match s with
  | EmptyString => EmptyString
  | String c s' =>
      if Ascii.eqb c "("%char then EmptyString
      else String c (before_paren s')
  end.

(** [string_to_int(string)].  Only text has [replace]. *)
Definition string_to_int (string : pyobj) : res Z :=
  match string with
  | PStr s =>
      let s := remove_dots s in
      let s := strip (before_paren s) in
      py_int (PStr s)
  | _ => Raise AttributeError
  end.

(* ================================================================= *)
(** ** Notions used to state the properties *)

Fixpoint no_newline (s : string) : bool :=
  match s with
  | EmptyString => true
  | String c s' => negb (Ascii.eqb c newline) && no_newline s'
  end.

Fixpoint no_closing (s : string) : bool :=
  match s with
  | EmptyString => true
  | String c s' => negb (Ascii.eqb ")" c) && no_closing s'
  end.

(** The label contains [name(postcode: code)] with [name] and [code] on
    one line: what the pattern [(.*?)\(postcode\: (.*?)\)] can match. *)
Definition pattern_occurs (s name code : string) : Prop :=
  exists before after,
    s = (before ++ name ++ postcode_token ++ code ++ ")" ++ after)%string
    /\ no_newline name = true
    /\ no_newline code = true.

Definition pattern_matches (s : string) : Prop :=
  exists name code, pattern_occurs s name code.

(** The pattern can match at the head of [t] with the groups [name]
    and [code]. *)
Definition matches_at (t name code : string) : Prop :=
  exists after,
    t = (name ++ postcode_token ++ code ++ ")" ++ after)%string
    /\ no_newline name = true
    /\ no_newline code = true.

(** The groups of the first match of the pattern in [s], the one whose
    groups [extract_postcode] uses: the match starts at the leftmost
    position where the pattern can match at all, its name is the
    shortest after which the rest of the pattern can match, and its
    code ends at the first closing parenthesis. *)
Definition first_match (s name code : string) : Prop :=
  exists before t,
    s = (before ++ t)%string
    /\ matches_at t name code
    /\ (forall b1 c b2,
          before = (b1 ++ String c b2)%string ->
          forall n k, ~ matches_at (String c b2 ++ t) n k)
    /\ (forall g1 c g2,
          name = (g1 ++ String c g2)%string ->
          forall k, ~ matches_at t g1 k)
    /\ no_closing code = true.

Definition or_none (o : option pyobj) : pyobj :=
  match o with
  | Some v => v
  | None => PNone
  end.

(** How the election-domain field of the identifier determines
    [election_domain_id] and [election_domain_name], shape by shape.
    [domain_by_shape field domain_id domain_name]. *)
Inductive domain_by_shape : option pyobj -> pyobj -> pyobj -> Prop :=
| domain_absent :
    domain_by_shape None PNone PNone
| domain_text (s : string) :
    domain_by_shape (Some (PStr s)) PNone (PStr s)
| domain_object (d : list (string * pyobj)) :
    domain_by_shape (Some (PDict d))
      (or_none (lookup "@Id" d)) (or_none (lookup "#text" d))
| domain_other (o : pyobj) :
    isinstance_str o = false -> isinstance_dict o = false ->
    domain_by_shape (Some o) PNone PNone.

(** A small vote-count document, parameterised by the identifier's
    extra entries and by the entries of the contest. *)
Definition sample_identifier (extra : list (string * pyobj)) : pyobj :=
  PDict ([ ("@Id", PStr "GR2018_0001");
           ("ElectionName", PStr "Gemeenteraad 2018") ]
         ++ extra ++
         [ ("kr:ElectionDate", PStr "2018-03-21") ]).

Definition sample_count (extra contest : list (string * pyobj)) : pyobj :=
  PDict
    [ ("EML",
       PDict
         [ ("ManagingAuthority",
            PDict [("AuthorityIdentifier",
                    PDict [("@Id", PStr "0001"); ("#text", PStr "Testdorp")])]);
           ("Count",
            PDict
              [("Election",
                PDict
                  [ ("ElectionIdentifier", sample_identifier extra);
                    ("Contests",
                     PDict
                       [("Contest",
                         PDict
                           (("ContestIdentifier",
                             PDict [("@Id", PStr "geen")]) :: contest))]) ])]) ]) ].

Definition sample_domain : list (string * pyobj) :=
  [("kr:ElectionDomain", PDict [("@Id", PStr "0001"); ("#text", PStr "Testdorp")])].

Definition party_selection (ident registered votes : string) : pyobj :=
  PDict [ ("AffiliationIdentifier",
           PDict [("@Id", PStr ident); ("RegisteredName", PStr registered)]);
          ("ValidVotes", PStr votes) ].

Definition candidate_selection (ident votes : string) : pyobj :=
  PDict [ ("Candidate",
           PDict [("CandidateIdentifier", PDict [("@Id", PStr ident)])]);
          ("ValidVotes", PStr votes) ].

Definition sample_station (identifier : pyobj) (selections : list pyobj)
    : pyobj :=
  PDict [ ("ReportingUnitIdentifier", identifier);
          ("Selection", PList selections);
          ("Cast", PStr "100");
          ("TotalCounted", PStr "98");
          ("RejectedVotes",
           PList [ PDict [("@ReasonCode", PStr "ongeldig"); ("#text", PStr "2")];
                   PDict [("@ReasonCode", PStr "blanco"); ("#text", PStr "0")] ]) ].

Definition station_identifier (ident label : string) : pyobj :=
  PDict [("@Id", PStr ident); ("#text", PStr label)].

(** A station with two parties and their candidates. *)
Definition first_station : pyobj :=
  sample_station
    (station_identifier "0001::SB1" "Stembureau 1 (postcode: 1234AB)")
    [ party_selection "1" "PartyA" "50";
      candidate_selection "1" "30";
      candidate_selection "2" "20";
      party_selection "2" "PartyB" "48";
      candidate_selection "1" "48" ].

Definition sample_stations : list (string * pyobj) :=
  [("ReportingUnitVotes", PList [first_station])].

(** Two vote-count files of one batch: the first is not well-formed
    XML, the second holds [sample_count]. *)
Definition truncated_file : file :=
  {| full_path := "/data/Telling_GR2018_Adorp.xml";
     name := "Telling_GR2018_Adorp.xml";
     stem := "Telling_GR2018_Adorp";
     content := Failed NotWellFormed "no element found: line 1, column 0" |}.

Definition readable_file : file :=
  {| full_path := "/data/Telling_GR2018_Testdorp.xml";
     name := "Telling_GR2018_Testdorp.xml";
     stem := "Telling_GR2018_Testdorp";
     content := Parsed (sample_count sample_domain sample_stations) |}.

(** A file that is well-formed XML, but no count document. *)
Definition malformed_file : file :=
  {| full_path := "/data/Telling_GR2018_Bdorp.xml";
     name := "Telling_GR2018_Bdorp.xml";
     stem := "Telling_GR2018_Bdorp";
     content := Parsed (PDict [("html", PStr "Not found")]) |}.

(** A small candidate-list document with one party. *)
Definition full_person : list (string * pyobj) :=
  [ ("ns2:NameLine", PDict [("@NameType", PStr "Initials"); ("#text", PStr "J.")]);
    ("ns2:FirstName", PStr "Jan");
    ("ns2:NamePrefix", PStr "de");
    ("ns2:LastName", PStr "Vries") ].

Definition sample_locality : pyobj :=
  PDict [("ns2:Locality", PDict [("ns2:LocalityName", PStr "Testdorp")])].

Definition sample_candidate (ident : string)
    (name_block extra : list (string * pyobj)) : pyobj :=
  PDict ([ ("CandidateIdentifier", PDict [("@Id", PStr ident)]);
           ("CandidateFullName", PDict name_block) ]
         ++ extra).

Definition full_candidate (ident : string) : pyobj :=
  sample_candidate ident [("ns2:PersonName", PDict full_person)]
    [("Gender", PStr "male"); ("QualifyingAddress", sample_locality)].

Definition sample_roster (candidates : list pyobj) : pyobj :=
  PDict
    [ ("EML",
       PDict
         [ ("IssueDate", PStr "2018-02-09");
           ("CandidateList",
            PDict
              [("Election",
                PDict
                  [ ("ElectionIdentifier",
                     PDict
                       [ ("@Id", PStr "GR2018_0001");
                         ("ElectionName", PStr "Gemeenteraad 2018");
                         ("kr:ElectionDate", PStr "2018-03-21");
                         ("kr:NominationDate", PStr "2018-02-05");
                         ("kr:ElectionDomain",
                          PDict [("@Id", PStr "0001");
                                 ("#text", PStr "Testdorp")]) ]);
                    ("Contest",
                     PDict
                       [ ("ContestIdentifier", PDict [("@Id", PStr "geen")]);
                         ("Affiliation",
                          PList
                            [ PDict
                                [ ("AffiliationIdentifier",
                                   PDict [("@Id", PStr "1");
                                          ("RegisteredName", PStr "PartyA")]);
                                  ("Candidate", PList candidates) ] ]) ]) ])]) ]) ].

(** No key of the name block starts with [ns]. *)
Definition no_prefixed_key (block : list (string * pyobj)) : bool :=
  forallb (fun key => negb (String.prefix "ns" key)) (map fst block).

(** A selection with a party identifier at its own level. *)
Definition is_party_selection (result : pyobj) : bool :=
  match keys result with
  | Ok ks => existsb (String.eqb "AffiliationIdentifier") ks
  | Raise _ => false
  end.

(** The bindings of the locals [party_name] and [party_id]. *)
Definition scope : Type := (option pyobj * option pyobj)%type.

Definition scope_of (st : locals) : scope := (party_name st, party_id st).

(** The bindings that a party-level selection makes. *)
Definition party_binding (result : pyobj) : scope :=
  match path result ["AffiliationIdentifier"; "RegisteredName"],
        path result ["AffiliationIdentifier"; "@Id"] with
  | Ok registered, Ok ident =>
      match pd_isnull registered with
      | Ok null => (Some (if (null : bool) then ident else registered), Some ident)
      | Raise _ => (None, None)
      end
  | _, _ => (None, None)
  end.

(** The bindings after a sequence of selections. *)
Fixpoint last_party (selections : list pyobj) (sc : scope) : scope :=
  match selections with
  | [] => sc
  | r :: rest =>
      last_party rest (if is_party_selection r then party_binding r else sc)
  end.

(** For each selection without a party identifier, in order, the
    bindings made by the most recent party-level selection before it
    (or the bindings at the start, if there is none). *)
Fixpoint parties_in_scope (selections : list pyobj) (sc : scope)
    : list scope :=
  match selections with
  | [] => []
  | r :: rest =>
      if is_party_selection r then parties_in_scope rest (party_binding r)
      else sc :: parties_in_scope rest sc
  end.

Definition to_option {A} (c : res A) : option A :=
  match c with
  | Ok a => Some a
  | Raise _ => None
  end.

(** The candidate identifier and the votes of a selection. *)
Definition candidate_of (result : pyobj) : option pyobj * option pyobj :=
  (to_option (path result ["Candidate"; "CandidateIdentifier"; "@Id"]),
   to_option (subscript result "ValidVotes")).

(** The column of the aggregate row that a party-level selection
    sets. *)
Definition party_column (result : pyobj) : option key :=
  match fst (party_binding result) with
  | Some column_name => to_option (hashable column_name)
  | None => None
  end.

Definition party_columns (r : row) : scope :=
  (row_lookup (KStr "party_name") r, row_lookup (KStr "party_id") r).

Definition candidate_columns (r : row) : option pyobj * option pyobj :=
  (row_lookup (KStr "candidate_identifier") r, row_lookup (KStr "votes") r).

(** The items that [for result in results] visits for a station. *)
Definition selections_of (station : pyobj) : list pyobj :=
  match try_except (subscript station "Selection") is_TypeError
          (Ok (PList [])) with
  | Ok results =>
      match iterate results with
      | Ok l => l
      | Raise _ => []
      end
  | Raise _ => []
  end.

(** The lowercased reason codes of a breakdown of a station
    ([field] is [RejectedVotes] or [UncountedVotes]). *)
Definition lowered_code (reason : pyobj) : list string :=
  match subscript reason "@ReasonCode" with
  | Ok (PStr code) => [lower code]
  | _ => []
  end.

Definition reason_codes (field : string) (station : pyobj) : list string :=
  match subscript station field with
  | Ok breakdown =>
      match iterate breakdown with
      | Ok reasons => flat_map lowered_code reasons
      | Raise _ => []
      end
  | Raise _ => []
  end.

(** The reason codes recovered from the column names of a row by
    stripping [prefix]. *)
Definition recovered_code (prefix : string) (column : key) : list string :=
  match column with
  | KStr column_name =>
      match match_literal prefix column_name with
      | Some code => [code]
      | None => []
      end
  | _ => []
  end.

Definition recovered_codes (prefix : string) (r : row) : list string :=
  flat_map (recovered_code prefix) (column_names r).

(** A turn of the selection loop that changed nothing but
    [rows_per_candidate]. *)
Definition same_but_candidates (st st' : locals) : Prop :=
  rows_aggregates st' = rows_aggregates st
  /\ row_aggregate st' = row_aggregate st
  /\ scope_of st' = scope_of st.

(** The selections of a station that have no party identifier at their
    own level: the per-candidate breakdown items. *)
Definition candidate_selections (selections : list pyobj) : list pyobj :=
  filter (fun r => negb (is_party_selection r)) selections.

(** The columns that party-level selections add to an aggregate row. *)
Definition is_party_column (selections : list pyobj) (k : key) : Prop :=
  exists r,
    In r selections /\ is_party_selection r = true
    /\ party_column r = Some k.

(** The columns that every station record has, in order. *)
Definition fixed_columns : list string :=
  [ "election_id"; "election_name"; "election_domain_id";
    "election_domain_name"; "election_date"; "contest_name";
    "managing_authority"; "station_id"; "station_name"; "postcode";
    "cast"; "total_counted" ].

Definition reason_column (prefix code : string) : key :=
  KStr (prefix ++ code)%string.

(** A selection that is a per-candidate breakdown item: it names a
    candidate and carries votes. *)
Definition is_candidate_breakdown (result : pyobj) : Prop :=
  is_party_selection result = false
  /\ exists candidate_id votes,
       candidate_of result = (Some candidate_id, Some votes).

(** Concrete inputs for the station loop. *)
Definition sample_identity : identity :=
  {| election_id := PStr "GR2018_0001";
     election_name := PStr "Gemeenteraad 2018";
     election_domain_id := PStr "0001";
     election_domain_name := PStr "Testdorp";
     election_date := PStr "2018-03-21";
     contest_name := PNone;
     managing_authority := PStr "Testdorp" |}.

Definition initial_locals : locals :=
  {| rows_aggregates := [];
     rows_per_candidate := [];
     row_aggregate := [];
     party_name := None;
     party_id := None |}.

(** A station that reports party totals only. *)
Definition totals_only_station : pyobj :=
  sample_station (station_identifier "0001::SB2" "Stembureau 2")
    [ party_selection "1" "PartyA" "50";
      party_selection "2" "PartyB" "48" ].

(** A station whose first selection is a per-candidate item: it is
    attributed to the last party of the station before it. *)
Definition carried_over_station : pyobj :=
  sample_station (station_identifier "0001::SB3" "Stembureau 3")
    [ candidate_selection "7" "5";
      party_selection "1" "PartyA" "9" ].

Definition locals_after (per_candidate : bool) (st : locals)
    (station : pyobj) : locals :=
  match station_body per_candidate sample_identity st station with
  | Ok st' => st'
  | Raise _ => st
  end.

Definition after_first_station : locals :=
  Eval vm_compute in locals_after true initial_locals first_station.

Definition after_totals_only_station : locals :=
  Eval vm_compute in locals_after true initial_locals totals_only_station.

Definition first_station_item : row :=
  Eval vm_compute in
    match station_item sample_identity first_station with
    | Ok item => item
    | Raise _ => []
    end.

Definition two_station_count : pyobj :=
  sample_count sample_domain
    [("ReportingUnitVotes", PList [first_station; carried_over_station])].

Definition two_station_aggregates : list row :=
  Eval vm_compute in
    match outcome (parse_election_data two_station_count true) with
    | Ok (ReturnedTuple aggregates _ _ _) => aggregates
    | _ => []
    end.

Definition two_station_candidates : list row :=
  Eval vm_compute in
    match outcome (parse_election_data two_station_count true) with
    | Ok (ReturnedTuple _ candidates _ _) => candidates
    | _ => []
    end.

(** A station where a party is registered under a name that starts
    with [rejected_]. *)
Definition colliding_station : pyobj :=
  sample_station (station_identifier "0001::SB4" "Stembureau 4")
    [ party_selection "1" "rejected_stemmen" "50" ].

Definition after_colliding_station : locals :=
  Eval vm_compute in locals_after false initial_locals colliding_station.

(* ================================================================= *)
(** ** Notions used to state further properties *)

(** The columns of every per-candidate row, in order. *)
Definition candidate_row_columns : list string :=
  keep ++ ["party_name"; "party_id"; "candidate_identifier"; "votes"].

(** [r] is the aggregate row of [station]: the station's record,
    followed by the columns of the station's party-level selections. *)
Definition aggregate_row_of (id : identity) (station : pyobj) (r : row)
    : Prop :=
  exists item more,
    station_item id station = Ok item
    /\ column_names r = column_names item ++ more
    /\ (forall k, In k more -> is_party_column (selections_of station) k)
    /\ (forall k, ~ is_party_column (selections_of station) k ->
                  row_lookup k r = row_lookup k item).

(** The integer that a party-level selection reports. *)
Definition party_votes (result : pyobj) : res Z :=
  valid_votes <- subscript result "ValidVotes" ;;
  py_int valid_votes.

(** A station in which one party is reported twice. *)
Definition repeated_party_station : pyobj :=
  sample_station (station_identifier "0001::SB5" "Stembureau 5")
    [ party_selection "1" "PartyA" "50";
      party_selection "2" "PartyB" "48";
      party_selection "1" "PartyA" "7" ].

Definition after_repeated_party_station : locals :=
  Eval vm_compute in locals_after false initial_locals repeated_party_station.

(** A per-candidate row built from the record [item] of its station. *)
Definition candidate_row_from (item r : row) : Prop :=
  column_names r = map KStr candidate_row_columns
  /\ forall k, In k keep ->
               row_lookup (KStr k) r = row_lookup (KStr k) item.

(** [as_list]: a value that is not a list counts as a list of one. *)
Definition one_or_many (v : pyobj) : list pyobj :=
  match v with
  | PList items => items
  | single => [single]
  end.

(** The only aggregate row of a document without station breakdown. *)
Definition contest_only_row (id : identity) : row :=
  dict_literal
    (identity_entries id ++ [("station_name", PNone); ("station_id", PNone)]).

(** [dfs[k]] on the dictionary of tables. *)
Fixpoint table_lookup (k : string) (dfs : list (string * DataFrame))
    : option DataFrame :=
  match dfs with
  | [] => None
  | (k', df) :: rest => if String.eqb k k' then Some df else table_lookup k rest
  end.

(** A path that the filter of [process_files] keeps. *)
Definition kept (p : file) : bool :=
  negb (is_substring "kieskring" (lower (full_path p))).

Definition aggregate_name (p : file) : string :=
  (stem p ++ "_aggregate")%string.

Definition per_candidate_name (p : file) : string :=
  (stem p ++ "_per_candidate")%string.

(** A file of an upper-tier count, which [process_files] leaves out. *)
Definition kieskring_file : file :=
  {| full_path := "/data/Kieskring/Telling_GR2018_kieskring.xml";
     name := "Telling_GR2018_kieskring.xml";
     stem := "Telling_GR2018_kieskring";
     content := Failed NotWellFormed "no element found: line 1, column 0" |}.

(** The column order that [process_files] gives an aggregate table:
    [canon] holds the canonical columns that occur, in canonical order,
    [others] the remaining columns in order of first appearance. *)
Definition canonical_first (found ordered : list key) : Prop :=
  exists canon others,
    ordered = canon ++ others
    /\ canon = filter (fun c => key_in c found) (map KStr first_cols)
    /\ others = filter (fun c => negb (key_in c (map KStr first_cols))) found.

Fixpoint nodupb (l : list key) : bool :=
  match l with
  | [] => true
  | x :: rest => negb (key_in x rest) && nodupb rest
  end.

Definition tables_after_readable_file : list (string * DataFrame) :=
  Eval vm_compute in
    match process_file true [] readable_file with
    | (_, Ok tables) => tables
    | (_, Raise _) => []
    end.

(** The file was decoded and its document parsed to a tuple. *)
Definition parses (per_candidate : bool) (p : file) : Prop :=
  exists tree aggregates candidates contest authority,
    content p = Parsed tree
    /\ parse_election_data tree per_candidate
       = ([], Ok (ReturnedTuple aggregates candidates contest authority)).

(** The names of the tables that [process_files] makes for [p]. *)
Definition names_for (per_candidate : bool) (p : file) (nm : string) : Prop :=
  nm = aggregate_name p \/ (per_candidate = true /\ nm = per_candidate_name p).

(* ----------------------------------------------------------------- *)
(** *** The candidate roster *)

(** The columns of every roster row, in order. *)
Definition roster_columns : list string :=
  [ "election_identifier"; "election_id"; "election_name"; "election_date";
    "nomination_date"; "election_domain_id"; "election_domain_name";
    "contest_name"; "party_name"; "party_id"; "candidate_identifier";
    "first_name"; "last_name"; "initials"; "prefix"; "gender"; "address" ].

(** The parties of a candidate-list document and the structured
    candidates of a party, as the loops visit them. *)
Definition roster_parties (data : pyobj) : list pyobj :=
  match path data ["EML"; "CandidateList"; "Election"; "Contest";
                   "Affiliation"] with
  | Ok parties =>
      match iterate parties with
      | Ok items => items
      | Raise _ => []
      end
  | Raise _ => []
  end.

Definition structured_candidates (party : pyobj) : list pyobj :=
  match subscript party "Candidate" with
  | Ok candidates =>
      match iterate candidates with
      | Ok items => filter isinstance_dict items
      | Raise _ => []
      end
  | Raise _ => []
  end.

(** Party name, party id and candidate identifier, as a roster row
    holds them and as the document gives them. *)
Definition roster_key : Type :=
  (option pyobj * option pyobj * option pyobj)%type.

Definition roster_key_of_row (r : row) : roster_key :=
  (row_lookup (KStr "party_name") r,
   row_lookup (KStr "party_id") r,
   row_lookup (KStr "candidate_identifier") r).

Definition roster_key_of (party candidate : pyobj) : roster_key :=
  (to_option (path party ["AffiliationIdentifier"; "RegisteredName"]),
   to_option (path party ["AffiliationIdentifier"; "@Id"]),
   to_option
     (try_except (path candidate ["CandidateIdentifier"; "@Id"])
        is_TypeError (Ok PNone))).

(** The pairs of a party and one of its structured candidates, in the
    order in which the loops visit them. *)
Definition roster_pairs (parties : list pyobj) : list (pyobj * pyobj) :=
  flat_map
    (fun party => map (fun c => (party, c)) (structured_candidates party))
    parties.

Definition expected_roster (data : pyobj) : list roster_key :=
  map (fun pc => roster_key_of (fst pc) (snd pc))
    (roster_pairs (roster_parties data)).

(** The value under [first], or else under [second]. *)
Definition prefer (ident : list (string * pyobj)) (first second : string)
    : pyobj :=
  match lookup first ident with
  | Some v => v
  | None => or_none (lookup second ident)
  end.

(** The row of a candidate: the election fields [entries], then the
    party and the candidate's own fields. *)
Definition roster_row (election_identifier : pyobj)
    (entries : list (string * pyobj))
    (party_name party_id identifier : pyobj) (r : row) : Prop :=
  exists first_name last_name initials prefix gender address,
    r = dict_literal
          (("election_identifier", election_identifier)
           :: entries ++
           [ ("party_name", party_name);
             ("party_id", party_id);
             ("candidate_identifier", identifier);
             ("first_name", first_name);
             ("last_name", last_name);
             ("initials", initials);
             ("prefix", prefix);
             ("gender", gender);
             ("address", address) ]).

(** [r] is the row of candidate [snd pc] of party [fst pc]. *)
Definition roster_row_for (election_identifier : pyobj)
    (entries : list (string * pyobj)) (pc : pyobj * pyobj) (r : row) : Prop :=
  exists party_name party_id identifier,
    path (fst pc) ["AffiliationIdentifier"; "RegisteredName"] = Ok party_name
    /\ path (fst pc) ["AffiliationIdentifier"; "@Id"] = Ok party_id
    /\ try_except (path (snd pc) ["CandidateIdentifier"; "@Id"])
         is_TypeError (Ok PNone) = Ok identifier
    /\ roster_row election_identifier entries party_name party_id
         identifier r.

(** A candidate-list document with two parties; the second party has a
    single candidate, which the document gives as a mapping, not as a
    list. *)
Definition sample_party (ident registered : string) (candidates : pyobj)
    : pyobj :=
  PDict [ ("AffiliationIdentifier",
           PDict [("@Id", PStr ident); ("RegisteredName", PStr registered)]);
          ("Candidate", candidates) ].

Definition two_party_roster : pyobj :=
  PDict
    [ ("EML",
       PDict
         [ ("IssueDate", PStr "2018-02-09");
           ("CandidateList",
            PDict
              [("Election",
                PDict
                  [ ("ElectionIdentifier",
                     PDict
                       [ ("@Id", PStr "GR2018_0001");
                         ("ElectionName", PStr "Gemeenteraad 2018");
                         ("ns6:ElectionDate", PStr "2018-03-21");
                         ("kr:ElectionDate", PStr "1900-01-01");
                         ("kr:NominationDate", PStr "2018-02-05");
                         ("kr:ElectionDomain",
                          PDict [("@Id", PStr "0001");
                                 ("#text", PStr "Testdorp")]) ]);
                    ("Contest",
                     PDict
                       [ ("ContestIdentifier", PDict [("@Id", PStr "geen")]);
                         ("Affiliation",
                          PList
                            [ sample_party "1" "PartyA"
                                (PList [full_candidate "1";
                                        PStr "text";
                                        full_candidate "2"]);
                              sample_party "2" "PartyB"
                                (full_candidate "1") ]) ]) ])]) ]) ].

Definition two_party_rows : list row :=
  Eval vm_compute in
    match parse_candidates two_party_roster [] with
    | Ok rows => rows
    | Raise _ => []
    end.

(** Two candidate-list files of one batch. *)
Definition first_roster_file : file :=
  {| full_path := "/data/Kandidatenlijsten_GR2018_Adorp.xml";
     name := "Kandidatenlijsten_GR2018_Adorp.xml";
     stem := "Kandidatenlijsten_GR2018_Adorp";
     content := Parsed (sample_roster [full_candidate "7"; full_candidate "8"]) |}.

Definition readable_roster_file : file :=
  {| full_path := "/data/Kandidatenlijsten_GR2018_Testdorp.xml";
     name := "Kandidatenlijsten_GR2018_Testdorp.xml";
     stem := "Kandidatenlijsten_GR2018_Testdorp";
     content := Parsed two_party_roster |}.

Definition sample_candidate_table : DataFrame :=
  Eval vm_compute in
    match create_candidate_list
            [first_roster_file; readable_roster_file] with
    | (_, Ok table) => table
    | (_, Raise _) => pd_DataFrame []
    end.

Fixpoint last_char (s : string) : option ascii :=
  match s with
  | EmptyString => None
  | String c s' =>
      match last_char s' with
      | None => Some c
      | Some d => Some d
      end
  end.

(** A definition file. *)
Definition definition_file : file :=
  {| full_path := "/data/Verkiezingsdefinitie_GR2018.xml";
     name := "Verkiezingsdefinitie_GR2018.xml";
     stem := "Verkiezingsdefinitie_GR2018";
     content :=
       Parsed
         (PDict
            [("EML",
              PDict
                [("ElectionEvent",
                  PDict
                    [("Election",
                      PDict
                        [("ElectionIdentifier",
                          PDict [ ("@Id", PStr "GR2018");
                                  ("kr:ElectionDate", PStr "2018-03-21") ])])])])]) |}.

Definition sample_parse_eml_tables : list (string * DataFrame) :=
  Eval vm_compute in
    match parse_eml [readable_file] [readable_roster_file] true with
    | (_, Ok tables) => tables
    | (_, Raise _) => []
    end.

(** The decimal numeral of a natural number: [str(n)]. *)
Definition decimal (n : nat) : string :=
  DecimalString.NilEmpty.string_of_uint (Nat.to_uint n).

(** The text of a decimal numeral given digit by digit. *)
#[local] Abbreviation numeral := DecimalString.NilEmpty.string_of_uint.

(** A text that does not begin with white space. *)
Definition starts_clean (s : string) : Prop :=
  match s with
  | EmptyString => True
  | String c _ => is_space c = false
  end.

(** The locals of [parse_candidates] with rows put before its own. *)
Definition shifted (pre : list row) (st : roster_locals) : roster_locals :=
  {| rows := pre ++ rows st; nr := nr st |}.

Definition res_map {A B} (f : A -> B) (c : res A) : res B :=
  match c with
  | Ok a => Ok (f a)
  | Raise e => Raise e
  end.

Definition io_map {A B} (f : A -> B) (c : io A) : io B :=
  (fst c, res_map f (snd c)).

(* ================================================================= *)
(** ** The station-name decomposer *)

Section Strings.

Lemma append_empty_r (s : string) : (s ++ "")%string = s.
Proof. induction s; simpl; congruence. Qed.

Lemma append_assoc (a b c : string) :
  ((a ++ b) ++ c)%string = (a ++ (b ++ c))%string.
Proof. induction a; simpl; congruence. Qed.

Lemma length_append (a b : string) :
  String.length (a ++ b) = String.length a + String.length b.
Proof. induction a; simpl; congruence. Qed.

Lemma append_cancel (s a b : string) :
  (s ++ a)%string = (s ++ b)%string -> a = b.
Proof. induction s; simpl; intros H; [exact H|]. inversion H. auto. Qed.

(** Two ways of cutting one text in two: one cut is further to the
    right than the other. *)
Lemma append_split (a b a' b' : string) :
  (a ++ b)%string = (a' ++ b')%string ->
  (exists m, a' = (a ++ m)%string /\ b = (m ++ b')%string)
  \/ (exists m, a = (a' ++ m)%string /\ b' = (m ++ b)%string).
Proof.
  revert a'. induction a as [|c a IH]; intros a' H.
  - left. exists a'. simpl in *. auto.
  - destruct a' as [|c' a'].
    + right. exists (String c a). simpl in *. auto.
    + simpl in H. inversion H; subst c'.
      destruct (IH a' H2) as [(m & -> & ->)|(m & -> & ->)];
        [left|right]; exists m; auto.
Qed.

Lemma match_literal_sound (lit s rest : string) :
  match_literal lit s = Some rest -> s = (lit ++ rest)%string.
Proof.
  revert s. induction lit as [|a lit IH]; intros s H; simpl in *.
  - congruence.
  - destruct s as [|b s]; [discriminate|].
    destruct (Ascii.eqb a b) eqn:E; [|discriminate].
    apply Ascii.eqb_eq in E. subst b. f_equal. now apply IH.
Qed.

Lemma match_literal_complete (lit rest : string) :
  match_literal lit (lit ++ rest) = Some rest.
Proof.
  induction lit as [|a lit IH]; simpl.
  - now destruct rest.
  - now rewrite Ascii.eqb_refl.
Qed.

End Strings.

Section LazyGroup.

Context {A : Type} (k : string -> string -> option A).

(** A lazy group that succeeds has taken a newline-free prefix after
    which the rest of the pattern matched, and the rest of the pattern
    matched after no shorter prefix. *)
Lemma lazy_group_sound (s taken : string) (r : A) :
  lazy_group k taken s = Some r ->
  exists g rest,
    s = (g ++ rest)%string /\ no_newline g = true
    /\ k (taken ++ g)%string rest = Some r
    /\ forall g1 c g2,
         g = (g1 ++ String c g2)%string ->
         k (taken ++ g1)%string (String c g2 ++ rest)%string = None.
Proof.
  revert taken. induction s as [|c s IH]; intros taken H; simpl in H.
  - destruct (k taken "") eqn:K; [|discriminate].
    exists "", "". rewrite (append_empty_r taken).
    repeat split; simpl; try reflexivity; try congruence.
    intros [|? ?] ? ? E; simpl in E; discriminate E.
  - destruct (k taken (String c s)) eqn:K.
    + exists "", (String c s). rewrite (append_empty_r taken).
      repeat split; simpl; try reflexivity; try congruence.
      intros [|? ?] ? ? E; simpl in E; discriminate E.
    + destruct (Ascii.eqb c newline) eqn:N; [discriminate|].
      destruct (IH _ H) as (g & rest & -> & Hg & Hk & Hmin).
      exists (String c g), rest. simpl. rewrite N. simpl.
      rewrite append_assoc in Hk. repeat split; try assumption.
      intros [|c1 g1] c' g2 E; simpl in E; inversion E; subst.
      * rewrite (append_empty_r taken). exact K.
      * specialize (Hmin g1 c' g2 eq_refl).
        now rewrite append_assoc in Hmin.
Qed.

(** If the rest of the pattern matches after some newline-free prefix,
    the lazy group succeeds (possibly with a shorter prefix). *)
Lemma lazy_group_complete (g rest taken : string) (r : A) :
  no_newline g = true ->
  k (taken ++ g)%string rest = Some r ->
  exists r', lazy_group k taken (g ++ rest)%string = Some r'.
Proof.
  revert taken. induction g as [|c g IH]; intros taken Hg Hk.
  - rewrite append_empty_r in Hk. simpl.
    destruct rest; simpl; rewrite Hk; eauto.
  - simpl in Hg. apply andb_prop in Hg as [Hc Hg].
    apply negb_true_iff in Hc. simpl.
    destruct (k taken (String c (g ++ rest))); [eauto|].
    rewrite Hc. apply IH; [assumption|].
    now rewrite append_assoc.
Qed.

End LazyGroup.

Lemma match_closing (c : ascii) (s : string) :
  match_literal ")" (String c s)
  = if Ascii.eqb ")" c then Some s else None.
Proof. reflexivity. Qed.

Lemma match_at_sound (s name code rest : string) :
  match_at s = Some (name, code, rest) ->
  s = (name ++ postcode_token ++ code ++ ")" ++ rest)%string
  /\ no_newline name = true /\ no_newline code = true
  /\ no_closing code = true.
Proof.
  unfold match_at. intros H.
  apply lazy_group_sound in H as (g1 & s1 & -> & Hg1 & H & _).
  destruct (match_literal postcode_token s1) as [s2|] eqn:L; [|discriminate].
  apply match_literal_sound in L. subst s1.
  apply lazy_group_sound in H as (g2 & s3 & -> & Hg2 & H & Hmin).
  destruct (match_literal ")" s3) as [r|] eqn:L; [|discriminate].
  apply match_literal_sound in L. subst s3.
  inversion H; subst.
  repeat split; try assumption.
  clear - Hmin.
  assert (forall g1 c g2, code = (g1 ++ String c g2)%string ->
                          Ascii.eqb ")" c = false) as Hc.
  { intros g1 c g2 E. specialize (Hmin g1 c g2 E).
    change (String c g2 ++ ")" ++ rest)%string
      with (String c (g2 ++ ")" ++ rest)%string) in Hmin.
    rewrite match_closing in Hmin.
    destruct (Ascii.eqb ")" c); [discriminate Hmin|reflexivity]. }
  clear Hmin. induction code as [|c code IH]; [reflexivity|].
  cbn [no_closing]. rewrite (Hc "" c code eq_refl). cbn [negb andb].
  apply IH. intros g1 c' g2 E. apply (Hc (String c g1) c' g2).
  simpl. now rewrite E.
Qed.

Lemma match_at_complete (name code rest : string) :
  no_newline name = true -> no_newline code = true ->
  exists r,
    match_at (name ++ postcode_token ++ code ++ ")" ++ rest)%string = Some r.
Proof.
  intros Hn Hc. unfold match_at.
  destruct (lazy_group_complete
              (fun code0 s3 =>
                 match match_literal ")" s3 with
                 | Some rest0 => Some (name, code0, rest0)
                 | None => None
                 end) code (")" ++ rest)%string "" (name, code, rest) Hc)
    as [r2 H2].
  { now rewrite match_literal_complete. }
  eapply lazy_group_complete; [exact Hn|].
  rewrite match_literal_complete. exact H2.
Qed.

(** The first item of [re.findall] is a match of the pattern somewhere
    in the text, and its code goes up to the first closing
    parenthesis. *)
Lemma findall_from_sound (fuel : nat) (s name code : string)
    (more : list (string * string)) :
  findall_from fuel s = (name, code) :: more ->
  pattern_occurs s name code /\ no_closing code = true.
Proof.
  revert s. induction fuel as [|fuel IH]; intros s H; simpl in H.
  - discriminate.
  - destruct (match_at s) as [[[n c] rest]|] eqn:M.
    + inversion H; subst.
      apply match_at_sound in M as (-> & Hn & Hc & Hp).
      split; [|exact Hp]. exists "", rest. now repeat split.
    + destruct s as [|a s]; [discriminate|].
      destruct (IH _ H) as ((before & after & -> & Hn & Hc) & Hp).
      split; [|exact Hp]. exists (String a before), after.
      now repeat split.
Qed.

Lemma findall_from_complete (before tail : string) (fuel : nat) :
  String.length (before ++ tail) < fuel ->
  (exists r, match_at tail = Some r) ->
  findall_from fuel (before ++ tail)%string <> [].
Proof.
  revert fuel. induction before as [|a before IH]; intros fuel Hf [r Hr].
  - destruct fuel; [lia|]. simpl. rewrite Hr.
    destruct r as [[n c] rest]. discriminate.
  - destruct fuel; [lia|]. simpl in *.
    destruct (match_at (String a (before ++ tail))) as [[[n c] rest]|].
    + discriminate.
    + apply IH; [lia|eauto].
Qed.

Lemma findall_nonempty_iff (s : string) :
  findall_from (S (String.length s)) s <> [] <-> pattern_matches s.
Proof.
  split.
  - destruct (findall_from _ s) as [|[n c] more] eqn:F; [congruence|].
    intros _. exists n, c.
    apply findall_from_sound in F as [F _]. exact F.
  - intros (name & code & before & after & -> & Hn & Hc).
    apply findall_from_complete; [lia|].
    now apply match_at_complete.
Qed.

Lemma code_group_complete (name code tail : string) :
  no_newline code = true ->
  exists r,
    lazy_group
      (fun code0 s3 =>
         match match_literal ")" s3 with
         | Some rest => Some (name, code0, rest)
         | None => None
         end) "" (code ++ ")" ++ tail)%string = Some r.
Proof.
  intros Hc.
  apply (lazy_group_complete _ code (")" ++ tail)%string ""
           (name, code, tail) Hc).
  now rewrite match_literal_complete.
Qed.

(** What [match_at] finds is a match at the head of the text, and
    when it finds nothing there is none. *)
Lemma match_at_matches (s name code rest : string) :
  match_at s = Some (name, code, rest) -> matches_at s name code.
Proof.
  intros H. apply match_at_sound in H as (-> & Hn & Hc & _).
  exists rest. auto.
Qed.

Lemma match_at_none (t : string) :
  match_at t = None -> forall n k, ~ matches_at t n k.
Proof.
  intros H n k (after & -> & Hn & Hk).
  destruct (match_at_complete n k after Hn Hk) as [r Hr]. congruence.
Qed.

(** The name of a match is the shortest possible: after no proper
    prefix of it can the rest of the pattern match. *)
Lemma match_at_shortest (s name code rest : string) :
  match_at s = Some (name, code, rest) ->
  forall g1 c g2,
    name = (g1 ++ String c g2)%string -> forall k, ~ matches_at s g1 k.
Proof.
  unfold match_at. intros H.
  apply lazy_group_sound in H as (g & s1 & -> & _ & H & Hmin).
  destruct (match_literal postcode_token s1) as [s2|] eqn:L; [|discriminate].
  apply lazy_group_sound in H as (g' & s3 & -> & _ & H & _).
  destruct (match_literal ")" s3) as [r|]; [|discriminate].
  simpl in H. assert (g = name) as -> by congruence. clear H.
  intros g1 c g2 E k (after & Es & _ & Hk).
  specialize (Hmin g1 c g2 E). cbv beta in Hmin.
  rewrite E, append_assoc in Es. apply append_cancel in Es.
  rewrite Es, match_literal_complete in Hmin.
  destruct (code_group_complete ("" ++ g1)%string k after Hk) as [r' Hr'].
  rewrite Hr' in Hmin. discriminate Hmin.
Qed.

(** The first item of [re.findall] holds the groups of the first
    match. *)
Lemma findall_from_first (fuel : nat) (s name code : string)
    (more : list (string * string)) :
  findall_from fuel s = (name, code) :: more -> first_match s name code.
Proof.
  revert s. induction fuel as [|fuel IH]; intros s H; simpl in H.
  - discriminate.
  - destruct (match_at s) as [[[n c] rest]|] eqn:M.
    + assert (n = name /\ c = code) as [-> ->] by (split; congruence).
      exists "", s. split; [reflexivity|].
      split; [exact (match_at_matches _ _ _ _ M)|].
      split; [intros [|? ?] ? ? E; discriminate E|].
      split; [exact (match_at_shortest _ _ _ _ M)|].
      now apply match_at_sound in M.
    + destruct s as [|a s]; [discriminate|].
      destruct (IH _ H) as (before & t & -> & Hm & Hleft & Hshort & Hc).
      exists (String a before), t. split; [reflexivity|].
      split; [exact Hm|]. split; [|split; assumption].
      intros [|a' b1] c b2 E; simpl in E; inversion E; subst.
      * exact (match_at_none _ M).
      * now apply Hleft with (b1 := b1).
Qed.

Lemma no_closing_unique (k k' x y : string) :
  no_closing k = true -> no_closing k' = true ->
  (k ++ ")" ++ x)%string = (k' ++ ")" ++ y)%string -> k = k'.
Proof.
  revert k'. induction k as [|c k IH]; intros [|c' k'] Hk Hk' E;
    simpl in *.
  - reflexivity.
  - inversion E; subst c'.
    apply andb_prop in Hk' as [Hc _]. discriminate Hc.
  - inversion E; subst c.
    apply andb_prop in Hk as [Hc _]. discriminate Hc.
  - inversion E; subst c'.
    apply andb_prop in Hk as [_ Hk]. apply andb_prop in Hk' as [_ Hk'].
    f_equal. eapply IH; eauto.
Qed.

(** A text has at most one first match. *)
Lemma first_match_unique (s name code name' code' : string) :
  first_match s name code -> first_match s name' code' ->
  name = name' /\ code = code'.
Proof.
  intros (before & t & Es & Hm & Hleft & Hshort & Hc)
         (before' & t' & Es' & Hm' & Hleft' & Hshort' & Hc').
  assert (before = before' /\ t = t') as [<- <-].
  { rewrite Es in Es'.
    destruct (append_split _ _ _ _ Es') as [(m & Eb & Et)|(m & Eb & Et)];
      destruct m as [|c m].
    - rewrite append_empty_r in Eb. simpl in Et. auto.
    - exfalso. apply (Hleft' before c m Eb name code).
      now rewrite <- Et.
    - rewrite append_empty_r in Eb. simpl in Et. auto.
    - exfalso. apply (Hleft before' c m Eb name' code').
      now rewrite <- Et. }
  pose proof Hm as (after & Et & _ & _).
  pose proof Hm' as (after' & Et' & _ & _).
  assert (name = name') as <-.
  { rewrite Et in Et'.
    destruct (append_split _ _ _ _ Et') as [(m & En & _)|(m & En & _)];
      destruct m as [|c m].
    - now rewrite append_empty_r in En.
    - exfalso. exact (Hshort' name c m En code Hm).
    - now rewrite append_empty_r in En.
    - exfalso. exact (Hshort name' c m En code' Hm'). }
  split; [reflexivity|].
  rewrite Et in Et'. do 2 apply append_cancel in Et'.
  exact (no_closing_unique _ _ _ _ Hc Hc' Et').
Qed.

(** C8 (as amended): on every text label [extract_postcode] returns.  If
    the pattern [<name>(postcode: <code>)] occurs in the label, the
    result is the name stripped of surrounding whitespace and the code
    exactly as captured (not stripped), where name and code are the
    groups of the first match: the leftmost one, with the shortest name
    and the code up to the first closing parenthesis; a label has only
    one such pair.  Otherwise the result is the label stripped of
    surrounding whitespace, and [None]. *)
Theorem extract_postcode_on_text (s : string) :
  ((exists name code,
       first_match s name code
       /\ extract_postcode (PStr s) = Ok (PStr (strip name), PStr code))
   \/ (~ pattern_matches s
       /\ extract_postcode (PStr s) = Ok (PStr (strip s), PNone)))
  /\ (forall name code name' code',
        first_match s name code -> first_match s name' code' ->
        name = name' /\ code = code')
  /\ (forall name code,
        pattern_occurs s name code ->
        exists name' code', first_match s name' code').
Proof.
  assert (D : (exists name code,
                  first_match s name code
                  /\ extract_postcode (PStr s)
                     = Ok (PStr (strip name), PStr code))
              \/ (~ pattern_matches s
                  /\ extract_postcode (PStr s)
                     = Ok (PStr (strip s), PNone))).
  { unfold extract_postcode.
    change (re_findall (PStr s))
      with (Ok (findall_from (S (String.length s)) s)).
    destruct (findall_from (S (String.length s)) s) as [|[n c] more] eqn:F.
    - right. split; [|reflexivity].
      intros M. apply findall_nonempty_iff in M. congruence.
    - left. exists n, c. split; [|reflexivity].
      exact (findall_from_first _ _ _ _ _ F). }
  split; [exact D|]. split; [apply first_match_unique|].
  intros name code Ho.
  destruct D as [(n & c & Hf & _)|[Hno _]]; [eauto|].
  exfalso. apply Hno. now exists name, code.
Qed.

(** C8 (as stated) fails: an unmatched label is not returned unchanged
    but stripped, and a matched code keeps its surrounding
    whitespace. *)
Lemma extract_postcode_strips_unmatched_label :
  re_findall (PStr " Stembureau 2 ") = Ok []
  /\ extract_postcode (PStr " Stembureau 2 ") = Ok (PStr "Stembureau 2", PNone)
  /\ extract_postcode (PStr " Stembureau 2 ")
     <> Ok (PStr " Stembureau 2 ", PNone)
  /\ extract_postcode (PStr "Stembureau 1 (postcode:  1234AB )")
     = Ok (PStr "Stembureau 1", PStr " 1234AB ")
  /\ strip " 1234AB " = "1234AB".
Proof. repeat split; try reflexivity. discriminate. Qed.

Example extract_postcode_scenario :
  extract_postcode (PStr "Stembureau 1 (postcode: 1234AB)")
  = Ok (PStr "Stembureau 1", PStr "1234AB").
Proof. reflexivity. Qed.

(** [name.strip()] is never reached for a label that is not text:
    [re.findall] raises first, and [except IndexError] does not catch
    it. *)
Lemma extract_postcode_not_text (o : pyobj) :
  isinstance_str o = false -> extract_postcode o = Raise TypeError.
Proof. destruct o; simpl; intros H; try discriminate; reflexivity. Qed.

(* ================================================================= *)
(** ** Reasoning about computations that may raise *)

Lemma bind_ok {A B} (c : res A) (k : A -> res B) (b : B) :
  bind c k = Ok b -> exists a, c = Ok a /\ k a = Ok b.
Proof. destruct c; simpl; intros H; [eauto|discriminate]. Qed.

Ltac bind_inv H :=
  let a := fresh "v" in
  let E := fresh "E" in
  apply bind_ok in H as (a & E & H).

Tactic Notation "unbind" hyp(H) "as" ident(a) ident(E) :=
  apply bind_ok in H as (a & E & H).

Lemma try_except_ok {A} (body handler : res A) (caught : exn -> bool) (a : A) :
  try_except body caught handler = Ok a ->
  body = Ok a \/ (exists e, body = Raise e /\ caught e = true /\ handler = Ok a).
Proof.
  destruct body as [x|e]; simpl; intros H; [now left|].
  destruct (caught e) eqn:C; [right; eauto|discriminate].
Qed.

Lemma path_app (o : pyobj) (ks ks' : list string) :
  path o (ks ++ ks') = (v <- path o ks ;; path v ks').
Proof.
  revert o. induction ks as [|k ks IH]; intros o; simpl; [reflexivity|].
  destruct (subscript o k); simpl; [apply IH|reflexivity].
Qed.

Lemma subscript_ok (o : pyobj) (k : string) (v : pyobj) :
  subscript o k = Ok v -> exists d, o = PDict d /\ lookup k d = Some v.
Proof.
  destruct o; simpl; try discriminate.
  destruct (lookup k d) eqn:L; [|discriminate].
  intros H; inversion H; subst; eauto.
Qed.

Lemma subscript_raises (o : pyobj) (k : string) (e : exn) :
  subscript o k = Raise e ->
  (isinstance_dict o = false /\ e = TypeError)
  \/ (exists d, o = PDict d /\ lookup k d = None /\ e = KeyError k).
Proof.
  destruct o; simpl; intros H; try (left; split; congruence).
  destruct (lookup k d) eqn:L; [discriminate|].
  right. exists d. repeat split; congruence.
Qed.

(* ================================================================= *)
(** ** The election domain *)

(** Lines 88-106 never raise on an identifier that is a mapping, and
    resolve the domain by its shape, unless it is the empty text. *)
#[local] Arguments lookup : simpl never.

Lemma election_domain_fields_by_shape (ident : list (string * pyobj)) :
  lookup "kr:ElectionDomain" ident <> Some (PStr "") ->
  exists domain_id domain_name,
    election_domain_fields (PDict ident) = Ok (domain_id, domain_name)
    /\ domain_by_shape (lookup "kr:ElectionDomain" ident)
         domain_id domain_name.
Proof.
  intros Htext. unfold election_domain_fields. simpl.
  destruct (lookup "kr:ElectionDomain" ident) as [o|]; simpl.
  - destruct o as [|s|n|l|d]; simpl.
    + do 2 eexists; split; [reflexivity|]. now apply domain_other.
    + destruct (String.eqb_spec s "") as [->|Hs]; simpl;
        [now contradiction Htext|].
      do 2 eexists; (split; [reflexivity|]). apply domain_text.
    + destruct (Z.eqb n 0); simpl;
        do 2 eexists; (split; [reflexivity|]); now apply domain_other.
    + destruct l; simpl;
        do 2 eexists; (split; [reflexivity|]); now apply domain_other.
    + destruct d as [|kv d]; simpl.
      * do 2 eexists; split; [reflexivity|].
        apply (domain_object []).
      * pose proof (domain_object (kv :: d)) as D.
        destruct (lookup "@Id" (kv :: d)) as [i|];
        destruct (lookup "#text" (kv :: d)) as [t|]; simpl;
        do 2 eexists; (split; [reflexivity|]); exact D.
  - do 2 eexists; split; [reflexivity|]. apply domain_absent.
Qed.

(* ================================================================= *)
(** ** Loops that print *)

Lemma io_for_loop_raises {S X} (body : S -> X -> io S) (x : X)
    (items : list X) :
  In x items ->
  (forall st, exists e, outcome (body st x) = Raise e) ->
  forall st, exists e, outcome (io_for_loop body st items) = Raise e.
Proof.
  intros Hin Hx. induction items as [|y items IH]; [contradiction|].
  intros st. simpl. unfold io_bind.
  destruct (body st y) as [out [st'|e]] eqn:B.
  - destruct Hin as [->|Hin].
    + destruct (Hx st) as [e He]. rewrite B in He. discriminate.
    + destruct (IH Hin st') as [e He].
      destruct (io_for_loop body st' items) as [out' r]. simpl in *. eauto.
  - simpl. eauto.
Qed.

(* ================================================================= *)
(** ** Documents that cannot be read or processed *)

Lemma io_for_loop_app {S X} (body : S -> X -> io S) (st : S) (a b : list X) :
  io_for_loop body st (a ++ b)
  = (st1 <~ io_for_loop body st a ;; io_for_loop body st1 b).
Proof.
  revert st. induction a as [|x a IH]; intros st; simpl.
  - destruct (io_for_loop body st b) as [out r]. reflexivity.
  - unfold io_bind at 1 3. destruct (body st x) as [out [st1|e]].
    + rewrite IH. unfold io_bind.
      destruct (io_for_loop body st1 a) as [out1 [st2|e]].
      * destruct (io_for_loop body st2 b) as [out2 r].
        now rewrite app_assoc.
      * reflexivity.
    + reflexivity.
Qed.

(** [read_eml] never takes its handler, since what reading raises is
    no [UnicodeDecodeError]: it prints nothing, and returns the tree or
    raises what reading raised. *)
Lemma read_eml_outcome (path : file) :
  read_eml path
  = match content path with
    | Parsed tree => ([], Ok tree)
    | Failed e _ => ([], Raise (raised e))
    end.
Proof.
  unfold read_eml. destruct (content path) as [tree|[] message]; reflexivity.
Qed.

(** A vote-count file that cannot be opened or parsed makes its turn of
    the loop of [process_files] raise, whatever tables were made
    before. *)
Lemma process_file_unreadable (per_candidate : bool)
    (dfs : list (string * DataFrame)) (path : file) (e : read_error)
    (message : string) :
  content path = Failed e message ->
  process_file per_candidate dfs path = ([], Raise (raised e)).
Proof.
  intros H. unfold process_file. rewrite read_eml_outcome, H. reflexivity.
Qed.

(** A loop without handler stops at the first turn that raises. *)
Lemma io_for_loop_halts {S X} (body : S -> X -> io S) (x : X)
    (before after : list X) (st st1 : S) (out : list string) (e : exn) :
  io_for_loop body st before = (out, Ok st1) ->
  outcome (body st1 x) = Raise e ->
  outcome (io_for_loop body st (before ++ x :: after)) = Raise e.
Proof.
  intros Hb Hx. rewrite io_for_loop_app, Hb. unfold io_bind. simpl.
  unfold io_bind. destruct (body st1 x) as [out' [st2|e']]; simpl in *.
  - discriminate Hx.
  - destruct (out ++ out'); exact Hx.
Qed.

(** C1 (as amended): [process_files] has no isolation of a document.  A
    document of the batch that is not filtered out and whose turn
    raises (it cannot be opened, is not well-formed XML, or is no count
    document) makes the whole batch raise: no table is returned.  When
    the documents before it were processed, the batch raises what that
    document raised; the documents after it are not looked at.
    [read_eml] prints no diagnostic for the document. *)
Theorem process_files_halts_at_failure
    (before after : list file) (p : file) (per_candidate : bool)
    (e : exn) :
  kept p = true ->
  (forall dfs, outcome (process_file per_candidate dfs p) = Raise e) ->
  (exists e', outcome (process_files (before ++ p :: after) per_candidate)
              = Raise e')
  /\ (forall out dfs,
        process_files before per_candidate = (out, Ok dfs) ->
        outcome (process_files (before ++ p :: after) per_candidate)
        = Raise e)
  /\ printed (read_eml p) = [].
Proof.
  intros Hkept Hp. split; [|split].
  - unfold process_files. apply io_for_loop_raises with (x := p).
    + apply filter_In. split; [apply in_elt|exact Hkept].
    + intros dfs. eauto.
  - intros out dfs Hb. unfold process_files in *.
    rewrite filter_app. cbn [filter]. fold (kept p). rewrite Hkept.
    eapply io_for_loop_halts; [exact Hb|apply Hp].
  - rewrite read_eml_outcome. now destruct (content p).
Qed.

Lemma process_files_halts_at_failure_witness :
  outcome (process_files [readable_file; malformed_file; readable_file] true)
  = Raise (KeyError "EML")
  /\ outcome (process_files [readable_file; truncated_file] false)
     = Raise ExpatError.
Proof.
  split.
  - destruct (process_files_halts_at_failure [readable_file] [readable_file]
                malformed_file true (KeyError "EML")) as (_ & H & _);
      [reflexivity|intros dfs; reflexivity|].
    eapply (H []). vm_compute. reflexivity.
  - destruct (process_files_halts_at_failure [readable_file] []
                truncated_file false ExpatError) as (_ & H & _);
      [reflexivity|intros dfs; reflexivity|].
    eapply (H []). vm_compute. reflexivity.
Defined.

(** C1 (as stated) fails: a document that is not well-formed XML, or
    that is no count document, halts the batch, and the readable
    document that follows gets no table. *)
Lemma process_files_stops_at_malformed :
  process_files [malformed_file; readable_file] false
  = ([], Raise (KeyError "EML"))
  /\ process_files [truncated_file; readable_file] false
     = ([], Raise ExpatError)
  /\ (exists tables,
        process_files [readable_file] false = ([], Ok tables)
        /\ map fst tables = ["Telling_GR2018_Testdorp_aggregate"]).
Proof.
  split; [reflexivity|]. split; [reflexivity|].
  eexists. split; reflexivity.
Qed.

(* ================================================================= *)
(** ** Stations without a usable identifier *)

(** A station that is a string: both identifier lookups raise
    [TypeError] and are caught, then [extract_postcode(None)] raises. *)
Lemma station_body_text (per_candidate : bool) (id : identity)
    (st : locals) (s : string) :
  station_body per_candidate id st (PStr s) = Raise TypeError.
Proof. reflexivity. Qed.

Lemma stations_with_text_raise (per_candidate : bool) (id : identity)
    (stations : list pyobj) (s : string) :
  In (PStr s) stations ->
  forall st,
  exists e,
    outcome (io_for_loop (station_step per_candidate id) st stations)
    = Raise e.
Proof.
  intros Hin. apply io_for_loop_raises with (x := PStr s); [assumption|].
  intros st. unfold station_step. rewrite station_body_text.
  simpl. eauto.
Qed.

(** C2: a station entry that is a string is printed, and then the whole
    document fails with [TypeError]; the structured station that follows
    is not processed, although the same document without the string
    entry parses. *)
Theorem text_station_aborts_document :
  parse_election_data
    (sample_count sample_domain
       [("ReportingUnitVotes",
         PList [ PStr "Stembureau 7";
                 sample_station
                   (station_identifier "0001::SB1" "Stembureau 1")
                   [party_selection "1" "PartyA" "50"] ])])
    false
  = (["Stembureau 7"], Raise TypeError)
  /\ (exists r contest authority,
        parse_election_data
          (sample_count sample_domain
             [("ReportingUnitVotes",
               PList [ sample_station
                         (station_identifier "0001::SB1" "Stembureau 1")
                         [party_selection "1" "PartyA" "50"] ])])
          false
        = ([], Ok (ReturnedTuple [r] [] contest authority))).
Proof.
  split; [reflexivity|].
  do 3 eexists. reflexivity.
Qed.

(** Whenever the record of a station is built, both the id and the name
    of the station were found, and the name is text: no station survives
    the absence of either. *)
Lemma station_item_needs_id_and_name (id : identity) (station : pyobj)
    (item : row) :
  station_item id station = Ok item ->
  exists station_id label,
    path station ["ReportingUnitIdentifier"; "@Id"] = Ok station_id
    /\ path station ["ReportingUnitIdentifier"; "#text"] = Ok (PStr label).
Proof.
  unfold station_item. intros H.
  bind_inv H. rename v into station_id, E into Eid.
  bind_inv H. rename v into station_name, E into Ename.
  bind_inv H. destruct v as [name' postcode]. rename E into Epost.
  clear H.
  assert (exists label, station_name = PStr label) as [label ->].
  { destruct station_name; try (simpl in Epost; discriminate). eauto. }
  apply try_except_ok in Ename as [Ename|(e & _ & _ & Hh)];
    [|discriminate].
  apply try_except_ok in Eid as [Eid|(e & Eid & He & _)]; [eauto|].
  exfalso.
  destruct e; try discriminate.
  unfold path in Eid, Ename.
  destruct (subscript station "ReportingUnitIdentifier") as [ru|e] eqn:S1;
    simpl in *; [|discriminate].
  destruct (subscript ru "#text") as [x|] eqn:S2; simpl in *;
    [|discriminate].
  apply subscript_ok in S2 as (d & -> & _).
  simpl in Eid. destruct (lookup "@Id" d); discriminate.
Qed.

(** C6: a station whose identifier carries no [@Id] (plain text), or no
    text (only [@Id]), does not get a row with [None] in that field: the
    document fails. *)
Theorem station_without_id_or_name_aborts_document :
  parse_election_data
    (sample_count sample_domain
       [("ReportingUnitVotes",
         PList [ sample_station (PStr "Stembureau 1")
                   [party_selection "1" "PartyA" "50"] ])])
    false
  = ([], Raise TypeError)
  /\ parse_election_data
       (sample_count sample_domain
          [("ReportingUnitVotes",
            PList [ sample_station (PDict [("@Id", PStr "0001::SB1")])
                      [party_selection "1" "PartyA" "50"] ])])
       false
     = ([], Raise (KeyError "#text"))
  /\ parse_election_data
       (sample_count sample_domain
          [("ReportingUnitVotes",
            PList [ sample_station (PDict [("#text", PStr "Stembureau 1")])
                      [party_selection "1" "PartyA" "50"] ])])
       false
     = ([], Raise (KeyError "@Id")).
Proof. repeat split; reflexivity. Qed.

(* ================================================================= *)
(** ** The candidate roster *)

(** C5: a missing last name or a missing initials line is not resolved
    to [None]: [except TypeError] does not catch the [KeyError], the
    candidate gets no row and the candidates after it are lost, while a
    missing first name, name prefix, gender or address is resolved to
    [None] by the sibling handlers [except (TypeError, KeyError)]. *)
Theorem missing_last_name_aborts_roster :
  parse_candidates
    (sample_roster
       [ sample_candidate "1"
           [("ns2:PersonName",
             PDict [ ("ns2:NameLine", PDict [("#text", PStr "J.")]);
                     ("ns2:FirstName", PStr "Jan") ])]
           [("Gender", PStr "male")];
         full_candidate "2" ])
    []
  = Raise (KeyError "ns2:LastName")
  /\ parse_candidates
       (sample_roster
          [ sample_candidate "1"
              [("ns2:PersonName",
                PDict [ ("ns2:FirstName", PStr "Jan");
                        ("ns2:LastName", PStr "Vries") ])]
              [("Gender", PStr "male")];
            full_candidate "2" ])
       []
     = Raise (KeyError "ns2:NameLine")
  /\ (exists r,
        parse_candidates
          (sample_roster
             [ sample_candidate "1"
                 [("ns2:PersonName",
                   PDict [ ("ns2:NameLine", PDict [("#text", PStr "J.")]);
                           ("ns2:LastName", PStr "Vries") ])]
                 [] ])
          []
        = Ok [r]
        /\ row_lookup (KStr "first_name") r = Some PNone
        /\ row_lookup (KStr "prefix") r = Some PNone
        /\ row_lookup (KStr "gender") r = Some PNone
        /\ row_lookup (KStr "address") r = Some PNone
        /\ row_lookup (KStr "last_name") r = Some (PStr "Vries")
        /\ row_lookup (KStr "initials") r = Some (PStr "J.")).
Proof.
  split; [reflexivity|]. split; [reflexivity|].
  eexists. repeat split; reflexivity.
Qed.

(** The scenario of the candidate without a [Gender] key does hold. *)
Example candidate_without_gender :
  exists r,
    parse_candidates
      (sample_roster
         [ sample_candidate "1" [("ns2:PersonName", PDict full_person)]
             [("QualifyingAddress", sample_locality)] ])
      []
    = Ok [r]
    /\ row_lookup (KStr "gender") r = Some PNone
    /\ row_lookup (KStr "first_name") r = Some (PStr "Jan")
    /\ row_lookup (KStr "last_name") r = Some (PStr "Vries")
    /\ row_lookup (KStr "initials") r = Some (PStr "J.")
    /\ row_lookup (KStr "prefix") r = Some (PStr "de")
    /\ row_lookup (KStr "address") r = Some (PStr "Testdorp").
Proof. eexists. repeat split; reflexivity. Qed.

Lemma scan_prefix_none (ks : list string) (n : option string) :
  forallb (fun key => negb (String.prefix "ns" key)) ks = true ->
  scan_prefix ks n = Ok n.
Proof.
  induction ks as [|key ks IH]; simpl; intros H; [reflexivity|].
  apply andb_prop in H as [Hk Hks].
  apply negb_true_iff in Hk. rewrite Hk. now apply IH.
Qed.

Lemma lookup_prefixed_none (block : list (string * pyobj)) (k : string) :
  no_prefixed_key block = true ->
  String.prefix "ns" k = true ->
  lookup k block = None.
Proof.
  unfold no_prefixed_key.
  induction block as [|[k' v] block IH]; intros H Hk;
    [reflexivity|].
  simpl in H. apply andb_prop in H as [Hk' H].
  unfold lookup; fold lookup.
  destruct (String.eqb_spec k k') as [->|_].
  - rewrite Hk in Hk'. discriminate.
  - now apply IH.
Qed.

Lemma ns_key_prefixed (n field : string) :
  String.prefix "ns" ("ns" ++ n ++ ":" ++ field)%string = true.
Proof. simpl. now destruct (n ++ String ":" field)%string. Qed.

(** Whatever was seen before, a candidate whose name block has no key
    starting with [ns] makes the loop body raise: with [nr] still
    unbound the first use of it raises [UnboundLocalError]; with [nr]
    left over from an earlier candidate the first name is resolved to
    [None], but the last name raises [KeyError]. *)
Lemma candidate_without_prefix_raises (election_identifier : pyobj)
    (entries : list (string * pyobj)) (party_name party_id : pyobj)
    (st : roster_locals) (candidate block : list (string * pyobj)) :
  lookup "CandidateFullName" candidate = Some (PDict block) ->
  no_prefixed_key block = true ->
  exists e,
    candidate_body election_identifier entries party_name party_id st
      (PDict candidate)
    = Raise e.
Proof.
  intros Hname Hblock. unfold candidate_body.
  destruct (try_except _ is_TypeError (Ok PNone)) as [identifier|e];
    [|simpl; eauto].
  cbn [bind isinstance_dict negb subscript].
  rewrite Hname. cbn [bind keys].
  rewrite (scan_prefix_none _ _ Hblock). cbn [bind].
  destruct (nr st) as [n|]; [|simpl; eauto].
  unfold ns_subscript, ns_key.
  cbn [bind read_local subscript].
  rewrite !(lookup_prefixed_none block _ Hblock (ns_key_prefixed n _)).
  simpl. eauto.
Qed.

(** C7: a candidate whose name block has no key starting with [ns] does
    not get [None] in its prefixed fields; the document fails, whether
    the candidate comes first ([nr] unbound) or after a candidate that
    bound [nr]. *)
Theorem candidate_without_prefix_aborts_roster :
  parse_candidates
    (sample_roster
       [ sample_candidate "1" [("PersonName", PDict full_person)]
           [("Gender", PStr "male")];
         full_candidate "2" ])
    []
  = Raise (UnboundLocalError "nr")
  /\ parse_candidates
       (sample_roster
          [ full_candidate "1";
            sample_candidate "2" [("PersonName", PDict full_person)]
              [("Gender", PStr "male")] ])
       []
     = Raise (KeyError "ns2:PersonName").
Proof. split; reflexivity. Qed.

(* ================================================================= *)
(** ** Rows *)

Lemma key_eqb_eq (a b : key) : key_eqb a b = true <-> a = b.
Proof.
  destruct a, b; simpl; split; intros H; try discriminate; try reflexivity.
  - apply String.eqb_eq in H. congruence.
  - inversion H. apply String.eqb_refl.
  - apply Z.eqb_eq in H. congruence.
  - inversion H. apply Z.eqb_refl.
Qed.

Lemma key_eqb_refl (k : key) : key_eqb k k = true.
Proof. now apply key_eqb_eq. Qed.

Lemma row_lookup_setitem_same (k : key) (v : pyobj) (d : row) :
  row_lookup k (setitem k v d) = Some v.
Proof.
  induction d as [|[k' v'] d IH]; simpl.
  - now rewrite key_eqb_refl.
  - destruct (key_eqb k k') eqn:E; simpl; rewrite E; [reflexivity|exact IH].
Qed.

Lemma row_lookup_setitem_other (k k' : key) (v : pyobj) (d : row) :
  key_eqb k k' = false ->
  row_lookup k (setitem k' v d) = row_lookup k d.
Proof.
  intros N. induction d as [|[k0 v0] d IH]; simpl.
  - now rewrite N.
  - destruct (key_eqb k' k0) eqn:E; simpl.
    + apply key_eqb_eq in E. subst k0. now rewrite N.
    + now rewrite IH.
Qed.

Lemma column_names_setitem (k : key) (v : pyobj) (d : row) (k' : key) :
  In k' (column_names (setitem k v d)) <-> k' = k \/ In k' (column_names d).
Proof.
  unfold column_names. induction d as [|[k0 v0] d IH]; simpl.
  - intuition congruence.
  - destruct (key_eqb k k0) eqn:E; simpl.
    + apply key_eqb_eq in E. subst k0. intuition congruence.
    + rewrite IH. intuition congruence.
Qed.

Lemma row_lookup_some_setitem (k k' : key) (v : pyobj) (d : row) :
  row_lookup k d <> None -> row_lookup k (setitem k' v d) <> None.
Proof.
  intros H. destruct (key_eqb k k') eqn:E.
  - apply key_eqb_eq in E. subst. rewrite row_lookup_setitem_same.
    discriminate.
  - now rewrite row_lookup_setitem_other.
Qed.

Ltac row_simpl :=
  repeat (rewrite row_lookup_setitem_same
          || rewrite row_lookup_setitem_other by reflexivity).

(* ================================================================= *)
(** ** The loop over the selections of a station *)

#[local] Arguments path : simpl never.
#[local] Arguments subscript : simpl never.
#[local] Arguments pd_isnull : simpl never.


(** What one turn of [for result in results] does when it returns. *)
Lemma selection_body_ok (per_candidate : bool) (item : row)
    (st st' : locals) (result : pyobj) :
  selection_body per_candidate item st result = Ok st' ->
  (is_party_selection result = true
   /\ rows_per_candidate st' = rows_per_candidate st
   /\ rows_aggregates st' = rows_aggregates st
   /\ scope_of st' = party_binding result
   /\ exists column,
        party_column result = Some column
        /\ forall k, In k (column_names (row_aggregate st'))
                     <-> k = column \/ In k (column_names (row_aggregate st)))
  \/ (is_party_selection result = false
      /\ per_candidate = true
      /\ same_but_candidates st st'
      /\ exists r,
           rows_per_candidate st' = rows_per_candidate st ++ [r]
           /\ party_columns r = scope_of st
           /\ candidate_columns r = candidate_of result)
  \/ (is_party_selection result = false
      /\ per_candidate = false
      /\ st' = st).
Proof.
  unfold selection_body, is_party_selection. intros H.
  bind_inv H. rename v into ks, E into Eks. rewrite Eks.
  destruct (existsb (String.eqb "AffiliationIdentifier") ks).
  - left. split; [reflexivity|].
    unbind H as registered Ereg.
    unbind H as ident Eident.
    unbind H as null Enull.
    unbind H as valid_votes Evalid.
    unbind H as votes Evotes.
    unbind H as column Ecolumn.
    inversion H; subst; clear H. simpl.
    repeat split.
    + unfold scope_of, party_binding. simpl.
      now rewrite Ereg, Eident, Enull.
    + exists column. split.
      * unfold party_column, party_binding.
        rewrite Ereg, Eident, Enull. simpl. now rewrite Ecolumn.
      * intros k. apply column_names_setitem.
  - right. destruct per_candidate.
    + left.
      unbind H as row0 Erow0.
      unbind H as pname Epname.
      unbind H as pid Epid.
      unbind H as candidate_id Ecand.
      unbind H as valid_votes Evotes.
      inversion H; subst; clear H.
      split; [reflexivity|]. split; [reflexivity|].
      split; [unfold same_but_candidates, scope_of; simpl; auto|].
      eexists. split; [reflexivity|].
      destruct (party_name st) as [n|] eqn:Pn; [|discriminate].
      destruct (party_id st) as [i|] eqn:Pi; [|discriminate].
      inversion Epname; inversion Epid; subst.
      unfold party_columns, candidate_columns, candidate_of, scope_of.
      rewrite Ecand, Evotes, Pn, Pi. simpl.
      row_simpl. split; reflexivity.
    + right. inversion H. auto.
Qed.

Lemma last_party_app (a b : list pyobj) (sc : scope) :
  last_party (a ++ b) sc = last_party b (last_party a sc).
Proof.
  revert sc. induction a as [|r a IH]; intros sc; simpl; [reflexivity|].
  apply IH.
Qed.

Lemma parties_in_scope_app (a b : list pyobj) (sc : scope) :
  parties_in_scope (a ++ b) sc
  = parties_in_scope a sc ++ parties_in_scope b (last_party a sc).
Proof.
  revert sc. induction a as [|r a IH]; intros sc; simpl; [reflexivity|].
  destruct (is_party_selection r); simpl; now rewrite IH.
Qed.

Lemma candidate_selections_app (a b : list pyobj) :
  candidate_selections (a ++ b)
  = candidate_selections a ++ candidate_selections b.
Proof. apply filter_app. Qed.

(** What the whole loop [for result in results] does when it
    returns. *)
Lemma selection_loop_ok (per_candidate : bool) (item : row)
    (selections : list pyobj) (st st' : locals) :
  for_loop (selection_body per_candidate item) st selections = Ok st' ->
  rows_aggregates st' = rows_aggregates st
  /\ scope_of st' = last_party selections (scope_of st)
  /\ (forall k, In k (column_names (row_aggregate st'))
                <-> In k (column_names (row_aggregate st))
                    \/ is_party_column selections k)
  /\ exists new,
       rows_per_candidate st' = rows_per_candidate st ++ new
       /\ map party_columns new
          = (if per_candidate
             then parties_in_scope selections (scope_of st) else [])
       /\ map candidate_columns new
          = (if per_candidate
             then map candidate_of (candidate_selections selections)
             else []).
Proof.
  revert st. induction selections as [|r selections IH]; intros st H.
  - simpl in H. inversion H; subst; clear H.
    split; [reflexivity|]. split; [reflexivity|]. split.
    + intros k. split; [auto|]. intros [Hk|(r & [] & _)]. exact Hk.
    + exists []. rewrite app_nil_r. now destruct per_candidate.
  - simpl in H. unbind H as st1 Hstep.
    apply IH in H as (Hagg & Hscope & Hcols & new & Hnew & Hparties & Hcands).
    apply selection_body_ok in Hstep
      as [(Hp & Hr & Ha & Hs & column & Hcol & Hk)
         |[(Hp & Hpc & (Ha & Hra & Hs) & r0 & Hr & Hpcols & Hccols)
          |(Hp & Hpc & ->)]].
    + (* a party-level selection *)
      split; [congruence|]. split.
      { simpl. rewrite Hp. congruence. }
      split.
      { intros k. rewrite Hcols, Hk. unfold is_party_column. split.
        - intros [[->|Hin]|(r1 & Hin & Hp1 & Hc1)].
          + right. exists r. simpl. auto.
          + now left.
          + right. exists r1. simpl. auto.
        - intros [Hin|(r1 & [<-|Hin] & Hp1 & Hc1)].
          + left. now right.
          + left. left. congruence.
          + right. exists r1. auto. }
      exists new. split; [congruence|].
      unfold candidate_selections. simpl. rewrite Hp. simpl.
      rewrite Hparties, Hcands, Hs. auto.
    + (* a per-candidate item, recorded *)
      subst per_candidate.
      split; [congruence|]. split.
      { simpl. rewrite Hp. congruence. }
      split.
      { intros k. rewrite Hcols, Hra. unfold is_party_column. split.
        - intros [Hin|(r1 & Hin & Hp1 & Hc1)]; [now left|].
          right. exists r1. simpl. auto.
        - intros [Hin|(r1 & [<-|Hin] & Hp1 & Hc1)]; [now left|congruence|].
          right. exists r1. auto. }
      exists (r0 :: new). split.
      { rewrite Hnew, Hr, <- app_assoc. reflexivity. }
      unfold candidate_selections. simpl. rewrite Hp. simpl.
      rewrite Hparties, Hcands, Hpcols, Hccols, Hs. auto.
    + (* a per-candidate item, ignored *)
      subst per_candidate.
      split; [assumption|]. split.
      { simpl. now rewrite Hp. }
      split.
      { intros k. rewrite Hcols. unfold is_party_column. split.
        - intros [Hin|(r1 & Hin & Hp1 & Hc1)]; [now left|].
          right. exists r1. simpl. auto.
        - intros [Hin|(r1 & [<-|Hin] & Hp1 & Hc1)]; [now left|congruence|].
          right. exists r1. auto. }
      exists new. auto.
Qed.

(* ================================================================= *)
(** ** The record of a station *)

Lemma row_lookup_in (k : key) (d : row) :
  row_lookup k d <> None <-> In k (column_names d).
Proof.
  unfold column_names. induction d as [|[k' v] d IH]; simpl.
  - intuition congruence.
  - destruct (key_eqb k k') eqn:E.
    + apply key_eqb_eq in E. subst. intuition congruence.
    + rewrite IH. split; [auto|]. intros [->|H]; [|exact H].
      rewrite key_eqb_refl in E. discriminate.
Qed.

Lemma lookup_absent (k : string) (d : list (string * pyobj)) :
  existsb (String.eqb k) (map fst d) = false -> lookup k d = None.
Proof.
  induction d as [|[k' v] d IH]; [reflexivity|].
  simpl. intros H. apply orb_false_elim in H as [Hk Hd].
  unfold lookup; fold lookup. rewrite Hk. auto.
Qed.

Lemma reason_body_ok (prefix : string) (item item' : row) (reason : pyobj) :
  reason_body prefix item reason = Ok item' ->
  exists code value,
    lowered_code reason = [code]
    /\ item' = setitem (reason_column prefix code) value item.
Proof.
  unfold reason_body, lowered_code. intros H.
  unbind H as code Ecode. unbind H as lowered Elower.
  unbind H as value Evalue. inversion H; subst; clear H.
  rewrite Ecode. destruct code; try discriminate.
  simpl in Elower. inversion Elower; subst. eauto.
Qed.

Lemma reason_loop_columns (prefix : string) (reasons : list pyobj)
    (item item' : row) :
  for_loop (reason_body prefix) item reasons = Ok item' ->
  forall k,
    In k (column_names item')
    <-> In k (column_names item)
        \/ In k (map (reason_column prefix) (flat_map lowered_code reasons)).
Proof.
  revert item. induction reasons as [|reason reasons IH]; intros item H k.
  - simpl in H. inversion H; subst. simpl. tauto.
  - simpl in H. unbind H as item1 Hstep.
    apply reason_body_ok in Hstep as (code & value & Hcode & ->).
    rewrite (IH _ H), column_names_setitem. simpl. rewrite Hcode. simpl.
    intuition auto.
Qed.

Lemma station_item_columns (id : identity) (station : pyobj) (item : row) :
  station_item id station = Ok item ->
  forall k,
    In k (column_names item)
    <-> In k (map KStr fixed_columns)
        \/ In k (map (reason_column "rejected_")
                   (reason_codes "RejectedVotes" station))
        \/ In k (map (reason_column "uncounted_")
                   (reason_codes "UncountedVotes" station)).
Proof.
  unfold station_item. intros H.
  unbind H as station_id Eid.
  unbind H as station_name Ename.
  unbind H as decomposed Epost. destruct decomposed as [label postcode].
  unbind H as cast Ecast.
  unbind H as total_counted Etotal.
  unbind H as rejected_votes Erejected.
  unbind H as rejected Eiter.
  unbind H as item1 Hloop1.
  unbind H as has_uncounted Ehas.
  pose proof (reason_loop_columns _ _ _ _ Hloop1) as C1.
  assert (R : reason_codes "RejectedVotes" station
              = flat_map lowered_code rejected).
  { unfold reason_codes. now rewrite Erejected, Eiter. }
  apply subscript_ok in Ecast as (d & -> & _).
  destruct has_uncounted.
  - unbind H as uncounted_votes Euncounted.
    unbind H as uncounted Eiter2.
    pose proof (reason_loop_columns _ _ _ _ H) as C2.
    assert (U : reason_codes "UncountedVotes" (PDict d)
                = flat_map lowered_code uncounted).
    { unfold reason_codes. now rewrite Euncounted, Eiter2. }
    intros k. rewrite C2, C1, R, U. clear. intuition auto.
  - inversion H; subst; clear H.
    assert (U : reason_codes "UncountedVotes" (PDict d) = []).
    { unfold reason_codes, subscript.
      unfold contains in Ehas.
      assert (Hex : existsb (String.eqb "UncountedVotes") (map fst d) = false)
        by congruence.
      now rewrite (lookup_absent _ _ Hex). }
    intros k. rewrite C1, R, U. clear. simpl. intuition auto.
Qed.

Lemma recovered_codes_in (prefix code : string) (r : row) :
  In code (recovered_codes prefix r)
  <-> In (reason_column prefix code) (column_names r).
Proof.
  unfold recovered_codes, reason_column. rewrite in_flat_map. split.
  - intros (k & Hin & Hc). destruct k as [|column|]; simpl in Hc; try tauto.
    destruct (match_literal prefix column) as [c|] eqn:M; simpl in Hc;
      [|tauto].
    destruct Hc as [->|[]]. apply match_literal_sound in M. now subst.
  - intros Hin. eexists. split; [exact Hin|]. simpl.
    rewrite match_literal_complete. now left.
Qed.

Lemma reason_column_in_map (prefix code : string) (codes : list string) :
  In (reason_column prefix code) (map (reason_column prefix) codes)
  <-> In code codes.
Proof.
  rewrite in_map_iff. split.
  - intros (c & Hc & Hin). unfold reason_column in Hc. inversion Hc as [E].
    assert (c = code) as <-; [|exact Hin].
    clear - E. induction prefix; simpl in E; [auto|].
    inversion E. auto.
  - intros Hin. eauto.
Qed.

(* ================================================================= *)
(** ** The election domain on the rows *)

Lemma reason_loop_keeps (prefix : string) (k : key) (reasons : list pyobj)
    (item item' : row) :
  (forall code, key_eqb k (reason_column prefix code) = false) ->
  for_loop (reason_body prefix) item reasons = Ok item' ->
  row_lookup k item' = row_lookup k item.
Proof.
  intros Hk. revert item.
  induction reasons as [|reason reasons IH]; intros item H.
  - simpl in H. now inversion H.
  - simpl in H. unbind H as item1 Hstep.
    apply reason_body_ok in Hstep as (code & value & _ & ->).
    rewrite (IH _ H). now apply row_lookup_setitem_other.
Qed.

(** The record of every station carries the election domain of the
    header. *)
Lemma station_item_domain (id : identity) (station : pyobj) (item : row) :
  station_item id station = Ok item ->
  row_lookup (KStr "election_domain_id") item = Some (election_domain_id id)
  /\ row_lookup (KStr "election_domain_name") item
     = Some (election_domain_name id).
Proof.
  unfold station_item. intros H.
  unbind H as station_id Eid.
  unbind H as station_name Ename.
  unbind H as decomposed Epost. destruct decomposed as [label postcode].
  unbind H as cast Ecast.
  unbind H as total_counted Etotal.
  unbind H as rejected_votes Erejected.
  unbind H as rejected Eiter.
  unbind H as item1 Hloop1.
  unbind H as has_uncounted Ehas.
  assert (K : forall k,
             (forall code, key_eqb k (reason_column "rejected_" code) = false) ->
             (forall code, key_eqb k (reason_column "uncounted_" code) = false) ->
             row_lookup k item
             = row_lookup k
                 (setitem (KStr "total_counted") total_counted
                    (setitem (KStr "cast") cast
                       (setitem (KStr "postcode") postcode
                          (setitem (KStr "station_name") label
                             (setitem (KStr "station_id") station_id
                                (dict_literal (identity_entries id)))))))).
  { intros k R U. destruct has_uncounted.
    - unbind H as uncounted_votes Euncounted.
      unbind H as uncounted Eiter2.
      rewrite (reason_loop_keeps _ _ _ _ _ U H).
      apply (reason_loop_keeps _ _ _ _ _ R Hloop1).
    - inversion H; subst.
      apply (reason_loop_keeps _ _ _ _ _ R Hloop1). }
  split; rewrite K by reflexivity; reflexivity.
Qed.

(** C3: for every vote-count document whose header is read, the
    identifier is a mapping and [election_domain_id] and
    [election_domain_name] follow the shape of its [kr:ElectionDomain]
    entry: absent gives [None] for both; a string gives the name and no
    id; a mapping gives its [@Id] and [#text], each [None] when
    missing.  The record of every station carries the two fields so
    resolved.  The document is one that the parser can give: the entry
    is not the empty text, since an element without text is parsed to
    [None]. *)
Theorem election_domain_resolves_by_shape
    (data : pyobj) (id : identity) (stations : list pyobj)
    (rows : list row) :
  election_header data = Ok (id, stations, rows) ->
  path data ["EML"; "Count"; "Election"; "ElectionIdentifier";
             "kr:ElectionDomain"] <> Ok (PStr "") ->
  exists ident,
    path data ["EML"; "Count"; "Election"; "ElectionIdentifier"]
    = Ok (PDict ident)
    /\ domain_by_shape (lookup "kr:ElectionDomain" ident)
         (election_domain_id id) (election_domain_name id)
    /\ forall station item,
         station_item id station = Ok item ->
         row_lookup (KStr "election_domain_id") item
         = Some (election_domain_id id)
         /\ row_lookup (KStr "election_domain_name") item
            = Some (election_domain_name id).
Proof.
  unfold election_header. intros H Htext.
  bind_inv H. rename v into election, E into Eelection.
  bind_inv H. rename v into ei, E into Eei.
  bind_inv H. rename v into eid, E into Eid.
  bind_inv H. rename v into ename, E into Ename.
  bind_inv H. destruct v as [domain_id domain_name]. rename E into Edomain.
  bind_inv H. bind_inv H. bind_inv H. bind_inv H. bind_inv H.
  destruct v3 as [st0 rows0]. inversion H; subst; clear H.
  apply subscript_ok in Eid as (ident & -> & _).
  assert (Hident : path data ["EML"; "Count"; "Election";
                              "ElectionIdentifier"] = Ok (PDict ident)).
  { change ["EML"; "Count"; "Election"; "ElectionIdentifier"]
      with (["EML"; "Count"; "Election"] ++ ["ElectionIdentifier"]).
    rewrite path_app, Eelection. cbn [bind]. unfold path.
    now rewrite Eei. }
  exists ident. split; [exact Hident|].
  split; [|intros station item; apply station_item_domain].
  destruct (election_domain_fields_by_shape ident) as (i & n & Hf & Hs).
  - intros L. apply Htext.
    change ["EML"; "Count"; "Election"; "ElectionIdentifier";
            "kr:ElectionDomain"]
      with (["EML"; "Count"; "Election"; "ElectionIdentifier"]
            ++ ["kr:ElectionDomain"]).
    rewrite path_app, Hident. cbn [bind]. unfold path, subscript.
    now rewrite L.
  - rewrite Hf in Edomain. inversion Edomain; subst. exact Hs.
Qed.

Lemma election_domain_resolves_by_shape_witness :
  exists ident,
    path (sample_count sample_domain [])
      ["EML"; "Count"; "Election"; "ElectionIdentifier"]
    = Ok (PDict ident)
    /\ domain_by_shape (lookup "kr:ElectionDomain" ident)
         (PStr "0001") (PStr "Testdorp")
    /\ row_lookup (KStr "election_domain_name") first_station_item
       = Some (PStr "Testdorp").
Proof.
  destruct (election_domain_resolves_by_shape
              (sample_count sample_domain []) sample_identity []
              [dict_literal
                 (identity_entries sample_identity ++
                  [("station_name", PNone); ("station_id", PNone)])])
    as (ident & Hpath & Hshape & Hrows);
    [vm_compute; reflexivity|vm_compute; discriminate|].
  exists ident. split; [exact Hpath|]. split; [exact Hshape|].
  apply (Hrows first_station). vm_compute. reflexivity.
Defined.

(* ================================================================= *)
(** ** One station, all stations, the document *)

(** What one turn of [for station in stations] does when it returns. *)
Lemma station_body_ok (per_candidate : bool) (id : identity)
    (st st' : locals) (station : pyobj) :
  station_body per_candidate id st station = Ok st' ->
  exists item r new,
    station_item id station = Ok item
    /\ rows_aggregates st' = rows_aggregates st ++ [r]
    /\ (forall k, In k (column_names r)
                  <-> In k (column_names item)
                      \/ is_party_column (selections_of station) k)
    /\ rows_per_candidate st' = rows_per_candidate st ++ new
    /\ map party_columns new
       = (if per_candidate
          then parties_in_scope (selections_of station) (scope_of st)
          else [])
    /\ map candidate_columns new
       = (if per_candidate
          then map candidate_of (candidate_selections (selections_of station))
          else [])
    /\ scope_of st' = last_party (selections_of station) (scope_of st).
Proof.
  unfold station_body. intros H.
  unbind H as item Eitem.
  unbind H as results Eresults.
  unbind H as selections Eiter.
  unbind H as st1 Hloop.
  inversion H; subst; clear H.
  assert (S : selections_of station = selections).
  { unfold selections_of. now rewrite Eresults, Eiter. }
  apply selection_loop_ok in Hloop
    as (Hagg & Hscope & Hcols & new & Hnew & Hparties & Hcands).
  exists item, (row_aggregate st1), new. rewrite S.
  simpl in *. unfold scope_of in *. simpl in *.
  repeat split; try assumption; try congruence.
  - apply Hcols.
  - apply Hcols.
Qed.

Lemma io_bind_ok {A B} (c : io A) (k : A -> io B) (out : list string)
    (b : B) :
  io_bind c k = (out, Ok b) ->
  exists out1 a out2,
    c = (out1, Ok a) /\ k a = (out2, Ok b) /\ out = out1 ++ out2.
Proof.
  unfold io_bind. destruct c as [out1 [a|e]]; [|discriminate].
  destruct (k a) as [out2 r] eqn:K. intros H. inversion H; subst.
  exists out1, a, out2. auto.
Qed.

Lemma station_step_ok (per_candidate : bool) (id : identity)
    (st st' : locals) (station : pyobj) (out : list string) :
  station_step per_candidate id st station = (out, Ok st') ->
  station_body per_candidate id st station = Ok st'.
Proof.
  unfold station_step. intros H.
  apply io_bind_ok in H as (out1 & u & out2 & _ & H & _).
  unfold lift in H. congruence.
Qed.

(** What the whole loop [for station in stations] does when it
    returns. *)
Lemma stations_loop_ok (per_candidate : bool) (id : identity)
    (stations : list pyobj) (st st' : locals) (out : list string) :
  io_for_loop (station_step per_candidate id) st stations = (out, Ok st') ->
  exists new,
    rows_per_candidate st' = rows_per_candidate st ++ new
    /\ map party_columns new
       = (if per_candidate
          then parties_in_scope (flat_map selections_of stations)
                 (scope_of st)
          else [])
    /\ map candidate_columns new
       = (if per_candidate
          then map candidate_of
                 (candidate_selections (flat_map selections_of stations))
          else [])
    /\ scope_of st' = last_party (flat_map selections_of stations)
                        (scope_of st).
Proof.
  revert st out. induction stations as [|station stations IH];
    intros st out H.
  - simpl in H. inversion H; subst; clear H.
    exists []. rewrite app_nil_r. now destruct per_candidate.
  - simpl in H.
    apply io_bind_ok in H as (out1 & st1 & out2 & Hstep & H & _).
    apply station_step_ok, station_body_ok in Hstep
      as (item & r & new1 & _ & _ & _ & Hnew1 & Hp1 & Hc1 & Hs1).
    apply IH in H as (new2 & Hnew2 & Hp2 & Hc2 & Hs2).
    exists (new1 ++ new2). simpl.
    rewrite parties_in_scope_app, candidate_selections_app, last_party_app.
    rewrite !map_app, Hp1, Hp2, Hc1, Hc2, Hs2, Hs1, Hnew2, Hnew1, app_assoc.
    destruct per_candidate; auto.
Qed.

(** What [parse_election_data] does when it returns its 4-tuple. *)
Lemma parse_election_data_ok (data : pyobj) (per_candidate : bool)
    (out : list string) (aggregates candidates : list row)
    (contest authority : pyobj) :
  parse_election_data data per_candidate
  = (out, Ok (ReturnedTuple aggregates candidates contest authority)) ->
  exists id stations rows,
    election_header data = Ok (id, stations, rows)
    /\ map party_columns candidates
       = (if per_candidate
          then parties_in_scope (flat_map selections_of stations) (None, None)
          else [])
    /\ map candidate_columns candidates
       = (if per_candidate
          then map candidate_of
                 (candidate_selections (flat_map selections_of stations))
          else []).
Proof.
  unfold parse_election_data. intros H.
  apply io_bind_ok in H as (out1 & null & out2 & Hnull & H & _).
  destruct null; [discriminate|].
  apply io_bind_ok in H as (out3 & hdr & out4 & Hhdr & H & _).
  destruct hdr as [[id stations] rows].
  apply io_bind_ok in H as (out5 & st & out6 & Hloop & H & _).
  inversion H; subst; clear H.
  apply stations_loop_ok in Hloop as (new & Hnew & Hp & Hc & _).
  simpl in Hnew. subst new.
  exists id, stations, rows. unfold lift in Hhdr.
  repeat split; [congruence|exact Hp|exact Hc].
Qed.

(* ================================================================= *)
(** ** Per-candidate rows *)

(** When the selection loop returns with per-candidate emission on,
    every selection without a party identifier named a candidate and
    carried votes. *)
Lemma selection_loop_breakdown (item : row) (selections : list pyobj)
    (st st' : locals) :
  for_loop (selection_body true item) st selections = Ok st' ->
  forall r, In r (candidate_selections selections) ->
            is_candidate_breakdown r.
Proof.
  revert st. induction selections as [|r0 selections IH]; intros st H r Hin.
  - contradiction.
  - simpl in H. unbind H as st1 Hstep.
    unfold candidate_selections in Hin. simpl in Hin.
    destruct (is_party_selection r0) eqn:P; simpl in Hin.
    + eapply IH; eauto.
    + destruct Hin as [<-|Hin]; [|eapply IH; eauto].
      split; [assumption|].
      unfold selection_body, is_party_selection in *.
      unbind Hstep as ks Eks. rewrite Eks in P. rewrite P in Hstep.
      unbind Hstep as row0 Erow0.
      unbind Hstep as pname Epname.
      unbind Hstep as pid Epid.
      unbind Hstep as candidate_id Ecand.
      unbind Hstep as valid_votes Evotes.
      exists candidate_id, valid_votes. unfold candidate_of.
      now rewrite Ecand, Evotes.
Qed.

Lemma candidate_selections_none (selections : list pyobj) :
  (forall r, In r selections -> is_party_selection r = true) ->
  candidate_selections selections = [].
Proof.
  unfold candidate_selections.
  induction selections as [|r0 l IH]; intros Hall; [reflexivity|].
  simpl. rewrite (Hall r0 (or_introl eq_refl)). simpl.
  apply IH. intros r1 Hr1. apply Hall. now right.
Qed.

(** C4: the per-candidate rows that a station adds correspond, one to
    one and in order, to the station's selections without a party
    identifier, each of which names a candidate and carries votes; when
    per-candidate emission is off, or when all selections of the station
    are party-level totals, the station adds no per-candidate row. *)
Theorem per_candidate_rows_only_for_breakdown
    (per_candidate : bool) (id : identity) (st st' : locals)
    (station : pyobj) :
  station_body per_candidate id st station = Ok st' ->
  exists new,
    rows_per_candidate st' = rows_per_candidate st ++ new
    /\ map candidate_columns new
       = (if per_candidate
          then map candidate_of (candidate_selections (selections_of station))
          else [])
    /\ (per_candidate = true ->
        forall r, In r (candidate_selections (selections_of station)) ->
                  is_candidate_breakdown r)
    /\ ((forall r, In r (selections_of station) ->
                   is_party_selection r = true) ->
        new = []).
Proof.
  intros H.
  destruct (station_body_ok _ _ _ _ _ H)
    as (item & r & new & Hitem & _ & _ & Hnew & _ & Hc & _).
  exists new. split; [exact Hnew|]. split; [exact Hc|]. split.
  - intros ->. unfold station_body in H.
    unbind H as item' Eitem. unbind H as results Eresults.
    unbind H as selections Eiter. unbind H as st1 Hloop.
    replace (selections_of station) with selections
      by (unfold selections_of; now rewrite Eresults, Eiter).
    eapply selection_loop_breakdown; eauto.
  - intros Hall.
    rewrite (candidate_selections_none _ Hall) in Hc. destruct per_candidate; simpl in Hc;
      now destruct new.
Qed.

Lemma per_candidate_rows_only_for_breakdown_witness :
  (exists new,
     rows_per_candidate after_first_station = [] ++ new
     /\ map candidate_columns new
        = [ (Some (PStr "1"), Some (PStr "30"));
            (Some (PStr "2"), Some (PStr "20"));
            (Some (PStr "1"), Some (PStr "48")) ])
  /\ rows_per_candidate after_totals_only_station = [].
Proof.
  split.
  - destruct (per_candidate_rows_only_for_breakdown true sample_identity
                initial_locals after_first_station first_station)
      as (new & Hnew & Hc & _);
      [vm_compute; reflexivity|].
    exists new. split; [exact Hnew|exact Hc].
  - destruct (per_candidate_rows_only_for_breakdown true sample_identity
                initial_locals after_totals_only_station totals_only_station)
      as (new & Hnew & _ & _ & Hnone);
      [vm_compute; reflexivity|].
    rewrite Hnew, Hnone; [reflexivity|].
    intros r Hin. vm_compute in Hin.
    destruct Hin as [<-|[<-|[]]]; reflexivity.
Defined.

(* ================================================================= *)
(** ** The party of a per-candidate row *)

Lemma dict_comprehension_ok (item : row) (ks : list string) (acc : row) :
  (forall k, In k ks -> In (KStr k) (column_names item)) ->
  exists r, dict_comprehension ks item acc = Ok r.
Proof.
  revert acc. induction ks as [|k ks IH]; intros acc H; simpl; [eauto|].
  unfold getitem.
  destruct (row_lookup (KStr k) item) as [v|] eqn:L.
  - simpl. apply IH. intros k' Hk'. apply H. now right.
  - exfalso. assert (In (KStr k) (column_names item)) as Hin
      by (apply H; now left).
    apply row_lookup_in in Hin. contradiction.
Qed.

Lemma station_item_keeps (id : identity) (station : pyobj) (item : row) :
  station_item id station = Ok item ->
  exists r, dict_comprehension keep item [] = Ok r.
Proof.
  intros H. apply dict_comprehension_ok. intros k Hk.
  apply (station_item_columns _ _ _ H). left.
  apply in_map.
  unfold keep in Hk. unfold fixed_columns. simpl in *.
  intuition auto.
Qed.

(** C10: the [party_name] and [party_id] of the per-candidate rows of a
    document are, row by row, the values that the locals [party_name]
    and [party_id] hold when the row is built: those bound by the most
    recent selection with a party identifier before it in the sequence
    of all selections of all stations of the document, never values of
    the candidate item itself.  The bindings are carried from one station
    to the next and change only at party-level selections.  While they
    are unbound, building a per-candidate row raises
    [UnboundLocalError]. *)
Theorem candidate_rows_carry_party_in_scope :
  (forall data out aggregates candidates contest authority,
     parse_election_data data true
     = (out, Ok (ReturnedTuple aggregates candidates contest authority)) ->
     exists id stations rows,
       election_header data = Ok (id, stations, rows)
       /\ map party_columns candidates
          = parties_in_scope (flat_map selections_of stations) (None, None))
  /\ (forall per_candidate id st st' station,
        station_body per_candidate id st station = Ok st' ->
        scope_of st' = last_party (selections_of station) (scope_of st))
  /\ (forall id station item st result,
        station_item id station = Ok item ->
        isinstance_dict result = true ->
        is_party_selection result = false ->
        party_name st = None ->
        selection_body true item st result
        = Raise (UnboundLocalError "party_name")).
Proof.
  split; [|split].
  - intros data out aggregates candidates contest authority H.
    apply parse_election_data_ok in H
      as (id & stations & rows & Hhdr & Hp & _).
    exists id, stations, rows. auto.
  - intros per_candidate id st st' station H.
    apply station_body_ok in H
      as (item & r & new & _ & _ & _ & _ & _ & _ & Hs).
    exact Hs.
  - intros id station item st result Hitem Hdict Hparty Hname.
    destruct result as [| | | |d]; try discriminate.
    unfold selection_body, is_party_selection in *. simpl keys in *.
    cbn [bind]. rewrite Hparty.
    destruct (station_item_keeps _ _ _ Hitem) as [row0 ->].
    cbn [bind]. rewrite Hname. reflexivity.
Qed.

Lemma candidate_rows_carry_party_in_scope_witness :
  map party_columns two_station_candidates
  = [ (Some (PStr "PartyA"), Some (PStr "1"));
      (Some (PStr "PartyA"), Some (PStr "1"));
      (Some (PStr "PartyB"), Some (PStr "2"));
      (Some (PStr "PartyB"), Some (PStr "2")) ]
  /\ selection_body true first_station_item initial_locals
       (candidate_selection "7" "5")
     = Raise (UnboundLocalError "party_name").
Proof.
  destruct candidate_rows_carry_party_in_scope as (Hrows & _ & Hunbound).
  split.
  - destruct (Hrows two_station_count [] two_station_aggregates
                two_station_candidates PNone (PStr "Testdorp"))
      as (id & stations & rows & Hhdr & Hp);
      [vm_compute; reflexivity|].
    rewrite Hp. vm_compute in Hhdr.
    inversion Hhdr; subst. reflexivity.
  - apply (Hunbound sample_identity first_station).
    + vm_compute. reflexivity.
    + reflexivity.
    + reflexivity.
    + reflexivity.
Defined.

(* ================================================================= *)
(** ** Reason columns *)

Lemma reason_column_not_fixed (code : string) :
  ~ In (reason_column "rejected_" code) (map KStr fixed_columns)
  /\ ~ In (reason_column "uncounted_" code) (map KStr fixed_columns).
Proof.
  unfold reason_column, fixed_columns. simpl.
  split; intros H; repeat (destruct H as [H|H]; [discriminate|]);
    exact H.
Qed.

Lemma reason_columns_disjoint (code : string) (codes : list string) :
  ~ In (reason_column "rejected_" code)
      (map (reason_column "uncounted_") codes)
  /\ ~ In (reason_column "uncounted_" code)
         (map (reason_column "rejected_") codes).
Proof.
  split; rewrite in_map_iff; intros (c & Hc & _); discriminate.
Qed.

(** The reason columns of the record of a station, before any party
    column is added, are exactly the prefixed lowercased reason codes. *)
Lemma station_item_reason_columns (id : identity) (station : pyobj)
    (item : row) (code : string) :
  station_item id station = Ok item ->
  (In code (recovered_codes "rejected_" item)
   <-> In code (reason_codes "RejectedVotes" station))
  /\ (In code (recovered_codes "uncounted_" item)
      <-> In code (reason_codes "UncountedVotes" station)).
Proof.
  intros H. pose proof (station_item_columns _ _ _ H) as C.
  rewrite !recovered_codes_in, !C, !reason_column_in_map.
  destruct (reason_column_not_fixed code) as [F1 F2].
  destruct (reason_columns_disjoint code
              (reason_codes "UncountedVotes" station)) as [D1 _].
  destruct (reason_columns_disjoint code
              (reason_codes "RejectedVotes" station)) as [_ D2].
  tauto.
Qed.

(** C9 (as amended): on the aggregate row of every station that is
    processed, stripping [rejected_] (or [uncounted_]) from the column
    names recovers exactly the lowercased reason codes of the station's
    rejected-vote (or uncounted-vote) breakdown, together with the rest
    of any party column whose party name itself starts with that prefix;
    on the station's record before the party columns are added, exactly
    the lowercased reason codes. *)
Theorem reason_columns_round_trip
    (per_candidate : bool) (id : identity) (st st' : locals)
    (station : pyobj) :
  station_body per_candidate id st station = Ok st' ->
  exists item r,
    station_item id station = Ok item
    /\ rows_aggregates st' = rows_aggregates st ++ [r]
    /\ forall code,
         (In code (recovered_codes "rejected_" item)
          <-> In code (reason_codes "RejectedVotes" station))
         /\ (In code (recovered_codes "uncounted_" item)
             <-> In code (reason_codes "UncountedVotes" station))
         /\ (In code (recovered_codes "rejected_" r)
             <-> In code (reason_codes "RejectedVotes" station)
                 \/ is_party_column (selections_of station)
                      (reason_column "rejected_" code))
         /\ (In code (recovered_codes "uncounted_" r)
             <-> In code (reason_codes "UncountedVotes" station)
                 \/ is_party_column (selections_of station)
                      (reason_column "uncounted_" code)).
Proof.
  intros H.
  destruct (station_body_ok _ _ _ _ _ H)
    as (item & r & new & Hitem & Hagg & Hcols & _).
  exists item, r. split; [exact Hitem|]. split; [exact Hagg|].
  intros code.
  destruct (station_item_reason_columns _ _ _ code Hitem) as [R U].
  split; [exact R|]. split; [exact U|].
  rewrite (recovered_codes_in "rejected_" code r),
          (recovered_codes_in "uncounted_" code r), !Hcols.
  rewrite <- !recovered_codes_in, R, U. tauto.
Qed.

Lemma reason_columns_round_trip_witness :
  exists r,
    rows_aggregates after_first_station = [r]
    /\ In "ongeldig" (recovered_codes "rejected_" r)
    /\ In "blanco" (recovered_codes "rejected_" r).
Proof.
  destruct (reason_columns_round_trip true sample_identity initial_locals
              after_first_station first_station)
    as (item & r & Hitem & Hagg & Hcodes);
    [vm_compute; reflexivity|].
  exists r. split; [exact Hagg|].
  split.
  - destruct (Hcodes "ongeldig") as (_ & _ & [_ Hback] & _).
    apply Hback. left. vm_compute. auto.
  - destruct (Hcodes "blanco") as (_ & _ & [_ Hback] & _).
    apply Hback. left. vm_compute. auto.
Defined.

(** C9 (as stated) fails when a party is registered under a name that
    starts with [rejected_]: the aggregate row has a [rejected_*] column
    that is not a reason code of the station. *)
Lemma party_named_like_reason_column :
  reason_codes "RejectedVotes" colliding_station = ["ongeldig"; "blanco"]
  /\ exists r contest authority,
       parse_election_data
         (sample_count sample_domain
            [("ReportingUnitVotes", colliding_station)])
         false
       = ([], Ok (ReturnedTuple [r] [] contest authority))
       /\ row_lookup (KStr "rejected_stemmen") r = Some (PInt 50)
       /\ recovered_codes "rejected_" r = ["ongeldig"; "blanco"; "stemmen"]
       /\ ~ (forall code,
               In code (recovered_codes "rejected_" r)
               <-> In code (reason_codes "RejectedVotes" colliding_station)).
Proof.
  split; [reflexivity|].
  do 3 eexists. split; [reflexivity|].
  split; [reflexivity|]. split; [reflexivity|].
  intros H. specialize (H "stemmen"). vm_compute in H.
  destruct H as [H _].
  destruct (H (or_intror (or_intror (or_introl eq_refl)))) as [E|[E|[]]];
    discriminate.
Qed.

(** A document whose first selection is a per-candidate item: no party
    has been bound yet. *)
Example candidate_before_any_party :
  parse_election_data
    (sample_count sample_domain
       [("ReportingUnitVotes", PList [carried_over_station])])
    true
  = ([], Raise (UnboundLocalError "party_name")).
Proof. reflexivity. Qed.

(* ================================================================= *)
(** ** More on the station-name decomposer *)

Lemma lstrip_suffix (s : string) :
  exists a, s = (a ++ lstrip s)%string.
Proof.
  induction s as [|c s [a IH]]; simpl.
  - now exists "".
  - destruct (is_space c).
    + exists (String c a). simpl. now rewrite <- IH.
    + now exists "".
Qed.

Lemma rstrip_prefix (s : string) :
  exists b, s = (rstrip s ++ b)%string.
Proof.
  induction s as [|c s [b IH]]; simpl.
  - now exists "".
  - destruct (rstrip s) as [|c' r] eqn:R.
    + destruct (is_space c).
      * exists (String c s). reflexivity.
      * exists b. simpl in *. now f_equal.
    + exists b. simpl in *. now f_equal.
Qed.

(** The stripped text is a part of the text. *)
Lemma strip_substring (s : string) :
  exists a b, s = (a ++ strip s ++ b)%string.
Proof.
  unfold strip. destruct (lstrip_suffix s) as [a Ha].
  destruct (rstrip_prefix (lstrip s)) as [b Hb].
  exists a, b. now rewrite <- Hb.
Qed.

Lemma lstrip_starts_clean (s : string) : starts_clean (lstrip s).
Proof.
  induction s as [|c s IH]; simpl; [exact I|].
  destruct (is_space c) eqn:E; [exact IH|exact E].
Qed.

Lemma lstrip_clean (s : string) : starts_clean s -> lstrip s = s.
Proof. destruct s as [|c s]; simpl; [auto|]. now intros ->. Qed.

Lemma rstrip_starts_clean (s : string) :
  starts_clean s -> starts_clean (rstrip s).
Proof.
  destruct s as [|c s]; simpl; [auto|]. intros H.
  destruct (rstrip s); [rewrite H|]; exact H.
Qed.

Lemma rstrip_idempotent (s : string) : rstrip (rstrip s) = rstrip s.
Proof.
  induction s as [|c s IH]; simpl; [reflexivity|].
  destruct (rstrip s) as [|c' r] eqn:R.
  - destruct (is_space c) eqn:E; simpl; [reflexivity|now rewrite E].
  - simpl in IH. simpl. now rewrite IH.
Qed.

Lemma strip_idempotent (s : string) : strip (strip s) = strip s.
Proof.
  unfold strip.
  rewrite (lstrip_clean (rstrip (lstrip s)))
    by apply rstrip_starts_clean, lstrip_starts_clean.
  apply rstrip_idempotent.
Qed.

(** A text that contains a text in which the pattern occurs. *)
Lemma pattern_matches_inside (a t b : string) :
  pattern_matches t -> pattern_matches (a ++ t ++ b).
Proof.
  intros (name & code & before & after & -> & Hn & Hc).
  exists name, code, (a ++ before)%string, (after ++ b)%string.
  repeat split; try assumption.
  now rewrite !append_assoc.
Qed.

Lemma extract_postcode_unmatched (s : string) :
  ~ pattern_matches s ->
  extract_postcode (PStr s) = Ok (PStr (strip s), PNone).
Proof.
  intros H. unfold extract_postcode.
  change (re_findall (PStr s))
    with (Ok (findall_from (S (String.length s)) s)).
  destruct (findall_from (S (String.length s)) s) as [|m more] eqn:F;
    [reflexivity|].
  exfalso. apply H, findall_nonempty_iff. congruence.
Qed.

(** The first group of a match is as short as it can be: the pattern
    does not occur inside it. *)
Lemma match_at_name_minimal (s name code rest : string) :
  match_at s = Some (name, code, rest) -> ~ pattern_matches name.
Proof.
  unfold match_at. intros H.
  apply lazy_group_sound in H as (g1 & s1 & -> & Hg1 & H & Hmin).
  destruct (match_literal postcode_token s1) as [s2|] eqn:L; [|discriminate].
  apply lazy_group_sound in H as (g2 & s3 & -> & Hg2 & H & _).
  destruct (match_literal ")" s3) as [r|] eqn:L3; [|discriminate].
  inversion H; subst; clear H.
  intros (n & c & before & after & E & Hn & Hc).
  specialize (Hmin (before ++ n)%string "("%char
                ("postcode: " ++ c ++ ")" ++ after)%string).
  assert (Hsplit : name = ((before ++ n)
                         ++ String "(" ("postcode: " ++ c ++ ")" ++ after))%string).
  { rewrite E. unfold postcode_token. now rewrite !append_assoc. }
  specialize (Hmin Hsplit). cbv beta in Hmin.
  assert (Harg : (String "(" ("postcode: " ++ c ++ ")" ++ after) ++ s1)%string
                 = (postcode_token ++ c ++ ")" ++ after ++ s1)%string).
  { unfold postcode_token. simpl. now rewrite !append_assoc. }
  rewrite Harg, match_literal_complete in Hmin.
  destruct (code_group_complete ("" ++ (before ++ n))%string c
              (after ++ s1)%string Hc) as [r' Hr'].
  assert (Some r' = None) as Habs by (rewrite <- Hr'; exact Hmin).
  discriminate Habs.
Qed.

Lemma findall_from_name_minimal (fuel : nat) (s name code : string)
    (more : list (string * string)) :
  findall_from fuel s = (name, code) :: more -> ~ pattern_matches name.
Proof.
  revert s. induction fuel as [|fuel IH]; intros s H; simpl in H.
  - discriminate.
  - destruct (match_at s) as [[[n c] rest]|] eqn:M.
    + inversion H; subst. eapply match_at_name_minimal; eauto.
    + destruct s as [|a s]; [discriminate|]. eapply IH; eauto.
Qed.

(** X1: decomposing is idempotent on the name.  Whatever text label is
    decomposed, decomposing the returned name again returns that name
    unchanged and no postcode. *)
Theorem extract_postcode_idempotent (s name : string) (postcode : pyobj) :
  extract_postcode (PStr s) = Ok (PStr name, postcode) ->
  extract_postcode (PStr name) = Ok (PStr name, PNone).
Proof.
  intros H.
  assert (exists t, name = strip t /\ ~ pattern_matches t) as (t & -> & Ht).
  { unfold extract_postcode in H.
    change (re_findall (PStr s))
      with (Ok (findall_from (S (String.length s)) s)) in H.
    destruct (findall_from (S (String.length s)) s) as [|[n c] more] eqn:F;
      simpl in H; inversion H; subst.
    - exists s. split; [reflexivity|].
      intros M. apply findall_nonempty_iff in M. congruence.
    - exists n. split; [reflexivity|].
      eapply findall_from_name_minimal; eauto. }
  rewrite extract_postcode_unmatched.
  - now rewrite strip_idempotent.
  - intros M. apply Ht.
    destruct (strip_substring t) as (a & b & E). rewrite E.
    now apply pattern_matches_inside.
Qed.

Lemma extract_postcode_idempotent_witness :
  extract_postcode (PStr "Stembureau 1") = Ok (PStr "Stembureau 1", PNone).
Proof.
  apply (extract_postcode_idempotent
           " Stembureau 1 (postcode: 1234AB)" "Stembureau 1" (PStr "1234AB")).
  reflexivity.
Defined.

(* ================================================================= *)
(** ** More on rows and loops *)

Lemma for_loop_app {S X} (body : S -> X -> res S) (st : S) (a b : list X) :
  for_loop body st (a ++ b)
  = (st1 <- for_loop body st a ;; for_loop body st1 b).
Proof.
  revert st. induction a as [|x a IH]; intros st; simpl; [reflexivity|].
  destruct (body st x); simpl; [apply IH|reflexivity].
Qed.

Lemma column_names_setitem_app (k : key) (v : pyobj) (d : row) :
  exists more,
    column_names (setitem k v d) = column_names d ++ more
    /\ forall k', In k' more -> k' = k.
Proof.
  unfold column_names. induction d as [|[k0 v0] d (more & IH & Hm)]; simpl.
  - exists [k]. split; [reflexivity|]. intros k' [<-|[]]. reflexivity.
  - destruct (key_eqb k k0); simpl.
    + exists []. rewrite app_nil_r. split; [reflexivity|]. intros k' [].
    + exists more. rewrite IH. auto.
Qed.

Lemma row_lookup_setitem (k k' : key) (v : pyobj) (d : row) :
  row_lookup k (setitem k' v d)
  = if key_eqb k k' then Some v else row_lookup k d.
Proof.
  destruct (key_eqb k k') eqn:E.
  - apply key_eqb_eq in E. subst. apply row_lookup_setitem_same.
  - now apply row_lookup_setitem_other.
Qed.

(** What one turn of [for result in results] does to the aggregate
    row. *)
Lemma selection_body_row (per_candidate : bool) (item : row)
    (st st' : locals) (result : pyobj) :
  selection_body per_candidate item st result = Ok st' ->
  (is_party_selection result = true
   /\ exists column votes,
        party_column result = Some column
        /\ party_votes result = Ok votes
        /\ row_aggregate st'
           = setitem column (PInt votes) (row_aggregate st))
  \/ (is_party_selection result = false
      /\ row_aggregate st' = row_aggregate st).
Proof.
  unfold selection_body, is_party_selection. intros H.
  unbind H as ks Eks. rewrite Eks.
  destruct (existsb (String.eqb "AffiliationIdentifier") ks).
  - left. split; [reflexivity|].
    unbind H as registered Ereg.
    unbind H as ident Eident.
    unbind H as null Enull.
    unbind H as valid_votes Evalid.
    unbind H as votes Evotes.
    unbind H as column Ecolumn.
    inversion H; subst; clear H.
    exists column, votes. repeat split.
    + unfold party_column, party_binding.
      rewrite Ereg, Eident, Enull. simpl. now rewrite Ecolumn.
    + unfold party_votes. now rewrite Evalid.
  - right. split; [reflexivity|].
    destruct per_candidate.
    + unbind H as row0 Erow0.
      unbind H as pname Epname.
      unbind H as pid Epid.
      unbind H as candidate_id Ecand.
      unbind H as valid_votes Evotes.
      now inversion H.
    + now inversion H.
Qed.

(** The aggregate row after the selection loop: columns are only
    added, at the end, and only for party-level selections; the other
    columns keep their values. *)
Lemma selection_loop_row (per_candidate : bool) (item : row)
    (selections : list pyobj) (st st' : locals) :
  for_loop (selection_body per_candidate item) st selections = Ok st' ->
  (exists more,
     column_names (row_aggregate st')
     = column_names (row_aggregate st) ++ more
     /\ forall k, In k more -> is_party_column selections k)
  /\ (forall k, ~ is_party_column selections k ->
                row_lookup k (row_aggregate st')
                = row_lookup k (row_aggregate st)).
Proof.
  revert st. induction selections as [|r selections IH]; intros st H.
  - simpl in H. inversion H; subst. split.
    + exists []. rewrite app_nil_r. split; [reflexivity|]. intros k [].
    + reflexivity.
  - simpl in H. unbind H as st1 Hstep.
    apply IH in H as ((more & Hcols & Hmore) & Hvals).
    assert (Hsub : forall k, is_party_column selections k ->
                             is_party_column (r :: selections) k).
    { intros k (r1 & Hin & Hp & Hc). exists r1. simpl. auto. }
    apply selection_body_row in Hstep
      as [(Hp & column & votes & Hcol & _ & Hrow)|(Hp & Hrow)].
    + assert (Hr : is_party_column (r :: selections) column).
      { exists r. simpl. auto. }
      rewrite Hrow in Hcols, Hvals. split.
      * destruct (column_names_setitem_app column (PInt votes)
                    (row_aggregate st)) as (more0 & E0 & Hm0).
        exists (more0 ++ more). rewrite Hcols, E0, app_assoc.
        split; [reflexivity|].
        intros k Hk. apply in_app_or in Hk as [Hk|Hk].
        -- apply Hm0 in Hk. now subst.
        -- auto.
      * intros k Hk. rewrite Hvals by (intros Hk'; apply Hk; auto).
        apply row_lookup_setitem_other.
        destruct (key_eqb k column) eqn:E; [|reflexivity].
        apply key_eqb_eq in E. subst. contradiction.
    + rewrite Hrow in Hcols, Hvals. split.
      * exists more. split; [exact Hcols|auto].
      * intros k Hk. apply Hvals. intros Hk'. apply Hk; auto.
Qed.

(** The value of a party column is the one of the last selection that
    sets it: a later selection of the same column replaces the
    earlier value. *)
Lemma selection_loop_last (per_candidate : bool) (item : row)
    (post : list pyobj) (st st' : locals) (k : key) :
  for_loop (selection_body per_candidate item) st post = Ok st' ->
  ~ is_party_column post k ->
  row_lookup k (row_aggregate st') = row_lookup k (row_aggregate st).
Proof.
  intros H Hk. now apply (selection_loop_row _ _ _ _ _ H).
Qed.

(* ================================================================= *)
(** ** The record of a station, column by column *)

Lemma reason_loop_appends (prefix : string) (reasons : list pyobj)
    (item item' : row) :
  for_loop (reason_body prefix) item reasons = Ok item' ->
  exists more, column_names item' = column_names item ++ more.
Proof.
  revert item. induction reasons as [|reason reasons IH]; intros item H.
  - simpl in H. inversion H; subst. exists []. now rewrite app_nil_r.
  - simpl in H. unbind H as item1 Hstep.
    apply reason_body_ok in Hstep as (code & value & _ & ->).
    destruct (IH _ H) as (more & ->).
    destruct (column_names_setitem_app (reason_column prefix code) value item)
      as (more0 & -> & _).
    exists (more0 ++ more). now rewrite app_assoc.
Qed.

(** X2: the record built for a station starts with the twelve fixed
    columns in their fixed order; it holds the identity fields of the
    header, the station's [@Id], the name and postcode that
    [extract_postcode] returns for the station's text, and [Cast] and
    [TotalCounted] as the document has them. *)
Theorem station_record_contents (id : identity) (station : pyobj)
    (item : row) :
  station_item id station = Ok item ->
  exists station_id label station_name postcode cast total_counted more,
    path station ["ReportingUnitIdentifier"; "@Id"] = Ok station_id
    /\ path station ["ReportingUnitIdentifier"; "#text"] = Ok (PStr label)
    /\ extract_postcode (PStr label) = Ok (station_name, postcode)
    /\ subscript station "Cast" = Ok cast
    /\ subscript station "TotalCounted" = Ok total_counted
    /\ column_names item = map KStr fixed_columns ++ more
    /\ (forall k v, In (k, v) (identity_entries id) ->
                    row_lookup (KStr k) item = Some v)
    /\ row_lookup (KStr "station_id") item = Some station_id
    /\ row_lookup (KStr "station_name") item = Some station_name
    /\ row_lookup (KStr "postcode") item = Some postcode
    /\ row_lookup (KStr "cast") item = Some cast
    /\ row_lookup (KStr "total_counted") item = Some total_counted.
Proof.
  intros H.
  destruct (station_item_needs_id_and_name _ _ _ H)
    as (sid & label & Hsid & Hlabel).
  unfold station_item in H. rewrite Hsid, Hlabel in H.
  cbn [try_except bind] in H.
  unbind H as decomposed Epost. destruct decomposed as [name' postcode].
  unbind H as cast Ecast.
  unbind H as total_counted Etotal.
  unbind H as rejected_votes Erejected.
  unbind H as rejected Eiter.
  unbind H as item1 Hloop1.
  unbind H as has_uncounted Ehas.
  set (item0 := setitem (KStr "total_counted") total_counted
                  (setitem (KStr "cast") cast
                     (setitem (KStr "postcode") postcode
                        (setitem (KStr "station_name") name'
                           (setitem (KStr "station_id") sid
                              (dict_literal (identity_entries id))))))) in *.
  assert (K : (forall k,
                 (forall code,
                    key_eqb k (reason_column "rejected_" code) = false) ->
                 (forall code,
                    key_eqb k (reason_column "uncounted_" code) = false) ->
                 row_lookup k item = row_lookup k item0)
              /\ exists more, column_names item = column_names item0 ++ more).
  { destruct has_uncounted.
    - unbind H as uncounted_votes Euncounted.
      unbind H as uncounted Eiter2.
      split.
      + intros k R U. rewrite (reason_loop_keeps _ _ _ _ _ U H).
        apply (reason_loop_keeps _ _ _ _ _ R Hloop1).
      + destruct (reason_loop_appends _ _ _ _ Hloop1) as (m1 & E1).
        destruct (reason_loop_appends _ _ _ _ H) as (m2 & E2).
        exists (m1 ++ m2). now rewrite E2, E1, app_assoc.
    - inversion H; subst. split.
      + intros k R U. apply (reason_loop_keeps _ _ _ _ _ R Hloop1).
      + apply (reason_loop_appends _ _ _ _ Hloop1). }
  destruct K as [K (more & Hmore)].
  exists sid, label, name', postcode, cast, total_counted, more.
  repeat split; try assumption.
  - intros k v Hin. unfold identity_entries in Hin. simpl in Hin.
    repeat (destruct Hin as [Hin|Hin];
            [inversion Hin; subst; rewrite K by reflexivity; reflexivity|]).
    contradiction.
  - rewrite K by reflexivity. reflexivity.
  - rewrite K by reflexivity. reflexivity.
  - rewrite K by reflexivity. reflexivity.
  - rewrite K by reflexivity. reflexivity.
  - rewrite K by reflexivity. reflexivity.
Qed.

Lemma station_record_contents_witness :
  column_names first_station_item
  = map KStr fixed_columns
    ++ [KStr "rejected_ongeldig"; KStr "rejected_blanco"]
  /\ row_lookup (KStr "postcode") first_station_item = Some (PStr "1234AB").
Proof.
  destruct (station_record_contents sample_identity first_station
              first_station_item)
    as (sid & label & nm & pc & cast & total & more
        & Hsid & Hlabel & Hpost & _ & _ & Hcols & _ & _ & _ & Hpc & _);
    [vm_compute; reflexivity|].
  split; [reflexivity|].
  rewrite Hpc. vm_compute in Hlabel. inversion Hlabel; subst.
  vm_compute in Hpost. inversion Hpost; subst. reflexivity.
Defined.

(* ================================================================= *)
(** ** Aggregate rows *)

Lemma station_body_unfold (per_candidate : bool) (id : identity)
    (st st' : locals) (station : pyobj) :
  station_body per_candidate id st station = Ok st' ->
  exists item st1,
    station_item id station = Ok item
    /\ for_loop (selection_body per_candidate item)
         {| rows_aggregates := rows_aggregates st;
            rows_per_candidate := rows_per_candidate st;
            row_aggregate := item;
            party_name := party_name st;
            party_id := party_id st |}
         (selections_of station) = Ok st1
    /\ rows_aggregates st' = rows_aggregates st ++ [row_aggregate st1]
    /\ rows_per_candidate st' = rows_per_candidate st1.
Proof.
  unfold station_body. intros H.
  unbind H as item Eitem.
  unbind H as results Eresults.
  unbind H as selections Eiter.
  unbind H as st1 Hloop.
  inversion H; subst; clear H.
  assert (S : selections_of station = selections).
  { unfold selections_of. now rewrite Eresults, Eiter. }
  exists item, st1. rewrite S. simpl.
  repeat split; try assumption.
  apply selection_loop_ok in Hloop as (Hagg & _). simpl in Hagg.
  now rewrite Hagg.
Qed.

Lemma station_body_row (per_candidate : bool) (id : identity)
    (st st' : locals) (station : pyobj) :
  station_body per_candidate id st station = Ok st' ->
  exists r,
    rows_aggregates st' = rows_aggregates st ++ [r]
    /\ aggregate_row_of id station r.
Proof.
  intros H.
  apply station_body_unfold in H as (item & st1 & Hitem & Hloop & Hagg & _).
  exists (row_aggregate st1). split; [exact Hagg|].
  apply selection_loop_row in Hloop as ((more & Hcols & Hmore) & Hvals).
  exists item, more. simpl in *. auto.
Qed.

(** X3: a party column of the aggregate row of a station holds the
    votes of the last selection of the station that sets this column,
    coerced to an integer: a later selection under the same party name
    replaces the earlier value, the values are not added. *)
Theorem party_total_is_last_selection
    (per_candidate : bool) (id : identity) (st st' : locals)
    (station : pyobj) (pre post : list pyobj) (result : pyobj) (k : key) :
  station_body per_candidate id st station = Ok st' ->
  selections_of station = pre ++ result :: post ->
  is_party_selection result = true ->
  party_column result = Some k ->
  ~ is_party_column post k ->
  exists r votes,
    rows_aggregates st' = rows_aggregates st ++ [r]
    /\ party_votes result = Ok votes
    /\ row_lookup k r = Some (PInt votes).
Proof.
  intros H Hsel Hparty Hcol Hpost.
  apply station_body_unfold in H as (item & st1 & Hitem & Hloop & Hagg & _).
  rewrite Hsel, for_loop_app in Hloop.
  unbind Hloop as sta Hpre. simpl in Hloop.
  unbind Hloop as stb Hstep.
  apply selection_body_row in Hstep
    as [(_ & column & votes & Hcol' & Hvotes & Hrow)|(Hp & _)];
    [|congruence].
  assert (column = k) as -> by congruence.
  exists (row_aggregate st1), votes.
  split; [exact Hagg|]. split; [exact Hvotes|].
  rewrite (selection_loop_last _ _ _ _ _ _ Hloop Hpost), Hrow.
  apply row_lookup_setitem_same.
Qed.

Lemma party_total_is_last_selection_witness :
  exists r,
    rows_aggregates after_repeated_party_station = [r]
    /\ row_lookup (KStr "PartyA") r = Some (PInt 7).
Proof.
  destruct (party_total_is_last_selection false sample_identity
              initial_locals after_repeated_party_station
              repeated_party_station
              [party_selection "1" "PartyA" "50";
               party_selection "2" "PartyB" "48"]
              [] (party_selection "1" "PartyA" "7") (KStr "PartyA"))
    as (r & votes & Hrows & Hvotes & Hlookup).
  - vm_compute. reflexivity.
  - reflexivity.
  - reflexivity.
  - reflexivity.
  - intros (r & [] & _).
  - exists r. split; [exact Hrows|].
    vm_compute in Hvotes. inversion Hvotes; subst. exact Hlookup.
Defined.

(* ================================================================= *)
(** ** Per-candidate rows, column by column *)

Lemma getitem_ok (d : row) (k : string) (v : pyobj) :
  getitem d k = Ok v -> row_lookup (KStr k) d = Some v.
Proof.
  unfold getitem. destruct (row_lookup (KStr k) d); intros H;
    [congruence|discriminate].
Qed.

Lemma dict_comprehension_keep (item row0 : row) :
  dict_comprehension keep item [] = Ok row0 ->
  column_names row0 = map KStr keep
  /\ forall k, In k keep ->
               row_lookup (KStr k) row0 = row_lookup (KStr k) item.
Proof.
  unfold keep. cbn [dict_comprehension]. intros H.
  unbind H as v1 E1. unbind H as v2 E2. unbind H as v3 E3.
  unbind H as v4 E4. unbind H as v5 E5. unbind H as v6 E6.
  unbind H as v7 E7. unbind H as v8 E8. unbind H as v9 E9.
  unbind H as v10 E10.
  inversion H; subst; clear H.
  apply getitem_ok in E1, E2, E3, E4, E5, E6, E7, E8, E9, E10.
  split; [reflexivity|].
  intros k Hk. simpl in Hk.
  repeat (destruct Hk as [<-|Hk]; [symmetry; assumption|]).
  contradiction.
Qed.

Lemma setitem_new (k : key) (v : pyobj) (d : row) :
  row_lookup k d = None ->
  column_names (setitem k v d) = column_names d ++ [k].
Proof.
  unfold column_names. induction d as [|[k0 v0] d IH]; simpl;
    [reflexivity|].
  destruct (key_eqb k k0); [discriminate|].
  intros H. simpl. now rewrite IH.
Qed.

Lemma selection_body_candidate_row (per_candidate : bool) (item : row)
    (st st' : locals) (result : pyobj) :
  selection_body per_candidate item st result = Ok st' ->
  rows_per_candidate st' = rows_per_candidate st
  \/ exists r,
       rows_per_candidate st' = rows_per_candidate st ++ [r]
       /\ candidate_row_from item r.
Proof.
  unfold selection_body. intros H.
  unbind H as ks Eks.
  destruct (existsb (String.eqb "AffiliationIdentifier") ks).
  - left.
    unbind H as registered Ereg. unbind H as ident Eident.
    unbind H as null Enull. unbind H as valid_votes Evalid.
    unbind H as votes Evotes. unbind H as column Ecolumn.
    now inversion H.
  - destruct per_candidate; [|left; now inversion H].
    right.
    unbind H as row0 Erow0.
    unbind H as pname Epname.
    unbind H as pid Epid.
    unbind H as candidate_id Ecand.
    unbind H as valid_votes Evotes.
    inversion H; subst; clear H. simpl.
    eexists. split; [reflexivity|].
    apply dict_comprehension_keep in Erow0 as [Hcols Hvals].
    split.
    + destruct (column_names_setitem_app (KStr "party_name") pname row0)
        as (m1 & E1 & _).
      unfold candidate_row_columns. rewrite map_app, <- Hcols.
      clear - Hcols.
      assert (N : forall k, In k ["party_name"; "party_id";
                                  "candidate_identifier"; "votes"] ->
                            row_lookup (KStr k) row0 = None).
      { intros k Hk. destruct (row_lookup (KStr k) row0) eqn:L;
          [|reflexivity].
        exfalso.
        assert (Hin : In (KStr k) (column_names row0))
          by (apply row_lookup_in; congruence).
        rewrite Hcols in Hin. simpl in Hk, Hin.
        repeat (destruct Hk as [<-|Hk];
                [repeat (destruct Hin as [Hin|Hin]; [discriminate Hin|]);
                 contradiction|]).
        contradiction. }
      rewrite (setitem_new (KStr "votes"))
        by (rewrite !row_lookup_setitem_other by reflexivity;
            apply N; simpl; auto 6).
      rewrite (setitem_new (KStr "candidate_identifier"))
        by (rewrite !row_lookup_setitem_other by reflexivity;
            apply N; simpl; auto 6).
      rewrite (setitem_new (KStr "party_id"))
        by (rewrite !row_lookup_setitem_other by reflexivity;
            apply N; simpl; auto 6).
      rewrite (setitem_new (KStr "party_name"))
        by (apply N; simpl; auto 6).
      rewrite <- !app_assoc. reflexivity.
    + intros k Hk. rewrite <- (Hvals k Hk).
      unfold keep in Hk. simpl in Hk.
      repeat (destruct Hk as [<-|Hk];
              [now rewrite !row_lookup_setitem_other by reflexivity|]).
      contradiction.
Qed.

Lemma selection_loop_candidate_rows (per_candidate : bool) (item : row)
    (selections : list pyobj) (st st' : locals) :
  for_loop (selection_body per_candidate item) st selections = Ok st' ->
  exists new,
    rows_per_candidate st' = rows_per_candidate st ++ new
    /\ Forall (candidate_row_from item) new.
Proof.
  revert st. induction selections as [|r selections IH]; intros st H.
  - simpl in H. inversion H; subst. exists []. now rewrite app_nil_r.
  - simpl in H. unbind H as st1 Hstep.
    apply IH in H as (new & Hnew & Hall).
    apply selection_body_candidate_row in Hstep as [E|(r0 & E & Hr0)].
    + exists new. now rewrite Hnew, E.
    + exists (r0 :: new). rewrite Hnew, E, <- app_assoc. auto.
Qed.

Lemma station_body_candidate_rows (per_candidate : bool) (id : identity)
    (st st' : locals) (station : pyobj) :
  station_body per_candidate id st station = Ok st' ->
  exists item new,
    station_item id station = Ok item
    /\ rows_per_candidate st' = rows_per_candidate st ++ new
    /\ Forall (candidate_row_from item) new.
Proof.
  intros H.
  apply station_body_unfold in H as (item & st1 & Hitem & Hloop & _ & Hc).
  apply selection_loop_candidate_rows in Hloop as (new & Hnew & Hall).
  exists item, new. simpl in Hnew. rewrite Hc. auto.
Qed.

(** A turn of the station loop that returns has printed nothing: a
    station that is text is printed, but then the turn raises. *)
Lemma station_step_silent (per_candidate : bool) (id : identity)
    (st st' : locals) (station : pyobj) (out : list string) :
  station_step per_candidate id st station = (out, Ok st') -> out = [].
Proof.
  unfold station_step. destruct station; simpl;
    intros H; inversion H; reflexivity.
Qed.

(** What the loop over the stations has done when it returns. *)
Lemma stations_loop_rows (per_candidate : bool) (id : identity)
    (stations : list pyobj) (st st' : locals) (out : list string) :
  io_for_loop (station_step per_candidate id) st stations = (out, Ok st') ->
  out = []
  /\ (exists new,
        rows_aggregates st' = rows_aggregates st ++ new
        /\ Forall2 (aggregate_row_of id) stations new)
  /\ (exists new,
        rows_per_candidate st' = rows_per_candidate st ++ new
        /\ Forall (fun r => exists station item,
                              In station stations
                              /\ station_item id station = Ok item
                              /\ candidate_row_from item r) new).
Proof.
  revert st out. induction stations as [|station stations IH];
    intros st out H.
  - simpl in H. inversion H; subst; clear H.
    split; [reflexivity|]. split; exists []; rewrite app_nil_r; auto.
  - simpl in H.
    apply io_bind_ok in H as (out1 & st1 & out2 & Hstep & H & ->).
    pose proof (station_step_silent _ _ _ _ _ _ Hstep) as ->.
    apply station_step_ok in Hstep.
    destruct (station_body_row _ _ _ _ _ Hstep) as (r & Hagg & Hr).
    destruct (station_body_candidate_rows _ _ _ _ _ Hstep)
      as (item & new1 & Hitem & Hnew1 & Hall1).
    apply IH in H as (-> & (newa & Ha & Hfa) & (newc & Hc & Hfc)).
    split; [reflexivity|]. split.
    + exists (r :: newa). rewrite Ha, Hagg, <- app_assoc. auto.
    + exists (new1 ++ newc). rewrite Hc, Hnew1, <- app_assoc.
      split; [reflexivity|]. apply Forall_app. split.
      * eapply Forall_impl; [|exact Hall1].
        intros r0 Hr0. exists station, item. simpl. auto.
      * eapply Forall_impl; [|exact Hfc].
        intros r0 (s0 & i0 & Hin & Hi0 & Hr0).
        exists s0, i0. simpl. auto.
Qed.

(** The contest, the stations and the first rows that the header
    gives. *)
Lemma election_header_stations (data : pyobj) (id : identity)
    (stations : list pyobj) (rows0 : list row) :
  election_header data = Ok (id, stations, rows0) ->
  exists contest,
    path data ["EML"; "Count"; "Election"; "Contests"; "Contest"]
    = Ok (PDict contest)
    /\ match lookup "ReportingUnitVotes" contest with
       | Some v => stations = one_or_many v /\ rows0 = []
       | None => stations = [] /\ rows0 = [contest_only_row id]
       end.
Proof.
  unfold election_header. intros H.
  unbind H as election Eelection.
  unbind H as ei Eei.
  unbind H as eid Eid.
  unbind H as ename Ename.
  unbind H as domain Edomain. destruct domain as [domain_id domain_name].
  unbind H as edate Edate.
  unbind H as contest Econtest.
  unbind H as cname Ecname.
  unbind H as authority Eauthority.
  unbind H as found Efound. destruct found as [v rows1].
  inversion H; subst; clear H.
  assert (exists c, contest = PDict c) as [c ->].
  { destruct contest; try (simpl in Ecname; discriminate). eauto. }
  exists c. split.
  - change ["EML"; "Count"; "Election"; "Contests"; "Contest"]
      with (["EML"; "Count"; "Election"] ++ ["Contests"; "Contest"]).
    now rewrite path_app, Eelection.
  - unfold subscript in Efound.
    destruct (lookup "ReportingUnitVotes" c) as [w|]; simpl in Efound;
      inversion Efound; subst; auto.
Qed.

Lemma parse_election_data_unfold (data : pyobj) (per_candidate : bool)
    (out : list string) (aggregates candidates : list row)
    (contest authority : pyobj) :
  parse_election_data data per_candidate
  = (out, Ok (ReturnedTuple aggregates candidates contest authority)) ->
  exists id stations rows0 st,
    election_header data = Ok (id, stations, rows0)
    /\ io_for_loop (station_step per_candidate id)
         {| rows_aggregates := rows0;
            rows_per_candidate := [];
            row_aggregate := [];
            party_name := None;
            party_id := None |}
         stations = (out, Ok st)
    /\ aggregates = rows_aggregates st
    /\ candidates = rows_per_candidate st
    /\ contest = contest_name id
    /\ authority = managing_authority id.
Proof.
  unfold parse_election_data. intros H.
  apply io_bind_ok in H as (out1 & null & out2 & Hnull & H & ->).
  destruct null; [discriminate|].
  apply io_bind_ok in H as (out3 & hdr & out4 & Hhdr & H & ->).
  destruct hdr as [[id stations] rows0].
  apply io_bind_ok in H as (out5 & st & out6 & Hloop & H & ->).
  inversion H; subst; clear H.
  unfold lift in Hnull, Hhdr. inversion Hnull; inversion Hhdr; subst.
  exists id, stations, rows0, st. rewrite app_nil_r. simpl.
  repeat split; assumption.
Qed.

(** X4: when [parse_election_data] returns its tuple, the aggregate
    rows are one per reporting unit, in document order, each the record
    of its station followed by that station's party columns; a single
    reporting unit that is not in a list counts as one.  A contest
    without [ReportingUnitVotes] gives exactly one aggregate row, with
    the identity fields and [None] for station name and id, and no
    per-candidate row.  The contest name and the managing authority of
    the tuple are those of the header. *)
Theorem aggregate_rows_follow_stations
    (data : pyobj) (per_candidate : bool) (out : list string)
    (aggregates candidates : list row) (contest_nm authority : pyobj) :
  parse_election_data data per_candidate
  = (out, Ok (ReturnedTuple aggregates candidates contest_nm authority)) ->
  exists id stations rows0 contest,
    election_header data = Ok (id, stations, rows0)
    /\ path data ["EML"; "Count"; "Election"; "Contests"; "Contest"]
       = Ok (PDict contest)
    /\ contest_nm = contest_name id
    /\ authority = managing_authority id
    /\ match lookup "ReportingUnitVotes" contest with
       | Some v => Forall2 (aggregate_row_of id) (one_or_many v) aggregates
       | None => aggregates = [contest_only_row id] /\ candidates = []
       end.
Proof.
  intros H.
  apply parse_election_data_unfold in H
    as (id & stations & rows0 & st & Hhdr & Hloop & -> & -> & -> & ->).
  destruct (election_header_stations _ _ _ _ Hhdr) as (contest & Hpath & Hm).
  exists id, stations, rows0, contest.
  repeat split; try assumption.
  destruct (lookup "ReportingUnitVotes" contest) as [v|];
    destruct Hm as [-> ->].
  - apply stations_loop_rows in Hloop as (_ & (new & Ha & Hf) & _).
    simpl in Ha. now rewrite Ha.
  - simpl in Hloop. inversion Hloop; subst. simpl. auto.
Qed.

Lemma aggregate_rows_follow_stations_witness :
  length two_station_aggregates = 2
  /\ exists r contest_nm authority,
       parse_election_data (sample_count sample_domain []) true
       = ([], Ok (ReturnedTuple [r] [] contest_nm authority))
       /\ row_lookup (KStr "station_id") r = Some PNone.
Proof.
  split.
  - destruct (aggregate_rows_follow_stations two_station_count true []
                two_station_aggregates two_station_candidates
                PNone (PStr "Testdorp"))
      as (id & stations & rows0 & contest & _ & Hpath & _ & _ & Hm);
      [vm_compute; reflexivity|].
    vm_compute in Hpath. inversion Hpath; subst; clear Hpath.
    cbv [lookup String.eqb Ascii.eqb Bool.eqb] in Hm.
    apply Forall2_length in Hm. now rewrite <- Hm.
  - destruct (aggregate_rows_follow_stations
                (sample_count sample_domain []) true []
                [contest_only_row sample_identity] [] PNone (PStr "Testdorp"))
      as (id & stations & rows0 & contest & Hhdr & Hpath & _ & _ & Hm);
      [vm_compute; reflexivity|].
    exists (contest_only_row sample_identity), PNone, (PStr "Testdorp").
    split; reflexivity.
Defined.

Lemma parse_election_data_out (data : pyobj) (per_candidate : bool)
    (out : list string) (value : returned) :
  parse_election_data data per_candidate = (out, Ok value) -> out = [].
Proof.
  destruct value as [|aggregates candidates contest authority].
  - unfold parse_election_data. intros H.
    apply io_bind_ok in H as (out1 & null & out2 & Hnull & H & ->).
    unfold lift in Hnull. inversion Hnull; subst.
    destruct null.
    + now inversion H.
    + apply io_bind_ok in H as (out3 & hdr & out4 & Hhdr & H & ->).
      destruct hdr as [[id stations] rows0].
      apply io_bind_ok in H as (out5 & st & out6 & Hloop & H & ->).
      inversion H.
  - intros H.
    apply parse_election_data_unfold in H
      as (id & stations & rows0 & st & _ & Hloop & _).
    now apply stations_loop_rows in Hloop as (-> & _).
Qed.

(** X5: whenever [parse_election_data] returns, it has printed nothing:
    the only [print] is for a station that is a string, and such a
    station makes the function raise. *)
Theorem parse_election_data_returns_silently
    (data : pyobj) (per_candidate : bool) (out : list string)
    (value : returned) :
  parse_election_data data per_candidate = (out, Ok value) -> out = [].
Proof. apply parse_election_data_out. Qed.

Lemma parse_election_data_returns_silently_witness :
  printed (parse_election_data two_station_count true) = [].
Proof.
  apply (parse_election_data_returns_silently two_station_count true _
           (ReturnedTuple two_station_aggregates two_station_candidates
              PNone (PStr "Testdorp"))).
  vm_compute. reflexivity.
Defined.

(** X6: every per-candidate row that [parse_election_data] returns has
    exactly the same fourteen columns in the same order: the ten
    identity and station columns of [keep], then [party_name],
    [party_id], [candidate_identifier] and [votes]; the first ten are
    copied from the record of a station of the document. *)
Theorem candidate_rows_have_fixed_layout
    (data : pyobj) (per_candidate : bool) (out : list string)
    (aggregates candidates : list row) (contest authority : pyobj) :
  parse_election_data data per_candidate
  = (out, Ok (ReturnedTuple aggregates candidates contest authority)) ->
  exists id stations rows0,
    election_header data = Ok (id, stations, rows0)
    /\ Forall (fun r =>
                 column_names r = map KStr candidate_row_columns
                 /\ exists station item,
                      In station stations
                      /\ station_item id station = Ok item
                      /\ forall k, In k keep ->
                                   row_lookup (KStr k) r
                                   = row_lookup (KStr k) item)
         candidates.
Proof.
  intros H.
  apply parse_election_data_unfold in H
    as (id & stations & rows0 & st & Hhdr & Hloop & -> & -> & -> & ->).
  exists id, stations, rows0. split; [exact Hhdr|].
  apply stations_loop_rows in Hloop as (_ & _ & (new & Hc & Hf)).
  simpl in Hc. rewrite Hc.
  eapply Forall_impl; [|exact Hf].
  intros r (station & item & Hin & Hitem & Hcols & Hvals).
  split; [exact Hcols|]. exists station, item. auto.
Qed.

Lemma candidate_rows_have_fixed_layout_witness :
  Forall (fun r => column_names r = map KStr candidate_row_columns)
    two_station_candidates
  /\ length two_station_candidates = 4.
Proof.
  destruct (candidate_rows_have_fixed_layout two_station_count true []
              two_station_aggregates two_station_candidates
              PNone (PStr "Testdorp"))
    as (id & stations & rows0 & _ & Hall);
    [vm_compute; reflexivity|].
  split; [|reflexivity].
  eapply Forall_impl; [|exact Hall]. intros r [Hr _]. exact Hr.
Defined.

(* ================================================================= *)
(** ** Tables *)

Lemma key_in_iff (k : key) (ks : list key) : key_in k ks = true <-> In k ks.
Proof.
  unfold key_in. rewrite existsb_exists. split.
  - intros (x & Hin & E). apply key_eqb_eq in E. now subst.
  - intros Hin. exists k. split; [exact Hin|apply key_eqb_refl].
Qed.

Lemma key_in_false (k : key) (ks : list key) :
  key_in k ks = false <-> ~ In k ks.
Proof.
  rewrite <- key_in_iff. destruct (key_in k ks); intuition congruence.
Qed.

Lemma add_columns_spec (seen : list key) (r : row) :
  (NoDup seen -> NoDup (add_columns seen r))
  /\ (forall k, In k (add_columns seen r)
                <-> In k seen \/ In k (column_names r))
  /\ exists more, add_columns seen r = seen ++ more.
Proof.
  unfold add_columns. generalize (column_names r) as ks.
  intros ks. revert seen. induction ks as [|k ks IH]; intros seen; simpl.
  - repeat split; auto; try tauto. exists []. now rewrite app_nil_r.
  - destruct (key_in k seen) eqn:E.
    + destruct (IH seen) as (Hnd & Hin & more & Hmore).
      split; [exact Hnd|]. split; [|eauto].
      intros k'. rewrite Hin. apply key_in_iff in E.
      intuition (subst; auto).
    + destruct (IH (seen ++ [k])) as (Hnd & Hin & more & Hmore).
      apply key_in_false in E. split; [|split].
      * intros Hs. apply Hnd. apply NoDup_app; try assumption.
        -- constructor; [intros []|constructor].
        -- intros x Hx [<-|[]]. contradiction.
      * intros k'. rewrite Hin, in_app_iff. simpl. intuition auto.
      * exists ([k] ++ more). now rewrite Hmore, app_assoc.
Qed.

(** The columns of a table are the keys of its rows, each once. *)
Lemma pd_DataFrame_columns (rows : list row) :
  NoDup (columns (pd_DataFrame rows))
  /\ forall k, In k (columns (pd_DataFrame rows))
               <-> exists r, In r rows /\ In k (column_names r).
Proof.
  unfold pd_DataFrame. simpl.
  assert (G : forall seen,
             (NoDup seen -> NoDup (fold_left add_columns rows seen))
             /\ forall k, In k (fold_left add_columns rows seen)
                          <-> In k seen
                              \/ exists r, In r rows /\ In k (column_names r)).
  { induction rows as [|r rows IH]; intros seen; simpl.
    - split; [auto|]. intros k. split; [auto|].
      intros [H|(r & [] & _)]. exact H.
    - destruct (add_columns_spec seen r) as (Hnd & Hin & _).
      destruct (IH (add_columns seen r)) as (Hnd' & Hin').
      split; [auto|]. intros k. rewrite Hin', Hin. split.
      + intros [[H|H]|(r0 & H0 & H1)]; eauto.
      + intros [H|(r0 & [<-|H0] & H1)]; eauto. }
  destruct (G []) as (Hnd & Hin). split; [apply Hnd; constructor|].
  intros k. rewrite Hin. simpl. intuition auto.
Qed.

Lemma table_lookup_set_same (k : string) (df : DataFrame)
    (dfs : list (string * DataFrame)) :
  table_lookup k (set_table k df dfs) = Some df.
Proof.
  induction dfs as [|[k' df'] dfs IH]; simpl.
  - now rewrite String.eqb_refl.
  - destruct (String.eqb k k') eqn:E; simpl; rewrite E; auto.
Qed.

Lemma table_lookup_set_other (k k' : string) (df : DataFrame)
    (dfs : list (string * DataFrame)) :
  k <> k' ->
  table_lookup k (set_table k' df dfs) = table_lookup k dfs.
Proof.
  intros N. apply String.eqb_neq in N.
  induction dfs as [|[k0 df0] dfs IH]; simpl.
  - now rewrite N.
  - destruct (String.eqb k' k0) eqn:E; simpl.
    + apply String.eqb_eq in E. subst k0. now rewrite N.
    + now rewrite IH.
Qed.

Lemma table_names_set (k : string) (df : DataFrame)
    (dfs : list (string * DataFrame)) (k' : string) :
  In k' (map fst (set_table k df dfs)) <-> k' = k \/ In k' (map fst dfs).
Proof.
  induction dfs as [|[k0 df0] dfs IH]; simpl.
  - intuition congruence.
  - destruct (String.eqb k k0) eqn:E; simpl.
    + apply String.eqb_eq in E. subst. intuition congruence.
    + rewrite IH. intuition congruence.
Qed.

(** What one turn of the loop of [process_files] does when it
    returns. *)
Lemma process_file_ok (per_candidate : bool)
    (dfs dfs' : list (string * DataFrame)) (path : file)
    (out : list string) :
  process_file per_candidate dfs path = (out, Ok dfs') ->
  exists tree aggregates candidates contest authority,
    content path = Parsed tree
    /\ parse_election_data tree per_candidate
       = ([], Ok (ReturnedTuple aggregates candidates contest authority))
    /\ out = []
    /\ dfs'
       = set_table (aggregate_name path)
           (select_columns (pd_DataFrame aggregates)
              (filter (fun c => key_in c (columns (pd_DataFrame aggregates)))
                 (map KStr first_cols)
               ++ filter
                    (fun c =>
                       negb (key_in c
                               (filter
                                  (fun c =>
                                     key_in c
                                       (columns (pd_DataFrame aggregates)))
                                  (map KStr first_cols))))
                    (columns (pd_DataFrame aggregates))))
           (if per_candidate
            then set_table (per_candidate_name path)
                   (pd_DataFrame candidates) dfs
            else dfs).
Proof.
  unfold process_file. intros H.
  apply io_bind_ok in H as (out1 & data & out2 & Hread & H & ->).
  apply io_bind_ok in H as (out3 & value & out4 & Hparse & H & ->).
  apply io_bind_ok in H as (out5 & tuple & out6 & Hunpack & H & ->).
  destruct tuple as [[[aggregates candidates] contest] authority].
  unfold lift in Hunpack.
  assert (Hout5 : out5 = []) by congruence. subst out5.
  assert (Hu : unpack4 value = Ok (aggregates, candidates, contest, authority))
    by congruence.
  clear Hunpack.
  destruct value as [|a b c d]; [discriminate Hu|].
  unfold unpack4 in Hu.
  assert (a = aggregates /\ b = candidates /\ c = contest /\ d = authority)
    as (-> & -> & -> & ->) by (repeat split; congruence).
  clear Hu. unfold io_ret in H.
  assert (Hout6 : out6 = []) by congruence. subst out6.
  match type of H with (_, Ok ?t) = _ => assert (Hd : dfs' = t) by congruence end.
  clear H.
  pose proof (parse_election_data_out _ _ _ _ Hparse) as ->.
  rewrite read_eml_outcome in Hread.
  destruct (content path) as [tree|e message] eqn:C.
  - assert (tree = data) as -> by congruence.
    assert (out1 = []) as -> by congruence.
    exists data, aggregates, candidates, contest, authority.
    split; [reflexivity|]. split; [exact Hparse|]. split; [reflexivity|].
    exact Hd.
  - discriminate Hread.
Qed.

Lemma nodupb_NoDup (l : list key) : nodupb l = true -> NoDup l.
Proof.
  induction l as [|x l IH]; simpl; intros H; constructor.
  - apply andb_prop in H as [H _]. apply negb_true_iff in H.
    now apply key_in_false.
  - apply andb_prop in H as [_ H]. auto.
Qed.

Lemma first_cols_NoDup : NoDup (map KStr first_cols).
Proof. apply nodupb_NoDup. vm_compute. reflexivity. Qed.

(** Reordering as [process_files] does it keeps every column once and
    puts the canonical columns first. *)
Lemma reorder_columns (found : list key) :
  NoDup found ->
  let first := filter (fun c => key_in c found) (map KStr first_cols) in
  let ordered := first ++ filter (fun c => negb (key_in c first)) found in
  Permutation ordered found /\ canonical_first found ordered.
Proof.
  intros Hnd first ordered.
  assert (Hrest : filter (fun c => negb (key_in c first)) found
                  = filter (fun c => negb (key_in c (map KStr first_cols)))
                      found).
  { apply filter_ext_in. intros c Hc. f_equal.
    destruct (key_in c (map KStr first_cols)) eqn:E.
    - apply key_in_iff. apply key_in_iff in E. unfold first.
      apply filter_In. split; [exact E|]. now apply key_in_iff.
    - apply key_in_false. apply key_in_false in E. unfold first.
      rewrite filter_In. tauto. }
  split.
  - apply NoDup_Permutation; [|exact Hnd|].
    + unfold ordered. apply NoDup_app.
      * apply NoDup_filter, first_cols_NoDup.
      * now apply NoDup_filter.
      * intros c Hc Hc'. apply filter_In in Hc' as [_ Hc'].
        apply negb_true_iff, key_in_false in Hc'. contradiction.
    + intros c. unfold ordered. rewrite in_app_iff, !filter_In.
      unfold first at 1. rewrite filter_In, key_in_iff.
      destruct (key_in c first) eqn:E.
      * apply key_in_iff in E. unfold first in E.
        apply filter_In in E as [E1 E2]. apply key_in_iff in E2.
        intuition auto.
      * split; [intuition auto|]. intros Hc. right. auto.
  - exists first, (filter (fun c => negb (key_in c (map KStr first_cols)))
                     found).
    unfold ordered. rewrite Hrest. auto.
Qed.

(** X7: the aggregate table that [process_files] stores for a file has
    the aggregate rows of the file's document, in order; its columns are
    the columns of these rows, each exactly once, the canonical columns
    that occur first (in canonical order) and all other columns after
    them in order of first appearance. *)
Theorem aggregate_table_layout (per_candidate : bool)
    (dfs dfs' : list (string * DataFrame)) (path : file)
    (out : list string) :
  process_file per_candidate dfs path = (out, Ok dfs') ->
  exists tree aggregates candidates contest authority table,
    content path = Parsed tree
    /\ parse_election_data tree per_candidate
       = ([], Ok (ReturnedTuple aggregates candidates contest authority))
    /\ table_lookup (aggregate_name path) dfs' = Some table
    /\ records table = aggregates
    /\ Permutation (columns table) (columns (pd_DataFrame aggregates))
    /\ canonical_first (columns (pd_DataFrame aggregates)) (columns table).
Proof.
  intros H.
  apply process_file_ok in H
    as (tree & aggregates & candidates & contest & authority
        & Hc & Hparse & _ & ->).
  eexists tree, aggregates, candidates, contest, authority, _.
  split; [exact Hc|]. split; [exact Hparse|].
  split; [apply table_lookup_set_same|].
  split; [reflexivity|].
  destruct (pd_DataFrame_columns aggregates) as [Hnd _].
  apply (reorder_columns _ Hnd).
Qed.

Lemma aggregate_table_layout_witness :
  exists table,
    table_lookup "Telling_GR2018_Testdorp_aggregate" tables_after_readable_file
    = Some table
    /\ Permutation (columns table) (columns (pd_DataFrame (records table))).
Proof.
  destruct (aggregate_table_layout true [] tables_after_readable_file
              readable_file [])
    as (tree & aggregates & candidates & contest & authority & table
        & _ & _ & Hlookup & Hrecords & Hperm & _);
    [vm_compute; reflexivity|].
  exists table. split; [exact Hlookup|]. now rewrite Hrecords.
Defined.

Lemma fold_add_new (ks acc : list key) :
  NoDup (acc ++ ks) ->
  fold_left (fun acc k => if key_in k acc then acc else acc ++ [k]) ks acc
  = acc ++ ks.
Proof.
  revert acc. induction ks as [|k ks IH]; intros acc H; simpl.
  - now rewrite app_nil_r.
  - assert (E : key_in k acc = false).
    { apply key_in_false. intros Hin.
      apply NoDup_remove_2 in H. apply H. apply in_or_app. now left. }
    rewrite E, IH; rewrite <- app_assoc; [reflexivity|exact H].
Qed.

Lemma fold_add_seen (ks acc : list key) :
  (forall k, In k ks -> In k acc) ->
  fold_left (fun acc k => if key_in k acc then acc else acc ++ [k]) ks acc
  = acc.
Proof.
  induction ks as [|k ks IH]; intros H; simpl; [reflexivity|].
  assert (E : key_in k acc = true) by (apply key_in_iff, H; now left).
  rewrite E. apply IH. intros k' Hk'. apply H. now right.
Qed.

(** A table built from rows that all have the same columns has these
    columns. *)
Lemma pd_DataFrame_uniform (cs : list key) (rows : list row) :
  NoDup cs -> rows <> [] ->
  Forall (fun r => column_names r = cs) rows ->
  columns (pd_DataFrame rows) = cs.
Proof.
  intros Hnd Hne Hall. unfold pd_DataFrame. simpl.
  destruct rows as [|r rows]; [contradiction|].
  inversion Hall as [|? ? Hr Hrows]; subst. simpl.
  unfold add_columns at 2. rewrite fold_add_new by exact Hnd. simpl.
  clear Hne Hall. induction rows as [|r' rows IH]; [reflexivity|].
  inversion Hrows as [|? ? Hr' Hrows']; subst. simpl.
  unfold add_columns at 2. rewrite Hr'.
  rewrite fold_add_seen by auto. now apply IH.
Qed.

Lemma candidate_row_columns_NoDup : NoDup (map KStr candidate_row_columns).
Proof. apply nodupb_NoDup. vm_compute. reflexivity. Qed.

(** X8: with per-candidate emission on, [process_files] also stores a
    per-candidate table for the file, beside the aggregate table; it
    holds the per-candidate rows of the document, and whenever it has a
    row its columns are exactly the fourteen per-candidate columns.
    With per-candidate emission off the tables other than the file's
    aggregate table are left as they were. *)
Theorem per_candidate_table_layout (per_candidate : bool)
    (dfs dfs' : list (string * DataFrame)) (path : file)
    (out : list string) :
  process_file per_candidate dfs path = (out, Ok dfs') ->
  exists tree aggregates candidates contest authority,
    content path = Parsed tree
    /\ parse_election_data tree per_candidate
       = ([], Ok (ReturnedTuple aggregates candidates contest authority))
    /\ (per_candidate = true ->
        table_lookup (per_candidate_name path) dfs'
        = Some (pd_DataFrame candidates)
        /\ (candidates <> [] ->
            columns (pd_DataFrame candidates)
            = map KStr candidate_row_columns))
    /\ (per_candidate = false ->
        forall nm, nm <> aggregate_name path ->
                   table_lookup nm dfs' = table_lookup nm dfs).
Proof.
  intros H.
  apply process_file_ok in H
    as (tree & aggregates & candidates & contest & authority
        & Hc & Hparse & _ & ->).
  exists tree, aggregates, candidates, contest, authority.
  split; [exact Hc|]. split; [exact Hparse|]. split.
  - intros ->. split.
    + rewrite table_lookup_set_other.
      * apply table_lookup_set_same.
      * unfold per_candidate_name, aggregate_name. intros E.
        apply append_cancel in E. discriminate E.
    + intros Hne. apply pd_DataFrame_uniform;
        [apply candidate_row_columns_NoDup|exact Hne|].
      apply parse_election_data_unfold in Hparse
        as (id & stations & rows0 & st & Hhdr & Hloop & _ & -> & _).
      apply stations_loop_rows in Hloop as (_ & _ & (new & Hnew & Hf)).
      simpl in Hnew. rewrite Hnew.
      eapply Forall_impl; [|exact Hf].
      intros r (station & item & _ & _ & Hcols & _). exact Hcols.
  - intros -> nm Hnm. now apply table_lookup_set_other.
Qed.

Lemma per_candidate_table_layout_witness :
  exists table,
    table_lookup "Telling_GR2018_Testdorp_per_candidate"
      tables_after_readable_file
    = Some table
    /\ columns table = map KStr candidate_row_columns.
Proof.
  destruct (per_candidate_table_layout true [] tables_after_readable_file
              readable_file [])
    as (tree & aggregates & candidates & contest & authority
        & Hc & Hparse & Hpc & _);
    [vm_compute; reflexivity|].
  destruct (Hpc eq_refl) as [Hlookup Hcols].
  exists (pd_DataFrame candidates). split; [exact Hlookup|].
  apply Hcols. intros ->.
  vm_compute in Hc. inversion Hc; subst; clear Hc.
  vm_compute in Hparse. discriminate Hparse.
Defined.

(* ================================================================= *)
(** ** The batch of count files *)

(** X9: a file whose path contains [kieskring], in any mix of upper and
    lower case, is left out of the batch altogether: it is not read,
    nothing is printed for it and no table is made for it, so the result
    is that of the batch without it. *)
Theorem process_files_leaves_out_kieskring
    (before after : list file) (p : file) (per_candidate : bool) :
  is_substring "kieskring" (lower (full_path p)) = true ->
  process_files (before ++ p :: after) per_candidate
  = process_files (before ++ after) per_candidate.
Proof.
  intros H. unfold process_files.
  rewrite !filter_app. simpl. now rewrite H.
Qed.

Lemma process_files_leaves_out_kieskring_witness :
  process_files [kieskring_file; readable_file] false
  = process_files [readable_file] false.
Proof.
  apply (process_files_leaves_out_kieskring [] [readable_file]
           kieskring_file false).
  reflexivity.
Defined.

Lemma process_loop_tables (per_candidate : bool) (paths : list file)
    (dfs dfs' : list (string * DataFrame)) (out : list string) :
  io_for_loop (process_file per_candidate) dfs paths = (out, Ok dfs') ->
  out = []
  /\ Forall (parses per_candidate) paths
  /\ forall nm,
       In nm (map fst dfs')
       <-> In nm (map fst dfs)
           \/ exists p, In p paths /\ names_for per_candidate p nm.
Proof.
  revert dfs out. induction paths as [|p paths IH]; intros dfs out H.
  - simpl in H. inversion H; subst. split; [reflexivity|].
    split; [constructor|]. intros nm. split; [auto|].
    intros [Hn|(p & [] & _)]. exact Hn.
  - simpl in H.
    apply io_bind_ok in H as (out1 & dfs1 & out2 & Hstep & H & ->).
    apply IH in H as (-> & Hall & Hnames).
    apply process_file_ok in Hstep
      as (tree & aggregates & candidates & contest & authority
          & Hc & Hparse & -> & ->).
    split; [reflexivity|]. split.
    + constructor; [|exact Hall].
      exists tree, aggregates, candidates, contest, authority. auto.
    + intros nm. rewrite Hnames, table_names_set. unfold names_for.
      destruct per_candidate.
      * rewrite table_names_set. split.
        -- intros [[->|[->|Hn]]|(q & Hq & Hnm)].
           ++ right. exists p. simpl. auto.
           ++ right. exists p. simpl. auto.
           ++ now left.
           ++ right. exists q. simpl. auto.
        -- intros [Hn|(q & [<-|Hq] & [->|[_ ->]])]; auto.
           ++ right. exists q. auto.
           ++ right. exists q. auto.
      * split.
        -- intros [[->|Hn]|(q & Hq & Hnm)].
           ++ right. exists p. simpl. auto.
           ++ now left.
           ++ right. exists q. simpl. auto.
        -- intros [Hn|(q & [<-|Hq] & [->|[Hf _]])]; auto;
             try discriminate.
           right. exists q. auto.
Qed.

(** X10: [process_files] returns only if every file that the filter
    keeps was decoded and parsed; it then has printed nothing, and the
    tables it returns are named exactly [<stem>_aggregate] for each such
    file and, with per-candidate emission on, [<stem>_per_candidate]. *)
Theorem process_files_tables (globbed : list file) (per_candidate : bool)
    (out : list string) (tables : list (string * DataFrame)) :
  process_files globbed per_candidate = (out, Ok tables) ->
  out = []
  /\ (forall p, In p globbed -> kept p = true -> parses per_candidate p)
  /\ forall nm,
       In nm (map fst tables)
       <-> exists p, In p globbed /\ kept p = true
                     /\ names_for per_candidate p nm.
Proof.
  unfold process_files. intros H.
  apply process_loop_tables in H as (-> & Hall & Hnames).
  split; [reflexivity|]. split.
  - intros p Hin Hk. rewrite Forall_forall in Hall. apply Hall.
    apply filter_In. auto.
  - intros nm. rewrite Hnames. split.
    + intros [[]|(p & Hp & Hn)]. apply filter_In in Hp as [Hp Hk].
      exists p. auto.
    + intros (p & Hp & Hk & Hn). right. exists p.
      split; [|exact Hn]. apply filter_In. auto.
Qed.

Lemma process_files_tables_witness :
  In "Telling_GR2018_Testdorp_per_candidate"
    (map fst tables_after_readable_file)
  /\ parses true readable_file.
Proof.
  destruct (process_files_tables [kieskring_file; readable_file] true []
              tables_after_readable_file)
    as (_ & Hparses & Hnames);
    [vm_compute; reflexivity|].
  split.
  - apply Hnames. exists readable_file.
    split; [simpl; auto|]. split; [reflexivity|].
    right. split; reflexivity.
  - apply Hparses; [simpl; auto|reflexivity].
Defined.

(* ================================================================= *)
(** ** More on the candidate roster *)

(** A candidate that is not a mapping is skipped. *)
Lemma candidate_body_skips (election_identifier : pyobj)
    (entries : list (string * pyobj)) (party_name party_id : pyobj)
    (st : roster_locals) (candidate : pyobj) :
  isinstance_dict candidate = false ->
  candidate_body election_identifier entries party_name party_id st candidate
  = Ok st.
Proof. destruct candidate; simpl; intros H; try discriminate; reflexivity. Qed.

(** What one turn of [for candidate in party_candidates] does for a
    candidate that is a mapping, when it returns. *)
Lemma candidate_body_ok (election_identifier : pyobj)
    (entries : list (string * pyobj)) (party_name party_id : pyobj)
    (st st' : roster_locals) (candidate : pyobj) :
  isinstance_dict candidate = true ->
  candidate_body election_identifier entries party_name party_id st candidate
  = Ok st' ->
  exists r identifier,
    rows st' = rows st ++ [r]
    /\ try_except (path candidate ["CandidateIdentifier"; "@Id"])
         is_TypeError (Ok PNone) = Ok identifier
    /\ roster_row election_identifier entries party_name party_id
         identifier r.
Proof.
  intros Hd H. unfold candidate_body in H.
  unbind H as identifier Eident.
  rewrite Hd in H. cbn [negb] in H.
  unbind H as full_name Efull.
  unbind H as ks Eks.
  unbind H as nr' Enr.
  unbind H as first_name Efirst.
  unbind H as last_name Elast.
  unbind H as initials Einit.
  unbind H as prefix Eprefix.
  unbind H as gender Egender.
  unbind H as address Eaddress.
  inversion H; subst; clear H. cbn [rows].
  eexists _, identifier. split; [reflexivity|]. split; [exact Eident|].
  exists first_name, last_name, initials, prefix, gender, address.
  reflexivity.
Qed.

(** What the loop over the candidates of a party does when it
    returns: one row per candidate that is a mapping, in order. *)
Lemma candidates_loop_ok (election_identifier : pyobj)
    (entries : list (string * pyobj)) (party_name party_id : pyobj)
    (candidates : list pyobj) (st st' : roster_locals) :
  for_loop
    (candidate_body election_identifier entries party_name party_id)
    st candidates = Ok st' ->
  exists new,
    rows st' = rows st ++ new
    /\ Forall2
         (fun candidate r =>
            exists identifier,
              try_except (path candidate ["CandidateIdentifier"; "@Id"])
                is_TypeError (Ok PNone) = Ok identifier
              /\ roster_row election_identifier entries party_name party_id
                   identifier r)
         (filter isinstance_dict candidates) new.
Proof.
  revert st. induction candidates as [|c candidates IH]; intros st H.
  - simpl in H. inversion H; subst. exists []. rewrite app_nil_r. auto.
  - simpl in H. unbind H as st1 Hstep.
    apply IH in H as (new & Hnew & Hall). simpl.
    destruct (isinstance_dict c) eqn:D.
    + apply candidate_body_ok in Hstep as (r & identifier & Hr & Hi & Hrow);
        [|exact D].
      exists (r :: new). rewrite Hnew, Hr, <- app_assoc.
      split; [reflexivity|]. constructor; eauto.
    + rewrite candidate_body_skips in Hstep by exact D.
      inversion Hstep; subst. eauto.
Qed.

Lemma party_body_ok (election_identifier : pyobj)
    (entries : list (string * pyobj)) (st st' : roster_locals)
    (party : pyobj) :
  party_body election_identifier entries st party = Ok st' ->
  exists new,
    rows st' = rows st ++ new
    /\ Forall2 (roster_row_for election_identifier entries)
         (map (fun c => (party, c)) (structured_candidates party)) new.
Proof.
  unfold party_body. intros H.
  unbind H as pname Epname.
  unbind H as pid Epid.
  unbind H as party_candidates Ecands.
  unbind H as candidates Eiter.
  apply candidates_loop_ok in H as (new & Hnew & Hall).
  exists new. split; [exact Hnew|].
  unfold structured_candidates. rewrite Ecands, Eiter.
  clear - Hall Epname Epid.
  induction Hall as [|c r cs rs (identifier & Hi & Hr) _ IH]; simpl;
    constructor; [|exact IH].
  exists pname, pid, identifier. auto.
Qed.

Lemma parties_loop_ok (election_identifier : pyobj)
    (entries : list (string * pyobj)) (parties : list pyobj)
    (st st' : roster_locals) :
  for_loop (party_body election_identifier entries) st parties = Ok st' ->
  exists new,
    rows st' = rows st ++ new
    /\ Forall2 (roster_row_for election_identifier entries)
         (roster_pairs parties) new.
Proof.
  revert st. induction parties as [|party parties IH]; intros st H.
  - simpl in H. inversion H; subst. exists []. rewrite app_nil_r.
    split; [reflexivity|constructor].
  - simpl in H. unbind H as st1 Hstep.
    apply IH in H as (new2 & Hnew2 & Hall2).
    apply party_body_ok in Hstep as (new1 & Hnew1 & Hall1).
    exists (new1 ++ new2). rewrite Hnew2, Hnew1, <- app_assoc.
    split; [reflexivity|]. unfold roster_pairs. simpl.
    now apply Forall2_app.
Qed.

Lemma either_family_single (ident : list (string * pyobj))
    (first second : string) (v : pyobj) :
  either_family (PDict ident) [first] [second] = Ok v ->
  v = prefer ident first second.
Proof.
  unfold either_family, prefer, path, subscript.
  destruct (lookup first ident) as [a|]; simpl; [congruence|].
  destruct (lookup second ident) as [b|]; simpl; [congruence|discriminate].
Qed.

(** What [parse_candidates] has done when it returns. *)
Lemma parse_candidates_unfold (data : pyobj) (rows0 rows1 : list row) :
  parse_candidates data rows0 = Ok rows1 ->
  exists ident election_id election_name domain_id domain_name contest
         new,
    path data ["EML"; "CandidateList"; "Election"; "ElectionIdentifier"]
    = Ok (PDict ident)
    /\ lookup "@Id" ident = Some election_id
    /\ lookup "ElectionName" ident = Some election_name
    /\ rows1 = rows0 ++ new
    /\ Forall2
         (roster_row_for (PDict ident)
            [ ("election_id", election_id);
              ("election_name", election_name);
              ("election_date",
               prefer ident "ns6:ElectionDate" "kr:ElectionDate");
              ("nomination_date",
               prefer ident "ns6:NominationDate" "kr:NominationDate");
              ("election_domain_id", domain_id);
              ("election_domain_name", domain_name);
              ("contest_name", contest);
              ("election_name", election_name) ])
         (roster_pairs (roster_parties data)) new.
Proof.
  unfold parse_candidates. intros H.
  unbind H as issue_date Eissue.
  unbind H as election Eelection.
  unbind H as ei Eei.
  unbind H as election_id Eid.
  unbind H as election_name Ename.
  unbind H as election_date Edate.
  unbind H as nomination_date Enom.
  unbind H as domain_id Edid.
  unbind H as domain_name Edname.
  unbind H as contest Econtest.
  unbind H as election_name2 Ename2.
  unbind H as parties Eparties.
  unbind H as party_items Eiter.
  unbind H as st Hloop.
  inversion H; subst; clear H.
  apply subscript_ok in Eid as (ident & -> & Lid).
  apply subscript_ok in Ename as (ident' & Ei & Lname).
  inversion Ei; subst ident'; clear Ei.
  apply either_family_single in Edate, Enom. subst.
  assert (election_name2 = election_name) as ->.
  { unfold path in Ename2. rewrite Eei in Ename2. cbn [bind] in Ename2.
    unfold subscript in Ename2. rewrite Lname in Ename2.
    simpl in Ename2. congruence. }
  apply parties_loop_ok in Hloop as (new & Hnew & Hall).
  exists ident, election_id, election_name, domain_id, domain_name,
    contest, new.
  split.
  { change ["EML"; "CandidateList"; "Election"; "ElectionIdentifier"]
      with (["EML"; "CandidateList"; "Election"] ++ ["ElectionIdentifier"]).
    rewrite path_app, Eelection. cbn [bind]. unfold path.
    now rewrite Eei. }
  split; [exact Lid|]. split; [exact Lname|].
  split; [exact Hnew|].
  replace (roster_parties data) with party_items; [exact Hall|].
  unfold roster_parties.
  change ["EML"; "CandidateList"; "Election"; "Contest"; "Affiliation"]
    with (["EML"; "CandidateList"; "Election"] ++ ["Contest"; "Affiliation"]).
  now rewrite path_app, Eelection; cbn [bind]; rewrite Eparties, Eiter.
Qed.

(** X11: [parse_candidates] only appends to the rows it is given.  The
    rows it appends are one per candidate that is a mapping, party by
    party and candidate by candidate in document order; each has the
    seventeen roster columns in their fixed order and holds the
    registered name and id of its party and the candidate's
    identifier.  Candidates that are not mappings get no row. *)
Theorem parse_candidates_appends_roster (data : pyobj)
    (rows0 rows1 : list row) :
  parse_candidates data rows0 = Ok rows1 ->
  exists new,
    rows1 = rows0 ++ new
    /\ map roster_key_of_row new = expected_roster data
    /\ Forall (fun r => column_names r = map KStr roster_columns) new.
Proof.
  intros H.
  apply parse_candidates_unfold in H
    as (ident & eid & ename & did & dname & contest & new
        & _ & _ & _ & Hnew & Hall).
  exists new. split; [exact Hnew|].
  unfold expected_roster. clear Hnew.
  induction Hall as [|pc r pcs rs Hr _ [IH1 IH2]]; simpl.
  - split; [reflexivity|constructor].
  - destruct Hr as (pn & pid & identifier & Hpn & Hpid & Hi
                    & fn & ln & ini & pre & gen & addr & ->).
    split.
    + f_equal; [|exact IH1].
      unfold roster_key_of. now rewrite Hpn, Hpid, Hi.
    + constructor; [reflexivity|exact IH2].
Qed.

Lemma parse_candidates_appends_roster_witness :
  map roster_key_of_row two_party_rows
  = [ (Some (PStr "PartyA"), Some (PStr "1"), Some (PStr "1"));
      (Some (PStr "PartyA"), Some (PStr "1"), Some (PStr "2")) ].
Proof.
  destruct (parse_candidates_appends_roster two_party_roster []
              two_party_rows)
    as (new & Hnew & Hkeys & _);
    [vm_compute; reflexivity|].
  simpl in Hnew. subst new. rewrite Hkeys. reflexivity.
Defined.

(** X12: every row that [parse_candidates] appends holds the election
    identifier mapping itself and its [@Id] and [ElectionName]; the
    election date and the nomination date are taken from the [ns6:] key
    when the identifier has it, and from the [kr:] key only
    otherwise. *)
Theorem roster_rows_carry_election (data : pyobj) (rows0 rows1 : list row) :
  parse_candidates data rows0 = Ok rows1 ->
  exists ident new,
    path data ["EML"; "CandidateList"; "Election"; "ElectionIdentifier"]
    = Ok (PDict ident)
    /\ rows1 = rows0 ++ new
    /\ Forall
         (fun r =>
            row_lookup (KStr "election_identifier") r = Some (PDict ident)
            /\ row_lookup (KStr "election_id") r = lookup "@Id" ident
            /\ row_lookup (KStr "election_name") r
               = lookup "ElectionName" ident
            /\ row_lookup (KStr "election_date") r
               = Some (prefer ident "ns6:ElectionDate" "kr:ElectionDate")
            /\ row_lookup (KStr "nomination_date") r
               = Some (prefer ident "ns6:NominationDate"
                         "kr:NominationDate"))
         new.
Proof.
  intros H.
  apply parse_candidates_unfold in H
    as (ident & eid & ename & did & dname & contest & new
        & Hpath & Lid & Lname & Hnew & Hall).
  exists ident, new. split; [exact Hpath|]. split; [exact Hnew|].
  rewrite Lid, Lname. clear - Hall.
  induction Hall as [|pc r pcs rs Hr _ IH]; constructor; [|exact IH].
  destruct Hr as (pn & pid & identifier & _ & _ & _
                  & fn & ln & ini & pre & gen & addr & ->).
  repeat split; reflexivity.
Qed.

Lemma roster_rows_carry_election_witness :
  Forall (fun r => row_lookup (KStr "election_date") r
                   = Some (PStr "2018-03-21")
                   /\ row_lookup (KStr "nomination_date") r
                      = Some (PStr "2018-02-05"))
    two_party_rows.
Proof.
  destruct (roster_rows_carry_election two_party_roster [] two_party_rows)
    as (ident & new & Hpath & Hnew & Hall);
    [vm_compute; reflexivity|].
  simpl in Hnew. subst new.
  vm_compute in Hpath. inversion Hpath; subst; clear Hpath.
  eapply Forall_impl; [|exact Hall].
  intros r (_ & _ & _ & Hdate & Hnom). split; assumption.
Defined.

(** X13: a party whose [Candidate] entry is a single mapping (one
    candidate, not a list of candidates) gets no roster row: the loop
    runs over the keys of the mapping, which are text and are skipped.
    The party does not make [parse_candidates] fail either. *)
Theorem single_candidate_party_is_skipped (election_identifier : pyobj)
    (entries : list (string * pyobj)) (st : roster_locals)
    (party candidate : list (string * pyobj)) (registered ident : pyobj) :
  path (PDict party) ["AffiliationIdentifier"; "RegisteredName"]
  = Ok registered ->
  path (PDict party) ["AffiliationIdentifier"; "@Id"] = Ok ident ->
  lookup "Candidate" party = Some (PDict candidate) ->
  party_body election_identifier entries st (PDict party) = Ok st.
Proof.
  intros Hreg Hid Hc. unfold party_body.
  rewrite Hreg, Hid. cbn [bind]. unfold subscript at 1. rewrite Hc.
  cbn [bind iterate]. clear Hc.
  induction candidate as [|[k v] candidate IH]; [reflexivity|].
  simpl map. cbn [for_loop].
  rewrite candidate_body_skips by reflexivity. exact IH.
Qed.

Lemma single_candidate_party_is_skipped_witness :
  party_body PNone [] {| rows := []; nr := None |}
    (sample_party "2" "PartyB" (full_candidate "1"))
  = Ok {| rows := []; nr := None |}.
Proof.
  refine (single_candidate_party_is_skipped PNone []
            {| rows := []; nr := None |} _ _ (PStr "PartyB") (PStr "2")
            _ _ _);
    reflexivity.
Defined.

(* ================================================================= *)
(** ** The batch of candidate lists *)

Lemma parse_candidates_columns (data : pyobj) (rows0 rows1 : list row) :
  parse_candidates data rows0 = Ok rows1 ->
  exists new,
    rows1 = rows0 ++ new
    /\ Forall (fun r => column_names r = map KStr roster_columns) new.
Proof.
  intros H.
  apply parse_candidates_unfold in H
    as (ident & eid & ename & did & dname & contest & new
        & _ & _ & _ & Hnew & Hall).
  exists new. split; [exact Hnew|]. clear Hnew.
  induction Hall as [|pc r pcs rs Hr _ IH]; constructor; [|exact IH].
  destruct Hr as (pn & pid & identifier & _ & _ & _
                  & fn & ln & ini & pre & gen & addr & ->).
  reflexivity.
Qed.

(** What one turn of the loop of [create_candidate_list] does when it
    returns. *)
Lemma candidate_list_file_ok (rows0 rows1 : list row) (p : file)
    (out : list string) :
  candidate_list_file rows0 p = (out, Ok rows1) ->
  out = []
  /\ (exists tree, content p = Parsed tree)
  /\ exists new,
       rows1 = rows0 ++ new
       /\ Forall (fun r => column_names r = map KStr roster_columns) new.
Proof.
  unfold candidate_list_file. rewrite read_eml_outcome.
  destruct (content p) as [tree|e message]; [|discriminate].
  intros H.
  apply io_bind_ok in H as (out1 & data & out2 & Hread & H & ->).
  assert (out1 = []) as -> by congruence.
  assert (data = tree) as -> by congruence.
  apply io_bind_ok in H as (out3 & null & out4 & Hnull & H & ->).
  unfold lift in Hnull.
  assert (out3 = []) as -> by congruence.
  split; [|split; [eauto|]].
  - destruct null; [unfold io_ret in H|unfold lift in H];
      assert (out4 = []) as -> by congruence; reflexivity.
  - destruct null.
    + unfold io_ret in H.
      assert (rows1 = rows0) as -> by congruence.
      exists []. rewrite app_nil_r. auto.
    + unfold lift in H.
      assert (Hp : parse_candidates tree rows0 = Ok rows1) by congruence.
      now apply (parse_candidates_columns tree).
Qed.

Lemma candidate_list_loop_ok (globbed : list file) (rows0 rows1 : list row)
    (out : list string) :
  io_for_loop candidate_list_file rows0 globbed = (out, Ok rows1) ->
  out = []
  /\ Forall (fun p => exists tree, content p = Parsed tree) globbed
  /\ exists new,
       rows1 = rows0 ++ new
       /\ Forall (fun r => column_names r = map KStr roster_columns) new.
Proof.
  revert rows0 out. induction globbed as [|p globbed IH]; intros rows0 out H.
  - simpl in H. unfold io_ret in H.
    assert (out = []) as -> by congruence.
    assert (rows1 = rows0) as -> by congruence.
    split; [reflexivity|]. split; [constructor|].
    exists []. rewrite app_nil_r. auto.
  - simpl in H.
    apply io_bind_ok in H as (out1 & rows & out2 & Hstep & H & ->).
    apply candidate_list_file_ok in Hstep as (-> & Hp & new1 & -> & Hall1).
    apply IH in H as (-> & Hps & new2 & -> & Hall2).
    split; [reflexivity|]. split; [now constructor|].
    exists (new1 ++ new2). rewrite <- app_assoc.
    split; [reflexivity|]. apply Forall_app. auto.
Qed.

Lemma roster_columns_NoDup : NoDup (map KStr roster_columns).
Proof. apply nodupb_NoDup. vm_compute. reflexivity. Qed.

(** X14: when [create_candidate_list] returns, every file of the batch
    was opened and parsed and nothing has been printed; every row of
    the table has the seventeen roster columns, which are then also the
    columns of the table (if it has a row at all). *)
Theorem candidate_table_layout (globbed : list file) (out : list string)
    (table : DataFrame) :
  create_candidate_list globbed = (out, Ok table) ->
  out = []
  /\ Forall (fun p => exists tree, content p = Parsed tree) globbed
  /\ Forall (fun r => column_names r = map KStr roster_columns)
       (records table)
  /\ (records table <> [] -> columns table = map KStr roster_columns).
Proof.
  unfold create_candidate_list. intros H.
  apply io_bind_ok in H as (out1 & rows & out2 & Hloop & H & ->).
  unfold io_ret in H.
  assert (out2 = []) as -> by congruence.
  assert (table = pd_DataFrame rows) as -> by congruence.
  apply candidate_list_loop_ok in Hloop as (-> & Hps & new & -> & Hall).
  simpl app in *.
  split; [reflexivity|]. split; [exact Hps|]. split; [exact Hall|].
  intros Hne. apply pd_DataFrame_uniform;
    [apply roster_columns_NoDup|exact Hne|exact Hall].
Qed.

Lemma candidate_table_layout_witness :
  columns sample_candidate_table = map KStr roster_columns
  /\ List.length (records sample_candidate_table) = 4.
Proof.
  destruct (candidate_table_layout
              [first_roster_file; readable_roster_file] []
              sample_candidate_table)
    as (_ & _ & _ & Hcols);
    [vm_compute; reflexivity|].
  split.
  - apply Hcols. discriminate.
  - reflexivity.
Defined.

(* ================================================================= *)
(** ** The rows of a batch of candidate lists *)

(** The rows that are there already do not matter to what a turn of
    the loops appends, nor to whether it raises. *)
Lemma for_loop_frame {S X} (f : S -> S) (body : S -> X -> res S)
    (items : list X) :
  (forall st x, body (f st) x = res_map f (body st x)) ->
  forall st, for_loop body (f st) items = res_map f (for_loop body st items).
Proof.
  intros Hbody. induction items as [|x items IH]; intros st; simpl;
    [reflexivity|].
  rewrite Hbody. destruct (body st x) as [st1|e]; simpl; [apply IH|reflexivity].
Qed.

Ltac frame_step :=
  match goal with
  | |- context [bind ?c _] =>
      lazymatch c with
      | context [@for_loop] => fail
      | _ => destruct c; cbn [bind res_map try_except]; try reflexivity
      end
  end.

Lemma candidate_body_frame (pre : list row) (election_identifier : pyobj)
    (entries : list (string * pyobj)) (party_name party_id : pyobj)
    (st : roster_locals) (candidate : pyobj) :
  candidate_body election_identifier entries party_name party_id
    (shifted pre st) candidate
  = res_map (shifted pre)
      (candidate_body election_identifier entries party_name party_id
         st candidate).
Proof.
  unfold candidate_body. cbn [nr rows shifted].
  destruct (try_except (path candidate ["CandidateIdentifier"; "@Id"])
              is_TypeError (Ok PNone)) as [identifier|e];
    cbn [bind res_map]; [|reflexivity].
  destruct (negb (isinstance_dict candidate)); [reflexivity|].
  repeat frame_step.
  unfold shifted. cbn [rows nr]. now rewrite app_assoc.
Qed.

Lemma party_body_frame (pre : list row) (election_identifier : pyobj)
    (entries : list (string * pyobj)) (st : roster_locals) (party : pyobj) :
  party_body election_identifier entries (shifted pre st) party
  = res_map (shifted pre)
      (party_body election_identifier entries st party).
Proof.
  unfold party_body. repeat frame_step.
  apply for_loop_frame. intros st' c. apply candidate_body_frame.
Qed.

Lemma parse_candidates_frame (pre : list row) (data : pyobj)
    (rows0 : list row) :
  parse_candidates data (pre ++ rows0)
  = res_map (app pre) (parse_candidates data rows0).
Proof.
  unfold parse_candidates. repeat frame_step.
  match goal with
  | |- context [for_loop ?body {| rows := pre ++ rows0; nr := None |} ?l] =>
      change {| rows := pre ++ rows0; nr := None |}
        with (shifted pre {| rows := rows0; nr := None |});
      rewrite (for_loop_frame (shifted pre) body l)
        by (intros st' c; apply party_body_frame);
      destruct (for_loop body {| rows := rows0; nr := None |} l)
  end; reflexivity.
Qed.

Lemma candidate_list_file_frame (pre rows0 : list row) (p : file) :
  candidate_list_file (pre ++ rows0) p
  = io_map (app pre) (candidate_list_file rows0 p).
Proof.
  unfold candidate_list_file. rewrite read_eml_outcome.
  destruct (content p) as [tree|e message]; [|reflexivity].
  unfold io_bind, lift, io_ret, io_map.
  destruct (pd_isnull tree) as [[|]|e]; try reflexivity.
  rewrite parse_candidates_frame.
  now destruct (parse_candidates tree rows0).
Qed.

Lemma candidate_list_loop_frame (pre : list row) (globbed : list file)
    (rows0 : list row) :
  io_for_loop candidate_list_file (pre ++ rows0) globbed
  = io_map (app pre) (io_for_loop candidate_list_file rows0 globbed).
Proof.
  revert rows0. induction globbed as [|p globbed IH]; intros rows0; simpl;
    [reflexivity|].
  rewrite candidate_list_file_frame. unfold io_bind, io_map.
  destruct (candidate_list_file rows0 p) as [out [rows1|e]];
    cbn [fst snd res_map]; [|reflexivity].
  rewrite IH. unfold io_map.
  now destruct (io_for_loop candidate_list_file rows1 globbed).
Qed.

(** X15: the table for a batch of candidate lists holds the rows of
    its files one after the other, in the order of the files.  When two
    batches each give a table, the batch of the two together gives the
    table of the rows of the first followed by the rows of the
    second. *)
Theorem create_candidate_list_concatenates (a b : list file)
    (out_a out_b : list string) (table_a table_b : DataFrame) :
  create_candidate_list a = (out_a, Ok table_a) ->
  create_candidate_list b = (out_b, Ok table_b) ->
  create_candidate_list (a ++ b)
  = ([], Ok (pd_DataFrame (records table_a ++ records table_b))).
Proof.
  unfold create_candidate_list. intros Ha Hb.
  apply io_bind_ok in Ha as (oa & rows_a & oa' & Hloop_a & Ha & _).
  apply io_bind_ok in Hb as (ob & rows_b & ob' & Hloop_b & Hb & _).
  unfold io_ret in Ha, Hb.
  assert (table_a = pd_DataFrame rows_a) as -> by congruence.
  assert (table_b = pd_DataFrame rows_b) as -> by congruence.
  cbn [records].
  pose proof (candidate_list_loop_ok _ _ _ _ Hloop_a) as (-> & _).
  pose proof (candidate_list_loop_ok _ _ _ _ Hloop_b) as (-> & _).
  rewrite io_for_loop_app, Hloop_a. cbn [io_bind].
  rewrite <- (app_nil_r rows_a) at 1.
  rewrite candidate_list_loop_frame, Hloop_b. reflexivity.
Qed.

Lemma create_candidate_list_concatenates_witness :
  exists first second,
    outcome (create_candidate_list [first_roster_file]) = Ok first
    /\ outcome (create_candidate_list [readable_roster_file]) = Ok second
    /\ List.length (records first) = 2
    /\ List.length (records second) = 2
    /\ create_candidate_list [first_roster_file; readable_roster_file]
       = ([], Ok (pd_DataFrame (records first ++ records second))).
Proof.
  destruct (create_candidate_list [first_roster_file])
    as [out_a [first|e]] eqn:Ea; [|vm_compute in Ea; discriminate Ea].
  destruct (create_candidate_list [readable_roster_file])
    as [out_b [second|e]] eqn:Eb; [|vm_compute in Eb; discriminate Eb].
  exists first, second.
  split; [reflexivity|]. split; [reflexivity|].
  split; [vm_compute in Ea; now inversion Ea|].
  split; [vm_compute in Eb; now inversion Eb|].
  exact (create_candidate_list_concatenates
           [first_roster_file] [readable_roster_file] _ _ _ _ Ea Eb).
Defined.

(* ================================================================= *)
(** ** [parse_eml] and [get_id_and_date] *)

Lemma io_bind_ret {A} (c : io A) : io_bind c io_ret = c.
Proof.
  destruct c as [out [a|e]]; simpl; [now rewrite app_nil_r|reflexivity].
Qed.

Lemma last_char_append (s t : string) (d : ascii) :
  last_char t = Some d -> last_char (s ++ t) = Some d.
Proof. intros H. induction s as [|c s IH]; simpl; [exact H|now rewrite IH]. Qed.

Lemma set_table_new (k : string) (df : DataFrame)
    (dfs : list (string * DataFrame)) :
  ~ In k (map fst dfs) -> set_table k df dfs = dfs ++ [(k, df)].
Proof.
  induction dfs as [|[k' df'] dfs IH]; simpl; intros H; [reflexivity|].
  destruct (String.eqb_spec k k') as [->|N].
  - exfalso. apply H. now left.
  - rewrite IH; [reflexivity|]. intros Hin. apply H. now right.
Qed.

Lemma count_table_name_ends_in_e (per_candidate : bool) (p : file)
    (nm : string) :
  names_for per_candidate p nm -> last_char nm = Some "e"%char.
Proof.
  intros [->|[_ ->]]; apply last_char_append; reflexivity.
Qed.

(** X16: without per-candidate emission [parse_eml] is [process_files]
    and the candidate lists are not read.  With it, when [parse_eml]
    returns, its tables are the tables of [process_files] unchanged and
    in the same order, followed by the table of
    [create_candidate_list] under the name [candidate_list]; no count
    table is replaced by it. *)
Theorem parse_eml_composes :
  (forall tellingen kandidatenlijsten,
     parse_eml tellingen kandidatenlijsten false
     = process_files tellingen false)
  /\ (forall tellingen kandidatenlijsten out tables,
        parse_eml tellingen kandidatenlijsten true = (out, Ok tables) ->
        exists dfs candidate_list,
          process_files tellingen true = ([], Ok dfs)
          /\ create_candidate_list kandidatenlijsten
             = (out, Ok candidate_list)
          /\ tables = dfs ++ [("candidate_list", candidate_list)]).
Proof.
  split.
  - intros tellingen kandidatenlijsten. unfold parse_eml.
    apply io_bind_ret.
  - intros tellingen kandidatenlijsten out tables H. unfold parse_eml in H.
    apply io_bind_ok in H as (out1 & dfs & out2 & Hp & H & ->).
    apply io_bind_ok in H as (out3 & cl & out4 & Hc & H & ->).
    unfold io_ret in H.
    assert (out4 = []) as -> by congruence.
    assert (tables = set_table "candidate_list" cl dfs) as -> by congruence.
    clear H. exists dfs, cl.
    pose proof Hp as Hp'. unfold process_files in Hp'.
    apply process_loop_tables in Hp' as (-> & _ & Hnames).
    rewrite app_nil_r. simpl app.
    split; [exact Hp|]. split; [exact Hc|].
    apply set_table_new. intros Hin. apply Hnames in Hin
      as [[]|(p & _ & Hn)].
    apply count_table_name_ends_in_e in Hn. discriminate Hn.
Qed.

Lemma parse_eml_composes_witness :
  map fst sample_parse_eml_tables
  = [ "Telling_GR2018_Testdorp_per_candidate";
      "Telling_GR2018_Testdorp_aggregate";
      "candidate_list" ].
Proof.
  destruct parse_eml_composes as [_ H].
  destruct (H [readable_file] [readable_roster_file] []
              sample_parse_eml_tables)
    as (dfs & cl & Hp & _ & ->);
    [vm_compute; reflexivity|].
  vm_compute in Hp. inversion Hp; subst. reflexivity.
Defined.

(** X17: for a batch with at least one definition file,
    [get_id_and_date] reads the first file only: the files after it do
    not matter to what it prints, returns or raises.  When it returns,
    it has printed nothing and returns the pair of the [@Id] and the
    [kr:ElectionDate] of that file's election identifier, never [None].
    When the first file cannot be opened or parsed, it raises what
    reading raised and does not go on to the next file. *)
Theorem get_id_and_date_reads_first (p : file) (others : list file) :
  (forall out r,
     get_id_and_date (p :: others) = (out, Ok r) ->
     out = []
     /\ exists tree identifier date,
          content p = Parsed tree
          /\ r = Some (identifier, date)
          /\ path tree ["EML"; "ElectionEvent"; "Election";
                        "ElectionIdentifier"; "@Id"] = Ok identifier
          /\ path tree ["EML"; "ElectionEvent"; "Election";
                        "ElectionIdentifier"; "kr:ElectionDate"] = Ok date)
  /\ (forall e message,
        content p = Failed e message ->
        get_id_and_date (p :: others) = ([], Raise (raised e)))
  /\ get_id_and_date (p :: others) = get_id_and_date [p].
Proof.
  split; [|split].
  - intros out r H. unfold get_id_and_date in H.
    rewrite read_eml_outcome in H.
    destruct (content p) as [tree|e message] eqn:C; [|discriminate H].
    apply io_bind_ok in H as (out1 & data & out2 & Hread & E & ->).
    assert (out1 = []) as -> by congruence.
    assert (data = tree) as -> by congruence.
    unfold lift in E.
    assert (out2 = []) as -> by congruence.
    match type of E with
    | (_, ?c) = _ => assert (E' : c = Ok r) by congruence
    end.
    clear E. rename E' into E.
    split; [reflexivity|].
    unbind E as election Eelection.
    unbind E as ei Eei.
    unbind E as identifier Eid.
    unbind E as ei2 Eei2.
    unbind E as date Edate.
    assert (ei2 = ei) as -> by congruence.
    exists tree, identifier, date.
    split; [reflexivity|]. split; [congruence|].
    split.
    + change ["EML"; "ElectionEvent"; "Election"; "ElectionIdentifier";
              "@Id"]
        with (["EML"; "ElectionEvent"; "Election"]
              ++ ["ElectionIdentifier"; "@Id"]).
      rewrite path_app, Eelection. cbn [bind]. unfold path.
      now rewrite Eei; cbn [bind]; rewrite Eid.
    + change ["EML"; "ElectionEvent"; "Election"; "ElectionIdentifier";
              "kr:ElectionDate"]
        with (["EML"; "ElectionEvent"; "Election"]
              ++ ["ElectionIdentifier"; "kr:ElectionDate"]).
      rewrite path_app, Eelection. cbn [bind]. unfold path.
      now rewrite Eei; cbn [bind]; rewrite Edate.
  - intros e message H. unfold get_id_and_date.
    rewrite read_eml_outcome, H. reflexivity.
  - reflexivity.
Qed.

Lemma get_id_and_date_reads_first_witness :
  get_id_and_date [definition_file; truncated_file]
  = ([], Ok (Some (PStr "GR2018", PStr "2018-03-21")))
  /\ get_id_and_date [truncated_file; definition_file]
     = ([], Raise ExpatError).
Proof.
  split.
  - destruct (get_id_and_date_reads_first definition_file [truncated_file])
      as [H _].
    destruct (H [] (Some (PStr "GR2018", PStr "2018-03-21")))
      as (_ & tree & i & d & _ & Hr & _);
      [vm_compute; reflexivity|].
    reflexivity.
  - destruct (get_id_and_date_reads_first truncated_file [definition_file])
      as (_ & H & _).
    apply (H NotWellFormed "no element found: line 1, column 0").
    reflexivity.
Defined.

(* ================================================================= *)
(** ** [string_to_int] *)

Lemma parse_digits_step (c : ascii) (d acc : Z) (b : bool) (s : string) :
  digit_of c = Some d ->
  parse_digits acc b (String c s) = parse_digits (10 * acc + d)%Z true s.
Proof. intros H. cbn [parse_digits]. now rewrite H. Qed.

Lemma parse_digits_numeral (u : Decimal.uint) (acc : nat) :
  parse_digits (Z.of_nat acc) true (DecimalString.NilEmpty.string_of_uint u)
  = Some (Z.of_nat (Nat.of_uint_acc u acc)).
Proof.
  revert acc.
  induction u as [|u IH|u IH|u IH|u IH|u IH|u IH|u IH|u IH|u IH|u IH];
    intros acc;
    cbn [DecimalString.NilEmpty.string_of_uint Nat.of_uint_acc];
    [ reflexivity
    | rewrite (parse_digits_step _ 0%Z) by reflexivity
    | rewrite (parse_digits_step _ 1%Z) by reflexivity
    | rewrite (parse_digits_step _ 2%Z) by reflexivity
    | rewrite (parse_digits_step _ 3%Z) by reflexivity
    | rewrite (parse_digits_step _ 4%Z) by reflexivity
    | rewrite (parse_digits_step _ 5%Z) by reflexivity
    | rewrite (parse_digits_step _ 6%Z) by reflexivity
    | rewrite (parse_digits_step _ 7%Z) by reflexivity
    | rewrite (parse_digits_step _ 8%Z) by reflexivity
    | rewrite (parse_digits_step _ 9%Z) by reflexivity ];
    rewrite <- IH; f_equal; rewrite Nat.tail_mul_spec; lia.
Qed.

Lemma to_uint_nonnil (n : nat) : Nat.to_uint n <> Decimal.Nil.
Proof.
  rewrite <- (DecimalNat.Unsigned.of_to n) at 1.
  rewrite DecimalNat.Unsigned.to_of.
  apply DecimalFacts.unorm_nonnil.
Qed.

Lemma numeral_rstrip (u : Decimal.uint) : rstrip (numeral u) = numeral u.
Proof.
  induction u; cbn [DecimalString.NilEmpty.string_of_uint rstrip];
    [reflexivity|..];
    rewrite IHu; destruct (numeral u); reflexivity.
Qed.

Lemma numeral_rstrip_space (u : Decimal.uint) :
  rstrip (numeral u ++ " ") = numeral u.
Proof.
  induction u;
    cbn [DecimalString.NilEmpty.string_of_uint rstrip append];
    [reflexivity|..];
    rewrite IHu; destruct (numeral u); reflexivity.
Qed.

Lemma numeral_strip (u : Decimal.uint) : strip (numeral u) = numeral u.
Proof.
  unfold strip.
  replace (lstrip (numeral u)) with (numeral u) by (destruct u; reflexivity).
  apply numeral_rstrip.
Qed.

Lemma numeral_strip_space (u : Decimal.uint) :
  strip (numeral u ++ " ") = numeral u.
Proof.
  unfold strip. destruct u; [reflexivity|..];
    (match goal with
     | |- rstrip (lstrip (numeral ?v ++ " ")) = _ =>
         replace (lstrip (numeral v ++ " ")) with (numeral v ++ " ")%string
           by reflexivity;
         apply (numeral_rstrip_space v)
     end).
Qed.

Lemma numeral_before_paren (u : Decimal.uint) (tail : string) :
  before_paren (numeral u ++ " (" ++ tail) = (numeral u ++ " ")%string
  /\ before_paren (numeral u) = numeral u.
Proof.
  induction u as [|u [IH1 IH2]|u [IH1 IH2]|u [IH1 IH2]|u [IH1 IH2]
                  |u [IH1 IH2]|u [IH1 IH2]|u [IH1 IH2]|u [IH1 IH2]
                  |u [IH1 IH2]|u [IH1 IH2]];
    simpl in *; [split; reflexivity|..];
    (split; [now rewrite IH1|now rewrite IH2]).
Qed.

Lemma remove_dots_append (a b : string) :
  remove_dots (a ++ b) = (remove_dots a ++ remove_dots b)%string.
Proof.
  induction a as [|c a IH]; simpl; [reflexivity|].
  destruct (Ascii.eqb c "."); simpl; now rewrite IH.
Qed.

Lemma count_digits_step (c : ascii) (d : Z) (s : string) :
  digit_of c = Some d -> count_digits (String c s) = (1 + count_digits s)%Z.
Proof. intros H. cbn [count_digits]. now rewrite H. Qed.

(** Every character of a numeral counts towards the limit. *)
Lemma count_digits_numeral (u : Decimal.uint) :
  count_digits (numeral u) = Z.of_nat (String.length (numeral u)).
Proof.
  induction u as [|u IH|u IH|u IH|u IH|u IH|u IH|u IH|u IH|u IH|u IH];
    cbn [DecimalString.NilEmpty.string_of_uint String.length];
    [ reflexivity
    | rewrite (count_digits_step _ 0%Z) by reflexivity
    | rewrite (count_digits_step _ 1%Z) by reflexivity
    | rewrite (count_digits_step _ 2%Z) by reflexivity
    | rewrite (count_digits_step _ 3%Z) by reflexivity
    | rewrite (count_digits_step _ 4%Z) by reflexivity
    | rewrite (count_digits_step _ 5%Z) by reflexivity
    | rewrite (count_digits_step _ 6%Z) by reflexivity
    | rewrite (count_digits_step _ 7%Z) by reflexivity
    | rewrite (count_digits_step _ 8%Z) by reflexivity
    | rewrite (count_digits_step _ 9%Z) by reflexivity ];
    rewrite IH, Nat2Z.inj_succ; lia.
Qed.

Lemma parse_numeral_numeral (u : Decimal.uint) :
  u <> Decimal.Nil ->
  (Z.of_nat (String.length (numeral u)) <= int_max_str_digits)%Z ->
  parse_numeral (numeral u) = Some (Z.of_nat (Nat.of_uint u)).
Proof.
  intros H Hb. unfold parse_numeral. rewrite count_digits_numeral.
  destruct (Z.leb_spec (Z.of_nat (String.length (numeral u)))
              int_max_str_digits) as [_|Hgt]; [|lia].
  clear Hb.
  destruct u; [contradiction|..];
    cbn [DecimalString.NilEmpty.string_of_uint].
  - rewrite (parse_digits_step _ 0%Z) by reflexivity.
    exact (parse_digits_numeral u 0).
  - rewrite (parse_digits_step _ 1%Z) by reflexivity.
    exact (parse_digits_numeral u 1).
  - rewrite (parse_digits_step _ 2%Z) by reflexivity.
    exact (parse_digits_numeral u 2).
  - rewrite (parse_digits_step _ 3%Z) by reflexivity.
    exact (parse_digits_numeral u 3).
  - rewrite (parse_digits_step _ 4%Z) by reflexivity.
    exact (parse_digits_numeral u 4).
  - rewrite (parse_digits_step _ 5%Z) by reflexivity.
    exact (parse_digits_numeral u 5).
  - rewrite (parse_digits_step _ 6%Z) by reflexivity.
    exact (parse_digits_numeral u 6).
  - rewrite (parse_digits_step _ 7%Z) by reflexivity.
    exact (parse_digits_numeral u 7).
  - rewrite (parse_digits_step _ 8%Z) by reflexivity.
    exact (parse_digits_numeral u 8).
  - rewrite (parse_digits_step _ 9%Z) by reflexivity.
    exact (parse_digits_numeral u 9).
Qed.

(** A numeral longer than the limit is refused. *)
Lemma parse_numeral_too_long (u : Decimal.uint) :
  (int_max_str_digits < Z.of_nat (String.length (numeral u)))%Z ->
  parse_numeral (numeral u) = None.
Proof.
  intros Hb. unfold parse_numeral. rewrite count_digits_numeral.
  destruct (Z.leb_spec (Z.of_nat (String.length (numeral u)))
              int_max_str_digits) as [Hle|_]; [lia|reflexivity].
Qed.

Lemma int_of_numeral (u : Decimal.uint) :
  u <> Decimal.Nil ->
  int_of_string (numeral u) = parse_numeral (numeral u).
Proof.
  intros H. unfold int_of_string. rewrite numeral_strip.
  destruct u; [contradiction|..]; reflexivity.
Qed.

Lemma int_of_decimal (n : nat) :
  (Z.of_nat (String.length (decimal n)) <= int_max_str_digits)%Z ->
  int_of_string (decimal n) = Some (Z.of_nat n).
Proof.
  unfold decimal. intros Hb.
  rewrite int_of_numeral, parse_numeral_numeral
    by (try apply to_uint_nonnil; exact Hb).
  now rewrite DecimalNat.Unsigned.of_to.
Qed.

(** X18: [string_to_int] reads a count as the scraped pages print it:
    if the text is the decimal numeral of [n] with dots between digits
    (as thousands separators), alone or followed by a space and a
    parenthesised remark such as a percentage, the result is [n],
    provided the numeral has no more digits than [int] accepts; a
    longer numeral makes it raise [ValueError]. *)
Theorem string_to_int_reads_count (n : nat) (s tail : string) :
  remove_dots s = decimal n ->
  ((Z.of_nat (String.length (decimal n)) <= int_max_str_digits)%Z ->
   string_to_int (PStr s) = Ok (Z.of_nat n)
   /\ string_to_int (PStr (s ++ " (" ++ tail)) = Ok (Z.of_nat n))
  /\ ((int_max_str_digits < Z.of_nat (String.length (decimal n)))%Z ->
      string_to_int (PStr s) = Raise ValueError).
Proof.
  intros H. unfold string_to_int. cbv zeta. split; [intros Hb; split|].
  - rewrite H. unfold decimal.
    destruct (numeral_before_paren (Nat.to_uint n) "") as [_ ->].
    rewrite numeral_strip. unfold py_int.
    fold (decimal n). now rewrite int_of_decimal.
  - rewrite remove_dots_append, H.
    replace (remove_dots (" (" ++ tail))
      with (" (" ++ remove_dots tail)%string by reflexivity.
    unfold decimal.
    destruct (numeral_before_paren (Nat.to_uint n) (remove_dots tail))
      as [-> _].
    rewrite numeral_strip_space. unfold py_int.
    fold (decimal n). now rewrite int_of_decimal.
  - intros Hb. rewrite H. unfold decimal in *.
    destruct (numeral_before_paren (Nat.to_uint n) "") as [_ ->].
    rewrite numeral_strip. unfold py_int.
    rewrite int_of_numeral by apply to_uint_nonnil.
    now rewrite parse_numeral_too_long.
Qed.

Lemma string_to_int_reads_count_witness :
  string_to_int (PStr "1.234.567") = Ok 1234567%Z
  /\ string_to_int (PStr "12.345 (67,8%)") = Ok 12345%Z.
Proof.
  split.
  - destruct (string_to_int_reads_count 1234567 "1.234.567" "") as [H _];
      [vm_compute; reflexivity|].
    apply H. vm_compute. discriminate.
  - destruct (string_to_int_reads_count 12345 "12.345" "67,8%)") as [H _];
      [vm_compute; reflexivity|].
    apply H. vm_compute. discriminate.
Defined.

Lemma before_paren_append (a b : string) :
  before_paren (a ++ "(" ++ b) = before_paren a.
Proof.
  induction a as [|c a IH]; [reflexivity|].
  cbn [append before_paren].
  destruct (Ascii.eqb c "("); [reflexivity|].
  f_equal. exact IH.
Qed.

(** X19: [string_to_int] looks only at what precedes the first opening
    parenthesis.  Appending a parenthesis and any further text to a
    text, whether or not it already holds one, changes neither the
    number returned nor the exception raised. *)
Theorem string_to_int_ignores_remark (s tail : string) :
  string_to_int (PStr (s ++ "(" ++ tail)) = string_to_int (PStr s).
Proof.
  unfold string_to_int. cbv zeta.
  rewrite remove_dots_append.
  replace (remove_dots ("(" ++ tail))
    with ("(" ++ remove_dots tail)%string by reflexivity.
  now rewrite before_paren_append.
Qed.
